(** * Bluesky follower scraper: the ingestion pipeline

    A shallow embedding of the Go programs of the repository (the root
    [main.go], the two generations of [clean_start/main.go] and of
    [resume_start/main.go]) and the properties of their three functions
    [fetchFollowers], [saveFollowers] and [main].

    The programs, oldest first, and their modules:
    - [Root]: main.go at the root (one request per page, no retry);
    - [Part000]: the program of unnamed/part_000 (retry loop added);
    - [Part001]: unnamed/part_001 (start token from the command line,
      extended records, rollback);
    - [CleanStart]: the first program of clean_start/main.go (context,
      interrupt signal, exit on error);
    - [ResumeStart]: the second program of clean_start/main.go (the same
      for the resumable variant, which retries on error).

    Go strings and byte slices are [string] (a sequence of bytes), Go
    [error] values are their message, the SQLite table is a finite map
    from the primary key [did] to the remaining columns.  What the
    programs cannot control (the network, the clock, the interrupt
    signal, the database engine) is an explicit environment [Env]; what
    they change is explicit state. *)

From Stdlib Require Import Ascii String NArith Arith Lia Bool.
From stdpp Require Import base option list strings gmap.

Local Open Scope nat_scope.

(** ** Go values *)

(** A Go [error] is modelled by its message ([err.Error()]). *)
Definition error : Type := string.

(** A [time.Time] is an instant: nanoseconds since the epoch. *)
Definition Time : Type := Z.

(** Outcome of a Go function returning [(T, error)]. *)
Inductive result (T : Type) : Type :=
| Ok (v : T)
| Err (err : error).
Arguments Ok {T} v.
Arguments Err {T} err.

(** [strings.Join(elems, sep)]. *)
Fixpoint strings_Join (elems : list string) (sep : string) : string :=
  match elems with
  | [] => ""
  | [e] => e
  | e :: rest => e +:+ sep +:+ strings_Join rest sep
  end.

(** [strings.HasPrefix(s, prefix)]. *)
Definition strings_HasPrefix (s prefix : string) : bool := String.prefix prefix s.

(** ** database/sql over one SQLite table

    The table has a [TEXT PRIMARY KEY] column [did]; a row is the tuple of
    the other columns.  A transaction works on its own view of the table;
    [Commit] installs the view, [Rollback] drops it.  [open_tx] counts the
    transactions begun and not yet finished. *)
Module sql.
Section Table.
Context {Row : Type}.

Record DB : Type := mkDB {
  table : gmap string Row;
  open_tx : nat
}.

Record Tx : Type := mkTx { view : gmap string Row }.

(** What the engine does during one transaction: which calls fail, and
    with which message.  [exec_err i] is the fate of the [i]-th
    [stmt.Exec] (counted from 0). *)
Record Faults : Type := mkFaults {
  begin_err : option error;
  prepare_err : option error;
  exec_err : nat -> option error;
  commit_err : option error;
  rollback_err : option error
}.

Definition no_faults : Faults :=
  mkFaults None None (fun _ => None) None None.

(** [db.Begin()] *)
Definition Begin (f : Faults) (d : DB) : result (DB * Tx) :=
  match begin_err f with
  | Some err => Err err
  | None => Ok (mkDB (table d) (S (open_tx d)), mkTx (table d))
  end.

(** [INSERT OR REPLACE INTO followers (did, ...) VALUES (?, ...)]: the
    row whose key is [did], if any, is replaced. *)
Definition InsertOrReplace (t : Tx) (did : string) (r : Row) : Tx :=
  mkTx (<[did := r]> (view t)).

(** [tx.Commit()]: a failed commit leaves the table as it was. *)
Definition Commit (f : Faults) (d : DB) (t : Tx) : DB * option error :=
  match commit_err f with
  | Some err => (mkDB (table d) (pred (open_tx d)), Some err)
  | None => (mkDB (view t) (pred (open_tx d)), None)
  end.

(** [tx.Rollback()] *)
Definition Rollback (f : Faults) (d : DB) (t : Tx) : DB * option error :=
  (mkDB (table d) (pred (open_tx d)), rollback_err f).

(** The loop [for _, follower := range followers { stmt.Exec(...) }]
    up to its first failing [Exec]: the transaction after the last
    statement, or the record whose statement failed and the error.
    [args] are the values bound to the statement for a record. *)
Fixpoint exec_each {Follower : Type} (args : Follower -> string * Row)
    (f : Faults) (i : nat) (t : Tx) (followers : list Follower)
    : Tx + (Follower * error) :=
  match followers with
  | [] => inl t
  | follower :: rest =>
      match exec_err f i with
      | Some err => inr (follower, err)
      | None =>
          exec_each args f (S i)
            (InsertOrReplace t (args follower).1 (args follower).2) rest
      end
  end.

(** The table after upserting a batch, record by record. *)
Definition upsert_all {Follower : Type} (args : Follower -> string * Row)
    (m : gmap string Row) (followers : list Follower) : gmap string Row :=
  foldl (fun m follower => <[(args follower).1 := (args follower).2]> m)
        m followers.
End Table.
Arguments DB : clear implicits.
Arguments Tx : clear implicits.
End sql.

(** ** net/http: content sniffing

    [http.DetectContentType], after sniff.go of the Go standard library:
    it looks at the first 512 bytes, skips leading white space and tries
    its signatures in order.  The table starts with the HTML signatures,
    which answer "text/html; charset=utf-8" and are the only ones the
    programs care about; the rest of the table is [sniffRest] of the
    environment. *)
Module sniff.

Definition sniffLen : nat := 512.

Fixpoint first_bytes (n : nat) (data : string) : string :=
  match n, data with
  | S n', String b rest => String b (first_bytes n' rest)
  | _, _ => ""
  end.

Definition isWS (b : ascii) : bool :=
  (N_of_ascii b =? 9)%N || (N_of_ascii b =? 10)%N || (N_of_ascii b =? 12)%N
  || (N_of_ascii b =? 13)%N || (N_of_ascii b =? 32)%N.

(** tag-terminating byte: space or [>] *)
Definition isTT (b : ascii) : bool :=
  (N_of_ascii b =? 32)%N || (N_of_ascii b =? 62)%N.

(** [data[firstNonWS:]] *)
Fixpoint skipWS (data : string) : string :=
  match data with
  | String b rest => if isWS b then skipWS rest else data
  | EmptyString => data
  end.

Definition isUpper (b : ascii) : bool :=
  (65 <=? N_of_ascii b)%N && (N_of_ascii b <=? 90)%N.

(** [htmlSig.match] on [data[firstNonWS:]]: every byte of the signature
    matches (letters case-insensitively, by [db &= 0xDF]) and the next
    byte terminates a tag. *)
Fixpoint htmlSig_match (h data : string) : bool :=
  match h, data with
  | EmptyString, String db _ => isTT db
  | String b h', String db data' =>
      let db := if isUpper b then ascii_of_N (N.land (N_of_ascii db) 223) else db in
      if Ascii.eqb b db then htmlSig_match h' data' else false
  | _, EmptyString => false
  end.

Definition htmlSigs : list string :=
  [ "<!DOCTYPE HTML"; "<HTML"; "<HEAD"; "<SCRIPT"; "<IFRAME"; "<H1"; "<DIV";
    "<FONT"; "<TABLE"; "<A"; "<STYLE"; "<TITLE"; "<B"; "<BODY"; "<BR"; "<P";
    "<!--" ].

Definition html : string := "text/html; charset=utf-8".

Definition DetectContentType (sniffRest : string -> string) (data : string)
    : string :=
  let data := first_bytes sniffLen data in
  if existsb (fun h => htmlSig_match h (skipWS data)) htmlSigs
  then html
  else sniffRest data.

End sniff.

(** ** The environment and the state of a run *)

(** What one [client.Do(req)] brings back. *)
Inductive RoundTrip : Type :=
| TransportError (err : error)
| Response (StatusCode : nat) (Body : string) (readErr : option error).

(** The environment of a run.  [roundTrip k url] is the duration in
    seconds and the outcome of the [k]-th request sent by the process;
    [dbFaults k] says what the engine does during its [k]-th transaction;
    [cancelAt] is the instant (seconds since start) of the interrupt
    signal, when there is one. *)
Record Env {Follower : Type} : Type := mkEnv {
  json_Unmarshal : string -> option (list Follower * string);
  sniffRest : string -> string;
  newRequestErr : string -> option error;
  roundTrip : nat -> string -> nat * RoundTrip;
  cancelAt : option nat;
  dbFaults : nat -> sql.Faults
}.
Arguments Env : clear implicits.
Arguments mkEnv {Follower}.

(** Ghost trace of a run: the attempts ("Making API request" in the log)
    with the instant they start at, and the calls of [time.Sleep], in
    seconds. *)
Inductive Event : Type :=
| EvAttempt (now : nat) (attempt : nat) (url : string)
| EvSleep (seconds : nat).

(** The state [fetchFollowers] works on. *)
Record Runtime : Type := mkRuntime {
  clock : nat;
  sent : nat;
  events : list Event
}.

Definition time_Sleep (seconds : nat) (w : Runtime) : Runtime :=
  mkRuntime (clock w + seconds) (sent w) (events w ++ [EvSleep seconds]).

Definition log_attempt (attempt : nat) (url : string) (w : Runtime) : Runtime :=
  mkRuntime (clock w) (sent w) (events w ++ [EvAttempt (clock w) attempt url]).

(** The trace without the instants: attempt [a] to [url] is [inl (a, url)],
    a wait of [s] seconds is [inr s]. *)
Definition shape (evs : list Event) : list (nat * string + nat) :=
  map (fun e => match e with
                | EvAttempt _ a u => inl (a, u)
                | EvSleep s => inr s
                end) evs.

(** Seconds spent in [time.Sleep]. *)
Fixpoint slept (evs : list Event) : nat :=
  match evs with
  | [] => 0
  | EvSleep s :: rest => s + slept rest
  | EvAttempt _ _ _ :: rest => slept rest
  end.

Definition canceled : error := "context canceled".

Section Ctx.
Context {Follower : Type} (env : Env Follower).

(** [ctx.Err()] at the current instant. *)
Definition ctx_Err (w : Runtime) : option error :=
  match cancelAt env with
  | Some t => if t <=? clock w then Some canceled else None
  | None => None
  end.

(** [client.Do(req)]: the request is sent and takes its time. *)
Definition client_Do (url : string) (w : Runtime) : Runtime * RoundTrip :=
  let '(d, r) := roundTrip env (sent w) url in
  (mkRuntime (clock w + d) (S (sent w)) (events w), r).

(** [http.Get(url)]: build the request, then send it. *)
Definition http_Get (url : string) (w : Runtime) : Runtime * RoundTrip :=
  match newRequestErr env url with
  | Some err => (w, TransportError err)
  | None => client_Do url w
  end.
End Ctx.

Definition baseURL : string :=
  "https://public.api.bsky.app/xrpc/app.bsky.graph.getFollowers?actor=did%3Aplc%3Az72i7hdynmk6r22z27h6tvur&limit=30".
Definition maxRetries : nat := 5.
Definition StatusOK : nat := 200.

(** What one pass through the body of the retry loop decides. *)
Inductive Failure : Type :=
| TransportFailure
| NonSuccessStatus
| BodyReadFailure
| ContentTypeMismatch
| DecodeFailure.

Inductive Decision {Follower : Type} : Type :=
| Return (followers : list Follower) (cursor : string)
| Abort (err : error)
| Retry (why : Failure).
Arguments Decision : clear implicits.

(** The retry loop [for attempt := 1; attempt <= maxRetries; attempt++]
    shared by every [fetchFollowers] that has one.  [n] is the number of
    iterations left, [guard] the check at the head of the body ([ctx.Err()]
    where the program has a context), [body] the rest of the body. *)
Fixpoint retry_loop {Follower : Type}
    (guard : Runtime -> option error)
    (body : string -> Runtime -> Runtime * Decision Follower)
    (url cursor : string) (n attempt : nat) (w : Runtime)
    : Runtime * result (list Follower * string) :=
  match n with
  | 0 => (w, Err ("exceeded max retries for cursor " +:+ cursor))
  | S n' =>
      match guard w with
      | Some err => (w, Err err)
      | None =>
          match body url (log_attempt attempt url w) with
          | (w, Return followers newCursor) => (w, Ok (followers, newCursor))
          | (w, Abort err) => (w, Err err)
          | (w, Retry _) =>
              retry_loop guard body url cursor n' (S attempt)
                         (time_Sleep attempt w)
          end
      end
  end.

(** [url := baseURL; if cursor != "" { url += "&cursor=" + cursor }] *)
Definition requestURL (cursor : string) : string :=
  if String.eqb cursor "" then baseURL
  else baseURL +:+ ("&cursor=" +:+ cursor).

(** ** The driver: state of the process *)

Inductive Status : Type :=
| RUNNING
| CANCELLED
| DONE
| FAILED (err : error).

(** [saved] is the ghost list of the batches handed to [saveFollowers],
    [txs] the number of transactions asked of the engine so far. *)
Record Process {Follower Row : Type} : Type := mkProcess {
  rt : Runtime;
  db : sql.DB Row;
  txs : nat;
  saved : list (list Follower)
}.
Arguments Process : clear implicits.
Arguments mkProcess {Follower Row}.

(** The endless [for { ... }] of [main]: [iter] is one pass through its
    body, and the loop goes on while the pass ends in [RUNNING] (the end of
    the body or a [continue]).  Out of fuel the state is still
    [RUNNING]. *)
Fixpoint main_loop {P : Type} (iter : string -> P -> Status * string * P)
    (fuel : nat) (cursor : string) (p : P) : Status * string * P :=
  match fuel with
  | 0 => (RUNNING, cursor, p)
  | S fuel' =>
      match iter cursor p with
      | (RUNNING, cursor, p) => main_loop iter fuel' cursor p
      | stop => stop
      end
  end.

(** ** The two record shapes *)

(** The minimal shape: root [main.go] and the [clean_start] programs. *)
Module Minimal.

Record Follower : Type := mkFollower {
  DID : string;
  Handle : string;
  DisplayName : string;
  Avatar : string;
  CreatedAt : Time;
  IndexedAt : Time
}.

(** Columns [handle, displayName, avatar, createdAt, indexedAt]. *)
Record Row : Type := mkRow {
  handle : string;
  displayName : string;
  avatar : string;
  createdAt : Time;
  indexedAt : Time
}.

(** The arguments of [stmt.Exec] for one follower. *)
Definition exec_args (follower : Follower) : string * Row :=
  (DID follower,
   mkRow (Handle follower) (DisplayName follower) (Avatar follower)
         (CreatedAt follower) (IndexedAt follower)).

End Minimal.

(** The extended shape of the [resume_start] programs: viewer flags, labels
    and a description. *)
Module Extended.

Record Viewer : Type := mkViewer {
  Muted : bool;
  BlockedBy : bool;
  Following : string
}.

Record Label : Type := mkLabel {
  Type_ : string;
  Value : string
}.

Record Follower : Type := mkFollower {
  DID : string;
  Handle : string;
  DisplayName : string;
  Avatar : string;
  Viewer_ : Viewer;
  Labels : list Label;
  CreatedAt : Time;
  Description : string;
  IndexedAt : Time
}.

(** Columns [handle, displayName, avatar, viewer_muted, viewer_blockedBy,
    viewer_following, labels, createdAt, description, indexedAt]. *)
Record Row : Type := mkRow {
  handle : string;
  displayName : string;
  avatar : string;
  viewer_muted : bool;
  viewer_blockedBy : bool;
  viewer_following : string;
  labels : string;
  createdAt : Time;
  description : string;
  indexedAt : Time
}.

(** [fmt.Sprintf("%s:%s", label.Type, label.Value)] *)
Definition label_pair (label : Label) : string :=
  Type_ label +:+ ":" +:+ Value label.

(** The inner loop over [follower.Labels] followed by
    [labelStr := strings.Join(labels, ",")]. *)
Definition labelStr (follower : Follower) : string :=
  strings_Join (foldl (fun labels label => labels ++ [label_pair label])
                      [] (Labels follower)) ",".

(** The arguments of [stmt.Exec] for one follower. *)
Definition exec_args (follower : Follower) : string * Row :=
  (DID follower,
   mkRow (Handle follower) (DisplayName follower) (Avatar follower)
         (Muted (Viewer_ follower)) (BlockedBy (Viewer_ follower))
         (Following (Viewer_ follower)) (labelStr follower)
         (CreatedAt follower) (Description follower) (IndexedAt follower)).

End Extended.

(** ** main.go at the root of the repository: no retry, no rollback *)
Module Root.
Import Minimal.

Definition saveFollowers (f : sql.Faults) (db : sql.DB Row)
    (followers : list Follower) : sql.DB Row * option error :=
  match sql.Begin f db with
  | Err err => (db, Some ("failed to begin transaction: " +:+ err))
  | Ok (db, tx) =>
      match sql.prepare_err f with
      | Some err => (db, Some ("failed to prepare statement: " +:+ err))
      | None =>
          match sql.exec_each exec_args f 0 tx followers with
          | inr (_, err) =>
              (db, Some ("failed to execute statement: " +:+ err))
          | inl tx =>
              match sql.Commit f db tx with
              | (db, Some err) =>
                  (db, Some ("failed to commit transaction: " +:+ err))
              | (db, None) => (db, None)
              end
          end
      end
  end.

Section Run.
Variable env : Env Follower.

(** The message of the error of [json.Unmarshal] on a body it rejects. *)
Variable jsonErr : string -> error.

(** One [http.Get], no retry; neither the status nor the content type of
    the response is looked at. *)
Definition fetchFollowers (cursor : string) (w : Runtime)
    : Runtime * result (list Follower * string) :=
  let '(w, r) := http_Get env (requestURL cursor) w in
  match r with
  | TransportError err => (w, Err ("failed to make API request: " +:+ err))
  | Response status body readErr =>
      match readErr with
      | Some err => (w, Err ("failed to read response body: " +:+ err))
      | None =>
          match json_Unmarshal env body with
          | None => (w, Err ("failed to unmarshal JSON: " +:+ jsonErr body))
          | Some (followers, newCursor) => (w, Ok (followers, newCursor))
          end
      end
  end.

(** One pass through the body of the loop of [main]: both errors end in
    [log.Fatalf]. *)
Definition main_iter (cursor : string) (p : Process Follower Row)
    : Status * string * Process Follower Row :=
  match fetchFollowers cursor (rt p) with
  | (w, Err err) => (FAILED err, cursor, mkProcess w (db p) (txs p) (saved p))
  | (w, Ok (followers, newCursor)) =>
      match saveFollowers (dbFaults env (txs p)) (db p) followers with
      | (d, Some err) =>
          (FAILED err, cursor,
           mkProcess w d (S (txs p)) (saved p ++ [followers]))
      | (d, None) =>
          let p := mkProcess w d (S (txs p)) (saved p ++ [followers]) in
          if String.eqb newCursor "" then (DONE, cursor, p)
          else (RUNNING, newCursor, p)
      end
  end.

(** [main]: [cursor := ""], then the loop. *)
Definition main (fuel : nat) (p : Process Follower Row)
    : Status * string * Process Follower Row :=
  main_loop main_iter fuel "" p.
End Run.

End Root.

(** ** unnamed/part_000: the first [clean_start] program with a retry loop *)
Module Part000.
Import Minimal.

(** As in the root program: no [tx.Rollback()]. *)
Definition saveFollowers (f : sql.Faults) (db : sql.DB Row)
    (followers : list Follower) : sql.DB Row * option error :=
  match sql.Begin f db with
  | Err err => (db, Some ("failed to begin transaction: " +:+ err))
  | Ok (db, tx) =>
      match sql.prepare_err f with
      | Some err => (db, Some ("failed to prepare statement: " +:+ err))
      | None =>
          match sql.exec_each exec_args f 0 tx followers with
          | inr (_, err) =>
              (db, Some ("failed to execute statement: " +:+ err))
          | inl tx =>
              match sql.Commit f db tx with
              | (db, Some err) =>
                  (db, Some ("failed to commit transaction: " +:+ err))
              | (db, None) => (db, None)
              end
          end
      end
  end.

Section Run.
Variable env : Env Follower.

(** No status check in this program; the HTML test compares with the
    bare media type. *)
Definition classify (r : RoundTrip) : Decision Follower :=
  match r with
  | TransportError err => Retry TransportFailure
  | Response status body readErr =>
      match readErr with
      | Some err => Retry BodyReadFailure
      | None =>
          if String.eqb (sniff.DetectContentType (sniffRest env) body)
                        "text/html"
          then Retry ContentTypeMismatch
          else
            match json_Unmarshal env body with
            | None => Retry DecodeFailure
            | Some (followers, cursor) => Return followers cursor
            end
      end
  end.

Definition attempt_body (url : string) (w : Runtime)
    : Runtime * Decision Follower :=
  let '(w, r) := http_Get env url w in (w, classify r).

Definition fetchFollowers (cursor : string) (w : Runtime)
    : Runtime * result (list Follower * string) :=
  retry_loop (fun _ => None) attempt_body (requestURL cursor) cursor
             maxRetries 1 w.

(** One pass through the body of the loop of [main]: both errors end in
    [log.Fatalf]. *)
Definition main_iter (cursor : string) (p : Process Follower Row)
    : Status * string * Process Follower Row :=
  match fetchFollowers cursor (rt p) with
  | (w, Err err) => (FAILED err, cursor, mkProcess w (db p) (txs p) (saved p))
  | (w, Ok (followers, newCursor)) =>
      match saveFollowers (dbFaults env (txs p)) (db p) followers with
      | (d, Some err) =>
          (FAILED err, cursor,
           mkProcess w d (S (txs p)) (saved p ++ [followers]))
      | (d, None) =>
          let p := mkProcess w d (S (txs p)) (saved p ++ [followers]) in
          if String.eqb newCursor "" then (DONE, cursor, p)
          else (RUNNING, newCursor, p)
      end
  end.

(** [main]: [cursor := ""], then the loop. *)
Definition main (fuel : nat) (p : Process Follower Row)
    : Status * string * Process Follower Row :=
  main_loop main_iter fuel "" p.
End Run.

End Part000.

(** ** unnamed/part_001: the first [resume_start] program *)
Module Part001.
Import Extended.

Definition saveFollowers (f : sql.Faults) (db : sql.DB Row)
    (followers : list Follower) : sql.DB Row * option error :=
  match sql.Begin f db with
  | Err err => (db, Some ("failed to begin transaction: " +:+ err))
  | Ok (db, tx) =>
      match sql.prepare_err f with
      | Some err =>
          let '(db, _) := sql.Rollback f db tx in
          (db, Some ("failed to prepare statement: " +:+ err))
      | None =>
          match sql.exec_each exec_args f 0 tx followers with
          | inr (follower, err) =>
              let '(db, _) := sql.Rollback f db tx in
              (db, Some ("failed to execute statement for follower "
                         +:+ DID follower +:+ ": " +:+ err))
          | inl tx =>
              match sql.Commit f db tx with
              | (db, Some err) =>
                  (db, Some ("failed to commit transaction: " +:+ err))
              | (db, None) => (db, None)
              end
          end
      end
  end.

Section Run.
Variable env : Env Follower.

Definition classify (r : RoundTrip) : Decision Follower :=
  match r with
  | TransportError err => Retry TransportFailure
  | Response status body readErr =>
      if negb (status =? StatusOK) then Retry NonSuccessStatus
      else
        match readErr with
        | Some err => Retry BodyReadFailure
        | None =>
            if String.eqb (sniff.DetectContentType (sniffRest env) body)
                          "text/html; charset=utf-8"
            then Retry ContentTypeMismatch
            else
              match json_Unmarshal env body with
              | None => Retry DecodeFailure
              | Some (followers, cursor) => Return followers cursor
              end
        end
  end.

Definition attempt_body (url : string) (w : Runtime)
    : Runtime * Decision Follower :=
  let '(w, r) := http_Get env url w in (w, classify r).

Definition fetchFollowers (cursor : string) (w : Runtime)
    : Runtime * result (list Follower * string) :=
  retry_loop (fun _ => None) attempt_body (requestURL cursor) cursor
             maxRetries 1 w.

(** One pass through the body of the loop of [main]: both errors end
    in [continue], the first after [time.Sleep(2 * time.Second)]. *)
Definition main_iter (cursor : string) (p : Process Follower Row)
    : Status * string * Process Follower Row :=
  match fetchFollowers cursor (rt p) with
  | (w, Err err) =>
      (RUNNING, cursor,
       mkProcess (time_Sleep 2 w) (db p) (txs p) (saved p))
  | (w, Ok (followers, newCursor)) =>
      match saveFollowers (dbFaults env (txs p)) (db p) followers with
      | (d, Some err) =>
          (RUNNING, cursor,
           mkProcess w d (S (txs p)) (saved p ++ [followers]))
      | (d, None) =>
          let p := mkProcess w d (S (txs p)) (saved p ++ [followers]) in
          if String.eqb newCursor "" then (DONE, cursor, p)
          else (RUNNING, newCursor, p)
      end
  end.

(** [main]: [cursor := *startCursor], then the loop. *)
Definition main (fuel : nat) (startCursor : string)
    (p : Process Follower Row) : Status * string * Process Follower Row :=
  main_loop main_iter fuel startCursor p.
End Run.

End Part001.

(** ** clean_start/main.go, first program: the current [clean_start] *)
Module CleanStart.
Import Minimal.

Definition saveFollowers (f : sql.Faults) (db : sql.DB Row)
    (followers : list Follower) : sql.DB Row * option error :=
  match sql.Begin f db with
  | Err err => (db, Some ("failed to begin transaction: " +:+ err))
  | Ok (db, tx) =>
      match sql.prepare_err f with
      | Some err =>
          match sql.Rollback f db tx with
          | (db, Some rbErr) =>
              (db, Some ("failed to prepare statement: " +:+ err
                         +:+ ", rollback failed: " +:+ rbErr))
          | (db, None) =>
              (db, Some ("failed to prepare statement: " +:+ err))
          end
      | None =>
          match sql.exec_each exec_args f 0 tx followers with
          | inr (_, err) =>
              match sql.Rollback f db tx with
              | (db, Some rbErr) =>
                  (db, Some ("failed to execute statement: " +:+ err
                             +:+ ", rollback failed: " +:+ rbErr))
              | (db, None) =>
                  (db, Some ("failed to execute statement: " +:+ err))
              end
          | inl tx =>
              match sql.Commit f db tx with
              | (db, Some err) =>
                  (db, Some ("failed to commit transaction: " +:+ err))
              | (db, None) => (db, None)
              end
          end
      end
  end.

Section Run.
Variable env : Env Follower.

(** What the program makes of a response. *)
Definition classify (r : RoundTrip) : Decision Follower :=
  match r with
  | TransportError err => Retry TransportFailure
  | Response status body readErr =>
      if negb (status =? StatusOK) then Retry NonSuccessStatus
      else
        match readErr with
        | Some err => Retry BodyReadFailure
        | None =>
            let contentType :=
              sniff.DetectContentType (sniffRest env) body in
            if strings_HasPrefix contentType "text/html"
            then Retry ContentTypeMismatch
            else
              match json_Unmarshal env body with
              | None => Retry DecodeFailure
              | Some (followers, cursor) => Return followers cursor
              end
        end
  end.

(** The loop body from [http.NewRequestWithContext] on. *)
Definition attempt_body (url : string) (w : Runtime)
    : Runtime * Decision Follower :=
  match newRequestErr env url with
  | Some err => (w, Abort err)
  | None => let '(w, r) := client_Do env url w in (w, classify r)
  end.

Definition fetchFollowers (cursor : string) (w : Runtime)
    : Runtime * result (list Follower * string) :=
  retry_loop (ctx_Err env) attempt_body (requestURL cursor) cursor
             maxRetries 1 w.

(** One pass through the body of the loop of [main]. *)
Definition main_iter (cursor : string) (p : Process Follower Row)
    : Status * string * Process Follower Row :=
  match ctx_Err env (rt p) with
  | Some _ => (CANCELLED, cursor, p)
  | None =>
      match fetchFollowers cursor (rt p) with
      | (w, Err err) =>
          let p := mkProcess w (db p) (txs p) (saved p) in
          match ctx_Err env w with
          | Some _ => (CANCELLED, cursor, p)
          | None => (FAILED err, cursor, p)
          end
      | (w, Ok (followers, newCursor)) =>
          match saveFollowers (dbFaults env (txs p)) (db p) followers with
          | (d, Some err) =>
              (FAILED err, cursor,
               mkProcess w d (S (txs p)) (saved p ++ [followers]))
          | (d, None) =>
              let p := mkProcess w d (S (txs p)) (saved p ++ [followers]) in
              if String.eqb newCursor "" then (DONE, cursor, p)
              else (RUNNING, newCursor, p)
          end
      end
  end.

(** [main]: [cursor := ""], then the loop. *)
Definition main (fuel : nat) (p : Process Follower Row)
    : Status * string * Process Follower Row :=
  main_loop main_iter fuel "" p.
End Run.

End CleanStart.

(** ** clean_start/main.go, second program: the current [resume_start] *)
Module ResumeStart.
Import Extended.

Definition saveFollowers (f : sql.Faults) (db : sql.DB Row)
    (followers : list Follower) : sql.DB Row * option error :=
  match sql.Begin f db with
  | Err err => (db, Some ("failed to begin transaction: " +:+ err))
  | Ok (db, tx) =>
      match sql.prepare_err f with
      | Some err =>
          let '(db, _) := sql.Rollback f db tx in
          (db, Some ("failed to prepare statement: " +:+ err))
      | None =>
          match sql.exec_each exec_args f 0 tx followers with
          | inr (follower, err) =>
              let '(db, _) := sql.Rollback f db tx in
              (db, Some ("failed to execute statement for follower "
                         +:+ DID follower +:+ ": " +:+ err))
          | inl tx =>
              match sql.Commit f db tx with
              | (db, Some err) =>
                  (db, Some ("failed to commit transaction: " +:+ err))
              | (db, None) => (db, None)
              end
          end
      end
  end.

Section Run.
Variable env : Env Follower.

Definition classify (r : RoundTrip) : Decision Follower :=
  match r with
  | TransportError err => Retry TransportFailure
  | Response status body readErr =>
      if negb (status =? StatusOK) then Retry NonSuccessStatus
      else
        match readErr with
        | Some err => Retry BodyReadFailure
        | None =>
            if String.eqb (sniff.DetectContentType (sniffRest env) body)
                          "text/html; charset=utf-8"
            then Retry ContentTypeMismatch
            else
              match json_Unmarshal env body with
              | None => Retry DecodeFailure
              | Some (followers, cursor) => Return followers cursor
              end
        end
  end.

Definition attempt_body (url : string) (w : Runtime)
    : Runtime * Decision Follower :=
  match newRequestErr env url with
  | Some err => (w, Abort err)
  | None => let '(w, r) := client_Do env url w in (w, classify r)
  end.

Definition fetchFollowers (cursor : string) (w : Runtime)
    : Runtime * result (list Follower * string) :=
  retry_loop (ctx_Err env) attempt_body (requestURL cursor) cursor
             maxRetries 1 w.

(** One pass through the body of the loop of [main]. *)
Definition main_iter (cursor : string) (p : Process Follower Row)
    : Status * string * Process Follower Row :=
  match ctx_Err env (rt p) with
  | Some _ => (CANCELLED, cursor, p)
  | None =>
      match fetchFollowers cursor (rt p) with
      | (w, Err err) =>
          match ctx_Err env w with
          | Some _ =>
              (CANCELLED, cursor, mkProcess w (db p) (txs p) (saved p))
          | None =>
              (RUNNING, cursor,
               mkProcess (time_Sleep 2 w) (db p) (txs p) (saved p))
          end
      | (w, Ok (followers, newCursor)) =>
          match saveFollowers (dbFaults env (txs p)) (db p) followers with
          | (d, Some err) =>
              (RUNNING, cursor,
               mkProcess w d (S (txs p)) (saved p ++ [followers]))
          | (d, None) =>
              let p := mkProcess w d (S (txs p)) (saved p ++ [followers]) in
              if String.eqb newCursor "" then (DONE, cursor, p)
              else (RUNNING, newCursor, p)
          end
      end
  end.

(** [main]: [cursor := *startCursor], then the loop. *)
Definition main (fuel : nat) (startCursor : string)
    (p : Process Follower Row) : Status * string * Process Follower Row :=
  main_loop main_iter fuel startCursor p.
End Run.

End ResumeStart.

(** ** The JSON logger of clean_start/main.go *)
Module JSONLogger.

(** A value of type [interface{}] as the programs put into log fields:
    a string or an integer. *)
Inductive any : Type :=
| AString (s : string)
| AInt (n : Z).

(** The map [logEntry] that [log] builds before [json.Marshal]: the three
    entries of the logger, then [logEntry[k] = v] for every field.  [now]
    is [time.Now().Format(time.RFC3339)]. *)
Definition logEntry (level msg now : string) (fields : gmap string any)
    : gmap string any :=
  map_fold (fun k v entry => <[k := v]> entry)
    (<["level" := AString level]>
       (<["message" := AString msg]>
          (<["timestamp" := AString now]> ∅)))
    fields.

End JSONLogger.

(** ** Concrete runs

    Small databases, batches and environments on which the programs are
    evaluated below. *)
Module Scenario.

Definition alice : Minimal.Follower :=
  Minimal.mkFollower "did:plc:alice" "alice.bsky.social" "Alice" "a.jpg" 10%Z 11%Z.
Definition bob : Minimal.Follower :=
  Minimal.mkFollower "did:plc:bob" "bob.bsky.social" "Bob" "b.jpg" 20%Z 21%Z.
(** [alice] again, with another display name. *)
Definition alice' : Minimal.Follower :=
  Minimal.mkFollower "did:plc:alice" "alice.bsky.social" "Alice A." "a.jpg" 10%Z 12%Z.

Definition carol : Extended.Follower :=
  Extended.mkFollower "did:plc:carol" "carol.bsky.social" "Carol" "c.jpg"
    (Extended.mkViewer false false "")
    [Extended.mkLabel "type1" "value1"; Extended.mkLabel "type2" "value2"]
    30%Z "Labels test" 31%Z.
Definition dave : Extended.Follower :=
  Extended.mkFollower "did:plc:dave" "dave.bsky.social" "Dave" "d.jpg"
    (Extended.mkViewer true false "at://did:plc:dave/app.bsky.graph.follow/x")
    [] 40%Z "" 41%Z.

Definition empty_db {Row : Type} : sql.DB Row := sql.mkDB ∅ 0.

(** The engine rejects the second statement of a transaction. *)
Definition second_exec_fails : sql.Faults :=
  sql.mkFaults None None
    (fun i => if i =? 1 then Some "disk I/O error" else None) None None.

(** No network: every request ends in a transport error at once. *)
Definition offline {Follower : Type} (signal : option nat) : Env Follower :=
  mkEnv (fun _ => None) (fun _ => "application/octet-stream") (fun _ => None)
        (fun _ _ => (0, TransportError "dial tcp: connection refused"))
        signal (fun _ => sql.no_faults).

Definition boot : Runtime := mkRuntime 0 0 [].

Definition start {Follower Row : Type} : Process Follower Row :=
  mkProcess boot empty_db 0 [].

(** The decoder of a scripted server: the page of a body, by table. *)
Fixpoint decode_table {Follower : Type}
    (script : list (string * (list Follower * string))) (body : string)
    : option (list Follower * string) :=
  match script with
  | [] => None
  | (b, page) :: rest =>
      if String.eqb b body then Some page else decode_table rest body
  end.

(** A server that answers the [k]-th request with the [k]-th body of the
    script, after one second, and refuses the connection afterwards. *)
Definition scripted {Follower : Type}
    (script : list (string * (list Follower * string)))
    (faults : nat -> sql.Faults) : Env Follower :=
  mkEnv (decode_table script) (fun _ => "text/plain; charset=utf-8")
        (fun _ => None)
        (fun k _ => match script !! k with
                    | Some (body, _) => (1, Response 200 body None)
                    | None => (0, TransportError "connection refused")
                    end)
        None faults.

(** Three pages with the tokens a, b and the empty token. *)
Definition three_pages : list (string * (list Minimal.Follower * string)) :=
  [ ("{followers:[alice],cursor:a}", ([alice], "a"));
    ("{followers:[bob],cursor:b}", ([bob], "b"));
    ("{followers:[alice2]}", ([alice'], "")) ].

Definition two_in_one : list (string * (list Minimal.Follower * string)) :=
  [ ("{followers:[alice,bob],cursor:n}", ([alice; bob], "n")) ].

Definition one_page : list (string * (list Extended.Follower * string)) :=
  [ ("{followers:[carol,dave],cursor:n}", ([carol; dave], "n")) ].

Definition two_pages : list (string * (list Extended.Follower * string)) :=
  [ ("{followers:[carol,dave],cursor:n}", ([carol; dave], "n"));
    ("{followers:[carol]}", ([carol], "")) ].

(** An error page of a gateway, served with status 200. *)
Definition bad_gateway : string :=
  "<html><body><h1>502 Bad Gateway</h1></body></html>".

(** A server as [scripted] behind a connection that is reset for the first
    [failures] requests. *)
Definition flaky {Follower : Type} (failures : nat)
    (script : list (string * (list Follower * string))) : Env Follower :=
  mkEnv (decode_table script) (fun _ => "text/plain; charset=utf-8")
        (fun _ => None)
        (fun k _ => if k <? failures
                    then (0, TransportError "connection reset by peer")
                    else match script !! (k - failures) with
                         | Some (body, _) => (1, Response 200 body None)
                         | None => (0, TransportError "connection refused")
                         end)
        None (fun _ => sql.no_faults).

(** A URL that [http.NewRequest] rejects, whatever it is. *)
Definition unparsable {Follower : Type} : Env Follower :=
  mkEnv (fun _ => None) (fun _ => "application/octet-stream")
        (fun _ => Some "net/url: invalid control character in URL")
        (fun _ _ => (0, TransportError "dial tcp: connection refused"))
        None (fun _ => sql.no_faults).

(** A server that answers every request with the same page, whose token is
    not empty. *)
Definition stuck : Env Minimal.Follower :=
  mkEnv (fun _ => Some ([alice], "again")) (fun _ => "text/plain; charset=utf-8")
        (fun _ => None)
        (fun _ _ => (1, Response 200 "{followers:[alice],cursor:again}" None))
        None (fun _ => sql.no_faults).

(** A server that fails in a different way each time, one second per
    request: the connection is reset, then status 503, then a body that
    breaks off while it is read, then an HTML error page with status 200,
    and from then on text that is not JSON. *)
Definition all_failures {Follower : Type} (signal : option nat) : Env Follower :=
  mkEnv (fun _ => None) (fun _ => "text/plain; charset=utf-8")
        (fun _ => None)
        (fun k _ => match k with
                    | 0 => (1, TransportError "connection reset by peer")
                    | 1 => (1, Response 503 "upstream unavailable" None)
                    | 2 => (1, Response 200 "{followers:[" (Some "unexpected EOF"))
                    | 3 => (1, Response 200 bad_gateway None)
                    | _ => (1, Response 200 "not json" None)
                    end)
        signal (fun _ => sql.no_faults).

End Scenario.

(** * Statements

    The vocabulary of the properties proved below. *)

(** A call either commits the whole batch or leaves the table alone; [leak]
    is the number of transactions it may leave open on an error. *)
Definition all_or_nothing {Row Follower : Type} (args : Follower -> string * Row)
    (leak : nat)
    (save : sql.Faults -> sql.DB Row -> list Follower -> sql.DB Row * option error)
    : Prop :=
  forall f d l,
    match save f d l with
    | (d', None) =>
        d' = sql.mkDB (sql.upsert_all args (sql.table d) l) (sql.open_tx d)
    | (d', Some _) =>
        sql.table d' = sql.table d /\
        sql.open_tx d <= sql.open_tx d' <= sql.open_tx d + leak
    end.

(** What the loop leaves in the trace when each of its [n] iterations
    fails: attempt [k] followed by a wait of [k] seconds. *)
Definition backoff_shape (url : string) (first n : nat) : list (nat * string + nat) :=
  flat_map (fun a => [inl (a, url); inr a]) (seq first n).

(** Promptness as the specification words it: when the signal fires while
    [fetchFollowers] runs, the call ends with the cancellation error, at
    most one second after the signal. *)
Definition cancels_promptly (env : Env Minimal.Follower) (cursor : string)
    (w : Runtime) : Prop :=
  forall t,
    cancelAt env = Some t ->
    clock w <= t < clock (CleanStart.fetchFollowers env cursor w).1 ->
    (CleanStart.fetchFollowers env cursor w).2 = Err canceled /\
    clock (CleanStart.fetchFollowers env cursor w).1 <= t + 1.

(** One pass of a driver keeps the token in step with the table: the token
    changes only in a pass that fetched a page with that token and
    committed its records, and a pass in which the fetch or the save
    fails, or which ends in [CANCELLED], leaves token and table as they
    were. *)
Definition token_follows_commit {Follower Row : Type}
    (args : Follower -> string * Row)
    (fetch : string -> Runtime -> Runtime * result (list Follower * string))
    (save : sql.Faults -> sql.DB Row -> list Follower -> sql.DB Row * option error)
    (faults : nat -> sql.Faults)
    (iter : string -> Process Follower Row -> Status * string * Process Follower Row)
    : Prop :=
  forall cursor p,
    let '(st, cursor', p') := iter cursor p in
    (cursor' ≠ cursor ->
       st = RUNNING /\
       exists w followers,
         fetch cursor (rt p) = (w, Ok (followers, cursor')) /\
         save (faults (txs p)) (db p) followers = (db p', None) /\
         sql.table (db p')
         = sql.upsert_all args (sql.table (db p)) followers)
    /\
    (forall w err, fetch cursor (rt p) = (w, Err err) ->
       cursor' = cursor /\ db p' = db p)
    /\
    (forall w followers newCursor d err,
       fetch cursor (rt p) = (w, Ok (followers, newCursor)) ->
       save (faults (txs p)) (db p) followers = (d, Some err) ->
       cursor' = cursor /\ db p' = db p)
    /\
    (st = CANCELLED -> cursor' = cursor /\ db p' = db p).

(** A token that some pass obtained from a fetched page whose records it
    committed. *)
Definition committed_token {Follower Row : Type}
    (fetch : string -> Runtime -> Runtime * result (list Follower * string))
    (save : sql.Faults -> sql.DB Row -> list Follower -> sql.DB Row * option error)
    (faults : nat -> sql.Faults) (token : string) : Prop :=
  exists cursor (p : Process Follower Row) w followers d,
    fetch cursor (rt p) = (w, Ok (followers, token)) /\
    save (faults (txs p)) (db p) followers = (d, None).

(** The error policy as the specification words it: a pass in which the
    fetch ends with the exhausted-retries error, or in which the save of
    the fetched page fails, ends in [FAILED]. *)
Definition halts_on_error {Follower Row : Type}
    (fetch : string -> Runtime -> Runtime * result (list Follower * string))
    (save : sql.Faults -> sql.DB Row -> list Follower -> sql.DB Row * option error)
    (faults : nat -> sql.Faults)
    (iter : string -> Process Follower Row -> Status * string * Process Follower Row)
    (cursor : string) (p : Process Follower Row) : Prop :=
  ((exists w, fetch cursor (rt p)
              = (w, Err ("exceeded max retries for cursor " +:+ cursor)))
   \/
   (exists w followers newCursor d err,
       fetch cursor (rt p) = (w, Ok (followers, newCursor)) /\
       save (faults (txs p)) (db p) followers = (d, Some err)))
  -> exists err, (iter cursor p).1.1 = FAILED err.

(** The tokens of a script of pages end with the empty token: the last page
    has it, and only the last. *)
Fixpoint ends_with_empty_token {Follower : Type}
    (pages : list (list Follower * string)) : Prop :=
  match pages with
  | [] => False
  | page :: rest =>
      match rest with
      | [] => page.2 = ""
      | _ :: _ => page.2 ≠ "" /\ ends_with_empty_token rest
      end
  end.

(** The engine lets a whole transaction through. *)
Definition healthy (f : sql.Faults) : Prop :=
  sql.begin_err f = None /\ sql.prepare_err f = None /\
  (forall i, sql.exec_err f i = None) /\ sql.commit_err f = None.

(** The [k]-th request is answered by a response that the program reads as
    the page. *)
Definition serves {Follower : Type} (classify : RoundTrip -> Decision Follower)
    (env : Env Follower) (k : nat) (page : list Follower * string) : Prop :=
  forall url, classify (roundTrip env k url).2 = Return page.1 page.2.

(** A pass that fetched the page with one request and committed it. *)
Definition page_done {Follower Row : Type} (args : Follower -> string * Row)
    (page : list Follower * string) (p p' : Process Follower Row) : Prop :=
  saved p' = saved p ++ [page.1] /\
  sent (rt p') = S (sent (rt p)) /\
  txs p' = S (txs p) /\
  db p' = sql.mkDB (sql.upsert_all args (sql.table (db p)) page.1)
                   (sql.open_tx (db p)).

(** The engine lets a transaction of [n] statements through; what
    [tx.Rollback()] would do does not matter. *)
Definition healthy_for (f : sql.Faults) (n : nat) : Prop :=
  sql.begin_err f = None /\ sql.prepare_err f = None /\
  (forall i, i < n -> sql.exec_err f i = None) /\ sql.commit_err f = None.

(** Number of attempts in a trace. *)
Fixpoint attempts (evs : list Event) : nat :=
  match evs with
  | [] => 0
  | EvAttempt _ _ _ :: rest => S (attempts rest)
  | EvSleep _ :: rest => attempts rest
  end.

(** From [p] to [p'] a run only adds: no row of the table is lost, no
    transaction stays open, every call of [saveFollowers] asked for one
    transaction, the earlier calls are still the first ones of the list,
    and neither the clock nor the count of requests goes back. *)
Definition grows {Follower Row : Type} (p p' : Process Follower Row) : Prop :=
  (forall k, is_Some (sql.table (db p) !! k) ->
             is_Some (sql.table (db p') !! k)) /\
  sql.open_tx (db p') = sql.open_tx (db p) /\
  (exists batches, saved p' = saved p ++ batches /\
                   txs p' = txs p + length batches) /\
  sent (rt p) <= sent (rt p') /\
  clock (rt p) <= clock (rt p').

(** The body of a retry loop writes nothing to the trace itself, sends at
    most one request and lets time pass. *)
Definition one_request {Follower : Type}
    (body : string -> Runtime -> Runtime * Decision Follower) : Prop :=
  forall url w,
    events (body url w).1 = events w /\
    clock w <= clock (body url w).1 /\
    sent w <= sent (body url w).1 <= S (sent w).

(** A failed attempt, read off the outcome of the request and not off the
    program: the request ends in a transport error, the status is not 200,
    the body cannot be read to its end, the body is sniffed as HTML, or
    the body does not decode. *)
Definition attempt_fails {Follower : Type} (env : Env Follower)
    (r : RoundTrip) : Prop :=
  match r with
  | TransportError _ => True
  | Response status body readErr =>
      status <> StatusOK \/
      is_Some readErr \/
      sniff.DetectContentType (sniffRest env) body = sniff.html \/
      json_Unmarshal env body = None
  end.

(** The instant at which the last of [n] iterations starts when the ones
    before it fail: request number [s] takes [dur s] seconds, and attempt
    [a] is followed by a wait of [a] seconds. *)
Fixpoint last_check (dur : nat -> nat) (n attempt s c : nat) : nat :=
  match n with
  | 0 => c
  | S n' =>
      match n' with
      | 0 => c
      | S _ => last_check dur n' (S attempt) (S s) (c + dur s + attempt)
      end
  end.

(** Seconds the request number [k] to [url] takes. *)
Definition duration {Follower : Type} (env : Env Follower) (url : string)
    (k : nat) : nat :=
  (roundTrip env k url).1.

(** The instant at which the fifth attempt of a call that begins in [w]
    starts when the first four fail. *)
Definition fifth_attempt_at {Follower : Type} (env : Env Follower)
    (cursor : string) (w : Runtime) : nat :=
  last_check (duration env (requestURL cursor)) maxRetries 1 (sent w) (clock w).

(** Seconds the [n] requests from number [s] on take. *)
Definition requests_time (dur : nat -> nat) (s n : nat) : nat :=
  sum_list (map dur (seq s n)).

(** The retry bound as the specification words it, for the current
    program: when every request fails, the call makes exactly five
    attempts, waits at least 15 seconds in all and ends with the
    exhausted-retries error that names the token. *)
Definition exhausts_retries (env : Env Minimal.Follower) (cursor : string)
    (w : Runtime) : Prop :=
  (forall k, attempt_fails env (roundTrip env k (requestURL cursor)).2) ->
  exists w' evs,
    CleanStart.fetchFollowers env cursor w
    = (w', Err ("exceeded max retries for cursor " +:+ cursor)) /\
    events w' = events w ++ evs /\
    attempts evs = maxRetries /\
    1 + 2 + 3 + 4 + 5 <= slept evs.

(** * Properties *)

(** ** Strings *)

Lemma append_assoc (a b c : string) : (a +:+ b) +:+ c = a +:+ b +:+ c.
Proof.
  induction a as [|x a IH]; [reflexivity|].
  change (String x ((a +:+ b) +:+ c) = String x (a +:+ b +:+ c)).
  by rewrite IH.
Qed.

Lemma eqb_empty_false (s : string) : s ≠ "" -> String.eqb s "" = false.
Proof. intros H. by apply String.eqb_neq. Qed.

(** ** The transaction layer *)

Section TableFacts.
Context {Row Follower : Type} (args : Follower -> string * Row).

Lemma upsert_all_snoc (m : gmap string Row) (l : list Follower) (x : Follower) :
  sql.upsert_all args m (l ++ [x])
  = <[(args x).1 := (args x).2]> (sql.upsert_all args m l).
Proof. unfold sql.upsert_all. by rewrite foldl_app. Qed.

(** The row of a key after a batch: the one of the last record of the
    batch with that key, or the row from before. *)
Lemma upsert_all_lookup (l : list Follower) (m : gmap string Row) (k : string) :
  sql.upsert_all args m l !! k
  = match last (filter (fun x => (args x).1 = k) l) with
    | Some x => Some (args x).2
    | None => m !! k
    end.
Proof.
  induction l as [|x l IH] using rev_ind; [done|].
  rewrite upsert_all_snoc, filter_app, lookup_insert.
  case_decide as Hk.
  - rewrite filter_cons_True, filter_nil by done. by rewrite last_snoc.
  - rewrite filter_cons_False, filter_nil, app_nil_r by done. apply IH.
Qed.

Lemma upsert_all_idemp (l : list Follower) (m : gmap string Row) :
  sql.upsert_all args (sql.upsert_all args m l) l = sql.upsert_all args m l.
Proof.
  apply map_eq. intros k. rewrite !upsert_all_lookup.
  by destruct (last _).
Qed.

Lemma exec_each_view (f : sql.Faults) (l : list Follower) :
  forall i t t',
    sql.exec_each args f i t l = inl t' ->
    sql.view t' = sql.upsert_all args (sql.view t) l.
Proof.
  induction l as [|x l IH]; intros i t t' H; simpl in H.
  - by inversion H.
  - destruct (sql.exec_err f i); [done|].
    apply IH in H. by rewrite H.
Qed.

Lemma exec_each_no_fault (f : sql.Faults) (l : list Follower) :
  forall i t,
    (forall j, i <= j < i + length l -> sql.exec_err f j = None) ->
    sql.exec_each args f i t l
    = inl (sql.mkTx (sql.upsert_all args (sql.view t) l)).
Proof.
  induction l as [|x l IH]; intros i t H; simpl.
  - by destruct t.
  - rewrite (H i) by (simpl; lia).
    rewrite IH; [done|]. intros j Hj. apply H. simpl. lia.
Qed.

Lemma exec_each_fault (f : sql.Faults) (l : list Follower) :
  forall i t j,
    i <= j < i + length l -> is_Some (sql.exec_err f j) ->
    exists x err, sql.exec_each args f i t l = inr (x, err).
Proof.
  induction l as [|x l IH]; intros i t j Hj Hf; simpl in *; [lia|].
  destruct (sql.exec_err f i) as [err|] eqn:Hi; [by eauto|].
  apply (IH (S i) _ j); [|done].
  destruct (decide (j = i)) as [->|]; [|lia].
  rewrite Hi in Hf. by destruct Hf.
Qed.
End TableFacts.

(** ** What a call of [saveFollowers] does to the database *)

Ltac save_cases f d l :=
  destruct d as [m n]; destruct f as [fb fp fe fc fr]; cbn;
  destruct fb; cbn; [split; [done | lia] |];
  destruct fp; cbn; [try destruct fr; cbn; split; (done || lia) |];
  match goal with
  | |- context [sql.exec_each ?a0 ?f0 ?i0 ?t0 l] =>
      let H := fresh "Hex" in
      destruct (sql.exec_each a0 f0 i0 t0 l) as [?|[? ?]] eqn:H; cbn;
      [ apply exec_each_view in H; cbn in H; unfold sql.Commit; cbn;
        destruct fc; cbn; [split; (done || lia) | by rewrite H]
      | try destruct fr; cbn; split; (done || lia) ]
  end.

Lemma CleanStart_save_all_or_nothing :
  all_or_nothing Minimal.exec_args 0 CleanStart.saveFollowers.
Proof. intros f d l. unfold CleanStart.saveFollowers. save_cases f d l. Qed.

Lemma Part001_save_all_or_nothing :
  all_or_nothing Extended.exec_args 0 Part001.saveFollowers.
Proof. intros f d l. unfold Part001.saveFollowers. save_cases f d l. Qed.

Lemma ResumeStart_save_all_or_nothing :
  all_or_nothing Extended.exec_args 0 ResumeStart.saveFollowers.
Proof. intros f d l. unfold ResumeStart.saveFollowers. save_cases f d l. Qed.

(** The root program returns without [tx.Rollback()]: nothing is committed,
    and the transaction stays open. *)
Lemma Root_save_all_or_nothing :
  all_or_nothing Minimal.exec_args 1 Root.saveFollowers.
Proof. intros f d l. unfold Root.saveFollowers. save_cases f d l. Qed.

Lemma all_or_nothing_idempotent {Row Follower : Type}
    (args : Follower -> string * Row) save :
  all_or_nothing args 0 save ->
  forall f1 f2 d l,
    (save f1 d l).2 = None ->
    (save f2 (save f1 d l).1 l).1 = (save f1 d l).1.
Proof.
  intros H f1 f2 d l H1.
  pose proof (H f1 d l) as Ha.
  destruct (save f1 d l) as [d1 [e|]]; [done|]. cbn in *. subst d1.
  pose proof (H f2 (sql.mkDB (sql.upsert_all args (sql.table d) l) (sql.open_tx d)) l)
    as Hb.
  destruct (save f2 _ l) as [d2 [e|]]; cbn in *.
  - destruct d2 as [m2 n2]; cbn in *. destruct Hb as [-> Hn].
    f_equal. lia.
  - rewrite Hb. by rewrite upsert_all_idemp.
Qed.

Lemma all_or_nothing_error {Row Follower : Type}
    (args : Follower -> string * Row) save :
  all_or_nothing args 0 save ->
  forall f d l, is_Some (save f d l).2 -> (save f d l).1 = d.
Proof.
  intros H f d l He. pose proof (H f d l) as Ha.
  destruct (save f d l) as [[m1 n1] [e|]]; cbn in *.
  - destruct d as [m n]; cbn in *. destruct Ha as [-> Hn]. f_equal. lia.
  - by destruct He.
Qed.

(** A statement that fails makes the call fail. *)
Ltac save_fault f d l i Hi Hf :=
  destruct d as [m n]; destruct f as [fb fp fe fc fr]; cbn in *;
  destruct fb; cbn; [done |];
  destruct fp; cbn; [by try destruct fr |];
  match goal with
  | |- context [sql.exec_each ?a0 ?f0 0 ?t0 l] =>
      destruct (exec_each_fault a0 f0 l 0 t0 i) as (x & err & ->);
      [lia | done | cbn; by try destruct fr]
  end.

Lemma Part001_save_fault f d (l : list Extended.Follower) i :
  i < length l -> is_Some (sql.exec_err f i) ->
  is_Some (Part001.saveFollowers f d l).2.
Proof. intros Hi Hf. unfold Part001.saveFollowers. save_fault f d l i Hi Hf. Qed.

Lemma ResumeStart_save_fault f d (l : list Extended.Follower) i :
  i < length l -> is_Some (sql.exec_err f i) ->
  is_Some (ResumeStart.saveFollowers f d l).2.
Proof. intros Hi Hf. unfold ResumeStart.saveFollowers. save_fault f d l i Hi Hf. Qed.

Lemma CleanStart_save_fault f d (l : list Minimal.Follower) i :
  i < length l -> is_Some (sql.exec_err f i) ->
  is_Some (CleanStart.saveFollowers f d l).2.
Proof. intros Hi Hf. unfold CleanStart.saveFollowers. save_fault f d l i Hi Hf. Qed.

Lemma Root_save_fault f d (l : list Minimal.Follower) i :
  i < length l -> is_Some (sql.exec_err f i) ->
  is_Some (Root.saveFollowers f d l).2.
Proof. intros Hi Hf. unfold Root.saveFollowers. save_fault f d l i Hi Hf. Qed.

(** ** Persistence *)

(** C1. [saveFollowers] is idempotent: once a call for a batch has
    succeeded, a second call for the same batch, whatever the engine does
    during it, leaves the database (rows, their values, hence their
    number) exactly as the first call left it.  Proved for the first
    [resume_start] program and for the current [clean_start]. *)
Theorem persist_idempotent :
  (forall f1 f2 d (l : list Extended.Follower),
      (Part001.saveFollowers f1 d l).2 = None ->
      (Part001.saveFollowers f2 (Part001.saveFollowers f1 d l).1 l).1
      = (Part001.saveFollowers f1 d l).1)
  /\
  (forall f1 f2 d (l : list Minimal.Follower),
      (CleanStart.saveFollowers f1 d l).2 = None ->
      (CleanStart.saveFollowers f2 (CleanStart.saveFollowers f1 d l).1 l).1
      = (CleanStart.saveFollowers f1 d l).1).
Proof.
  split.
  - apply (all_or_nothing_idempotent _ _ Part001_save_all_or_nothing).
  - apply (all_or_nothing_idempotent _ _ CleanStart_save_all_or_nothing).
Qed.

Lemma persist_idempotent_witness :
  let l1 := [Scenario.carol; Scenario.dave; Scenario.carol] in
  let l2 := [Scenario.alice; Scenario.bob; Scenario.alice'] in
  ((Part001.saveFollowers sql.no_faults Scenario.empty_db l1).2 = None /\
   (Part001.saveFollowers sql.no_faults
      (Part001.saveFollowers sql.no_faults Scenario.empty_db l1).1 l1).1
   = (Part001.saveFollowers sql.no_faults Scenario.empty_db l1).1)
  /\
  ((CleanStart.saveFollowers sql.no_faults Scenario.empty_db l2).2 = None /\
   (CleanStart.saveFollowers Scenario.second_exec_fails
      (CleanStart.saveFollowers sql.no_faults Scenario.empty_db l2).1 l2).1
   = (CleanStart.saveFollowers sql.no_faults Scenario.empty_db l2).1).
Proof.
  intros l1 l2. split; split.
  - reflexivity.
  - apply (proj1 persist_idempotent). reflexivity.
  - reflexivity.
  - apply (proj2 persist_idempotent). reflexivity.
Defined.

(** C2. [saveFollowers] is atomic on failure: when the statement of any
    record of the batch fails, the call returns an error and the table is
    exactly the one from before the call, the rows written earlier in the
    batch included.  In the first [resume_start] program the whole database
    state is the one from before; the root program, which has no
    [tx.Rollback()], commits nothing either. *)
Theorem persist_atomic_on_failure :
  (forall f d (l : list Extended.Follower) i,
      i < length l -> is_Some (sql.exec_err f i) ->
      is_Some (Part001.saveFollowers f d l).2 /\
      (Part001.saveFollowers f d l).1 = d)
  /\
  (forall f d (l : list Minimal.Follower) i,
      i < length l -> is_Some (sql.exec_err f i) ->
      is_Some (Root.saveFollowers f d l).2 /\
      sql.table (Root.saveFollowers f d l).1 = sql.table d).
Proof.
  split; intros f d l i Hi Hf.
  - pose proof (Part001_save_fault f d l i Hi Hf) as He. split; [done|].
    by apply (all_or_nothing_error _ _ Part001_save_all_or_nothing).
  - pose proof (Root_save_fault f d l i Hi Hf) as He. split; [done|].
    pose proof (Root_save_all_or_nothing f d l) as Ha.
    destruct (Root.saveFollowers f d l) as [d' [e|]]; cbn in *.
    + by destruct Ha.
    + by destruct He.
Qed.

Lemma persist_atomic_on_failure_witness :
  let d1 := (Part001.saveFollowers sql.no_faults Scenario.empty_db [Scenario.dave]).1 in
  let l1 := [Scenario.carol; Scenario.dave; Scenario.carol] in
  let d2 := (Root.saveFollowers sql.no_faults Scenario.empty_db [Scenario.bob]).1 in
  let l2 := [Scenario.alice; Scenario.bob; Scenario.alice'] in
  (1 < length l1 /\ is_Some (sql.exec_err Scenario.second_exec_fails 1) /\
   is_Some (Part001.saveFollowers Scenario.second_exec_fails d1 l1).2 /\
   (Part001.saveFollowers Scenario.second_exec_fails d1 l1).1 = d1)
  /\
  (1 < length l2 /\ is_Some (sql.exec_err Scenario.second_exec_fails 1) /\
   is_Some (Root.saveFollowers Scenario.second_exec_fails d2 l2).2 /\
   sql.table (Root.saveFollowers Scenario.second_exec_fails d2 l2).1 = sql.table d2).
Proof.
  intros d1 l1 d2 l2.
  assert (H1 : 1 < length l1) by (simpl; lia).
  assert (H2 : 1 < length l2) by (simpl; lia).
  assert (Hf : is_Some (sql.exec_err Scenario.second_exec_fails 1))
    by (simpl; eauto).
  split.
  - split; [exact H1|]. split; [exact Hf|].
    exact (proj1 persist_atomic_on_failure Scenario.second_exec_fails d1 l1 1 H1 Hf).
  - split; [exact H2|]. split; [exact Hf|].
    exact (proj2 persist_atomic_on_failure Scenario.second_exec_fails d2 l2 1 H2 Hf).
Defined.

(** ** Labels *)

Lemma foldl_snoc_map {A B : Type} (g : A -> B) (l : list A) (acc : list B) :
  foldl (fun labels x => labels ++ [g x]) acc l = acc ++ map g l.
Proof.
  revert acc. induction l as [|x l IH]; intros acc; simpl.
  - by rewrite app_nil_r.
  - by rewrite IH, <- app_assoc.
Qed.

Lemma labelStr_join (follower : Extended.Follower) :
  Extended.labelStr follower
  = strings_Join (map Extended.label_pair (Extended.Labels follower)) ",".
Proof. unfold Extended.labelStr. by rewrite foldl_snoc_map. Qed.

Lemma filter_other_keys {A : Type} (key : A -> string) (k : string) (l : list A) :
  Forall (fun x => key x ≠ k) l -> filter (fun x => key x = k) l = [].
Proof.
  induction 1 as [|x l Hx Hl IH]; [done|].
  by rewrite filter_cons_False.
Qed.

(** The row of a record after a committed batch in which no later record
    has the same key. *)
Lemma committed_row {Row Follower : Type} (args : Follower -> string * Row)
    (m : gmap string Row) (l1 l2 : list Follower) (x : Follower) :
  Forall (fun y => (args y).1 ≠ (args x).1) l2 ->
  sql.upsert_all args m (l1 ++ x :: l2) !! (args x).1 = Some (args x).2.
Proof.
  intros H. rewrite upsert_all_lookup, filter_app, filter_cons_True by done.
  rewrite (filter_other_keys (fun y => (args y).1) _ l2 H).
  by rewrite last_snoc.
Qed.

(** C8. The [labels] column of a record is the comma-separated join, in
    order, of the [type:value] pairs of its label list: for two labels it
    is exactly [type1:value1,type2:value2], for no label the empty string;
    and that string is what a committed batch holds for the record (the
    last of its [did] in the batch), in both [resume_start] programs. *)
Theorem label_serialization :
  (forall follower,
      Extended.labels (Extended.exec_args follower).2
      = strings_Join (map Extended.label_pair (Extended.Labels follower)) ",")
  /\
  (forall follower t1 v1 t2 v2,
      Extended.Labels follower = [Extended.mkLabel t1 v1; Extended.mkLabel t2 v2] ->
      Extended.labelStr follower = t1 +:+ ":" +:+ v1 +:+ "," +:+ t2 +:+ ":" +:+ v2)
  /\
  (forall follower,
      Extended.Labels follower = [] -> Extended.labelStr follower = "")
  /\
  (forall f d l1 follower l2 d',
      Forall (fun other => Extended.DID other ≠ Extended.DID follower) l2 ->
      (Part001.saveFollowers f d (l1 ++ follower :: l2) = (d', None) \/
       ResumeStart.saveFollowers f d (l1 ++ follower :: l2) = (d', None)) ->
      Extended.labels <$> (sql.table d' !! Extended.DID follower)
      = Some (Extended.labelStr follower)).
Proof.
  split; [|split; [|split]].
  - intros follower. apply labelStr_join.
  - intros follower t1 v1 t2 v2 H. rewrite labelStr_join, H. cbn.
    unfold Extended.label_pair. cbn. by rewrite !append_assoc.
  - intros follower H. by rewrite labelStr_join, H.
  - intros f d l1 follower l2 d' Hl2 Hsave.
    assert (d' = sql.mkDB (sql.upsert_all Extended.exec_args (sql.table d)
                             (l1 ++ follower :: l2)) (sql.open_tx d)) as ->.
    { destruct Hsave as [H|H].
      - pose proof (Part001_save_all_or_nothing f d (l1 ++ follower :: l2)) as Ha.
        by rewrite H in Ha.
      - pose proof (ResumeStart_save_all_or_nothing f d (l1 ++ follower :: l2)) as Ha.
        by rewrite H in Ha. }
    cbn. change (Extended.DID follower) with (Extended.exec_args follower).1.
    by rewrite committed_row.
Qed.

Lemma label_serialization_witness :
  (Extended.Labels Scenario.carol
   = [Extended.mkLabel "type1" "value1"; Extended.mkLabel "type2" "value2"] /\
   Extended.labelStr Scenario.carol = "type1:value1,type2:value2")
  /\
  (Extended.Labels Scenario.dave = [] /\ Extended.labelStr Scenario.dave = "")
  /\
  (let d' := (ResumeStart.saveFollowers sql.no_faults Scenario.empty_db
                [Scenario.dave; Scenario.carol; Scenario.dave]).1 in
   Forall (fun other => Extended.DID other ≠ Extended.DID Scenario.carol)
          [Scenario.dave] /\
   ResumeStart.saveFollowers sql.no_faults Scenario.empty_db
     ([Scenario.dave] ++ Scenario.carol :: [Scenario.dave]) = (d', None) /\
   Extended.labels <$> (sql.table d' !! "did:plc:carol")
   = Some "type1:value1,type2:value2").
Proof.
  split; [|split].
  - split; [reflexivity|].
    exact (proj1 (proj2 label_serialization) Scenario.carol
             "type1" "value1" "type2" "value2" eq_refl).
  - split; [reflexivity|].
    exact (proj1 (proj2 (proj2 label_serialization)) Scenario.dave eq_refl).
  - intros d'.
    assert (Hd : Forall (fun other => Extended.DID other ≠ Extended.DID Scenario.carol)
                        [Scenario.dave]).
    { constructor; [|constructor]. intros H. discriminate H. }
    assert (Hs : ResumeStart.saveFollowers sql.no_faults Scenario.empty_db
                   ([Scenario.dave] ++ Scenario.carol :: [Scenario.dave]) = (d', None))
      by reflexivity.
    split; [exact Hd|]. split; [exact Hs|].
    exact (proj2 (proj2 (proj2 label_serialization)) sql.no_faults Scenario.empty_db
             [Scenario.dave] Scenario.carol [Scenario.dave] d' Hd (or_intror Hs)).
Defined.

(** ** The request URL *)

Lemma retry_loop_events {Follower : Type} guard
    (body : string -> Runtime -> Runtime * Decision Follower) url cursor :
  (forall w, events (body url w).1 = events w) ->
  forall n attempt w,
    exists evs,
      events (retry_loop guard body url cursor n attempt w).1 = events w ++ evs /\
      forall now a u, EvAttempt now a u ∈ evs -> u = url.
Proof.
  intros Hbody. induction n as [|n IH]; intros attempt w; simpl.
  - exists []. rewrite app_nil_r. split; [done|]. intros ? ? ? H. by apply elem_of_nil in H.
  - destruct (guard w).
    { exists []. rewrite app_nil_r. split; [done|]. intros ? ? ? H. by apply elem_of_nil in H. }
    pose proof (Hbody (log_attempt attempt url w)) as He.
    destruct (body url (log_attempt attempt url w)) as [w1 dec]. cbn in He.
    assert (Hone : forall now a u,
               EvAttempt now a u ∈ [EvAttempt (clock w) attempt url] -> u = url).
    { intros ? ? ? H. apply list_elem_of_singleton in H. by inversion H. }
    destruct dec as [fs c|err|why]; cbn.
    + exists [EvAttempt (clock w) attempt url]. by rewrite He.
    + exists [EvAttempt (clock w) attempt url]. by rewrite He.
    + destruct (IH (S attempt) (time_Sleep attempt w1)) as (evs & Hev & Hu).
      exists ([EvAttempt (clock w) attempt url; EvSleep attempt] ++ evs).
      split.
      * rewrite Hev. cbn. rewrite He. cbn. by rewrite <- !app_assoc.
      * intros now a u H. apply elem_of_app in H as [H|H]; [|by eauto].
        apply elem_of_cons in H as [H|H]; [by inversion H|].
        apply list_elem_of_singleton in H. discriminate H.
Qed.

Lemma client_Do_events {Follower : Type} (env : Env Follower) url w :
  events (client_Do env url w).1 = events w.
Proof. unfold client_Do. by destruct (roundTrip env (sent w) url). Qed.

Lemma http_Get_events {Follower : Type} (env : Env Follower) url w :
  events (http_Get env url w).1 = events w.
Proof.
  unfold http_Get. destruct (newRequestErr env url); [done|].
  apply client_Do_events.
Qed.

Lemma CleanStart_body_events env url w :
  events (CleanStart.attempt_body env url w).1 = events w.
Proof.
  unfold CleanStart.attempt_body. destruct (newRequestErr env url); [done|].
  pose proof (client_Do_events env url w) as H.
  by destruct (client_Do env url w).
Qed.

Lemma ResumeStart_body_events env url w :
  events (ResumeStart.attempt_body env url w).1 = events w.
Proof.
  unfold ResumeStart.attempt_body. destruct (newRequestErr env url); [done|].
  pose proof (client_Do_events env url w) as H.
  by destruct (client_Do env url w).
Qed.

Lemma Part001_body_events env url w :
  events (Part001.attempt_body env url w).1 = events w.
Proof.
  unfold Part001.attempt_body.
  pose proof (http_Get_events env url w) as H.
  by destruct (http_Get env url w).
Qed.

(** C10. The URL requested for a token: the base URL for the empty token,
    and for any other token the base URL followed by [&cursor=] and the
    token byte for byte (nothing is escaped); every attempt of
    [fetchFollowers], in the current [clean_start] and in the first
    [resume_start], goes to that URL. *)
Theorem request_url_verbatim :
  requestURL "" = baseURL
  /\
  (forall t, t ≠ "" -> requestURL t = baseURL +:+ "&cursor=" +:+ t)
  /\
  (forall env cursor w, exists evs,
      events (CleanStart.fetchFollowers env cursor w).1 = events w ++ evs /\
      forall now a u, EvAttempt now a u ∈ evs -> u = requestURL cursor)
  /\
  (forall env cursor w, exists evs,
      events (Part001.fetchFollowers env cursor w).1 = events w ++ evs /\
      forall now a u, EvAttempt now a u ∈ evs -> u = requestURL cursor).
Proof.
  split; [reflexivity|]. split; [|split].
  - intros t Ht. unfold requestURL. by rewrite eqb_empty_false.
  - intros env cursor w. apply retry_loop_events.
    apply CleanStart_body_events.
  - intros env cursor w. apply retry_loop_events.
    apply Part001_body_events.
Qed.

(** A token with query metacharacters goes into the URL as it is. *)
Lemma request_url_verbatim_witness :
  "x&limit=1#y" ≠ "" /\
  requestURL "x&limit=1#y" = baseURL +:+ "&cursor=x&limit=1#y".
Proof.
  assert (H : "x&limit=1#y" ≠ "") by discriminate.
  split; [exact H|].
  exact (proj1 (proj2 request_url_verbatim) "x&limit=1#y" H).
Defined.

(** ** The retry loop *)

Lemma slept_app (a b : list Event) : slept (a ++ b) = slept a + slept b.
Proof.
  induction a as [|[now n u|s] a IH]; simpl; [done | done | lia].
Qed.

Lemma retry_loop_exhausted {Follower : Type} guard
    (body : string -> Runtime -> Runtime * Decision Follower) url cursor :
  (forall w, guard w = None) ->
  forall n attempt w,
    (forall w1, sent w <= sent w1 < sent w + n ->
       exists w2 why, body url w1 = (w2, Retry why) /\
         events w2 = events w1 /\ clock w1 <= clock w2 /\
         sent w1 <= sent w2 <= S (sent w1)) ->
    exists w' evs,
      retry_loop guard body url cursor n attempt w
      = (w', Err ("exceeded max retries for cursor " +:+ cursor)) /\
      events w' = events w ++ evs /\
      shape evs = backoff_shape url attempt n /\
      slept evs = sum_list (seq attempt n) /\
      clock w + sum_list (seq attempt n) <= clock w'.
Proof.
  intros Hguard. induction n as [|n IH]; intros attempt w Hbody; simpl.
  - exists w, []. rewrite app_nil_r. repeat split; lia.
  - rewrite Hguard.
    destruct (Hbody (log_attempt attempt url w)) as (w2 & why & -> & Hev & Hclk & Hsent);
      [cbn; lia|]. cbn in Hev, Hclk, Hsent.
    destruct (IH (S attempt) (time_Sleep attempt w2)) as (w' & evs & -> & Hev' & Hsh & Hsl & Hck).
    { intros w1 Hw1. cbn in Hw1. apply Hbody. lia. }
    exists w', ([EvAttempt (clock w) attempt url; EvSleep attempt] ++ evs).
    split; [done|]. cbn in Hev', Hck. rewrite Hev in Hev'.
    split; [by rewrite Hev', <- !app_assoc|].
    split; [unfold backoff_shape, shape in *; cbn; do 2 f_equal; exact Hsh|].
    split; [cbn; by rewrite Hsl|]. lia.
Qed.

Lemma ctx_Err_no_signal {Follower : Type} (env : Env Follower) :
  cancelAt env = None -> forall w, ctx_Err env w = None.
Proof. intros H w. unfold ctx_Err. by rewrite H. Qed.

Lemma client_Do_spec {Follower : Type} (env : Env Follower) url w :
  client_Do env url w
  = (mkRuntime (clock w + (roundTrip env (sent w) url).1) (S (sent w)) (events w),
     (roundTrip env (sent w) url).2).
Proof. unfold client_Do. by destruct (roundTrip env (sent w) url). Qed.

Lemma last_check_ge dur n :
  forall attempt s c, c <= last_check dur n attempt s c.
Proof.
  induction n as [|n IH]; intros attempt s c; [cbn; lia|].
  destruct n as [|n]; [cbn; lia|].
  change (last_check dur (S (S n)) attempt s c)
    with (last_check dur (S n) (S attempt) (S s) (c + dur s + attempt)).
  specialize (IH (S attempt) (S s) (c + dur s + attempt)). lia.
Qed.

(** The loop when each pass sends its request and fails, with the count of
    the requests and the clock kept exactly.  The check at the head needs
    to pass only up to the instant at which the last iteration starts. *)
Lemma retry_loop_exhausted_exactly {Follower : Type} guard
    (body : string -> Runtime -> Runtime * Decision Follower) url cursor
    (dur : nat -> nat) :
  forall n attempt w,
    (forall w1, sent w <= sent w1 < sent w + n ->
       exists why,
         body url w1
         = (mkRuntime (clock w1 + dur (sent w1)) (S (sent w1)) (events w1),
            Retry why)) ->
    (forall w1, n <> 0 ->
       clock w1 <= last_check dur n attempt (sent w) (clock w) ->
       guard w1 = None) ->
    exists w' evs,
      retry_loop guard body url cursor n attempt w
      = (w', Err ("exceeded max retries for cursor " +:+ cursor)) /\
      events w' = events w ++ evs /\
      shape evs = backoff_shape url attempt n /\
      attempts evs = n /\
      slept evs = sum_list (seq attempt n) /\
      sent w' = sent w + n /\
      clock w' = clock w + requests_time dur (sent w) n + sum_list (seq attempt n).
Proof.
  induction n as [|n IH]; intros attempt w Hbody Hguard.
  - exists w, []. rewrite app_nil_r. unfold requests_time. cbn.
    repeat split; lia.
  - cbn [retry_loop].
    rewrite (Hguard w); [|done|apply last_check_ge].
    destruct (Hbody (log_attempt attempt url w)) as [why ->]; [cbn; lia|].
    cbn [log_attempt clock sent events].
    set (w2 := time_Sleep attempt _).
    destruct (IH (S attempt) w2)
      as (w' & evs & -> & Hev & Hsh & Hat & Hsl & Hsent & Hclk).
    { intros w1 Hw1. cbn in Hw1. apply Hbody. lia. }
    { intros w1 Hn Hw1. apply Hguard; [done|].
      destruct n as [|n]; [done|]. exact Hw1. }
    exists w', ([EvAttempt (clock w) attempt url; EvSleep attempt] ++ evs).
    cbn in Hev, Hsent, Hclk.
    split; [done|].
    split; [by rewrite Hev, <- !app_assoc|].
    split; [unfold backoff_shape, shape in *; cbn; do 2 f_equal; exact Hsh|].
    split; [cbn; by rewrite Hat|].
    split; [cbn; by rewrite Hsl|].
    split; [lia|].
    rewrite Hclk. unfold requests_time. cbn. lia.
Qed.

Lemma attempts_backoff url :
  forall n first evs,
    shape evs = backoff_shape url first n -> attempts evs = n.
Proof.
  induction n as [|n IH]; intros first evs H.
  - by destruct evs.
  - change (backoff_shape url first (S n))
      with (inl (first, url) :: inr first :: backoff_shape url (S first) n) in H.
    destruct evs as [|[now a u|s] [|[now' a' u'|s'] evs]]; try discriminate H.
    cbn in H. injection H as _ _ _ H. cbn. f_equal. exact (IH _ _ H).
Qed.

(** Each of the failures of an attempt sends the first [resume_start]
    program into another round. *)
Lemma Part001_failed_attempt_retries env r :
  attempt_fails env r -> exists why, Part001.classify env r = Retry why.
Proof.
  destruct r as [err|status body readErr]; intros H; [by eexists|].
  unfold Part001.classify.
  destruct (Nat.eqb_spec status StatusOK) as [Hs|Hs]; [|by eexists].
  destruct readErr as [e|]; [by eexists|]. cbn [negb].
  destruct H as [H | [H | [H | H]]].
  - done.
  - by destruct H.
  - rewrite H. by eexists.
  - rewrite H. destruct (String.eqb _ _); by eexists.
Qed.

(** And so it does in the current program. *)
Lemma CleanStart_failed_attempt_retries env r :
  attempt_fails env r -> exists why, CleanStart.classify env r = Retry why.
Proof.
  destruct r as [err|status body readErr]; intros H; [by eexists|].
  unfold CleanStart.classify.
  destruct (Nat.eqb_spec status StatusOK) as [Hs|Hs]; [|by eexists].
  destruct readErr as [e|]; [by eexists|]. cbn [negb]. cbv zeta.
  destruct H as [H | [H | [H | H]]].
  - done.
  - by destruct H.
  - rewrite H. by eexists.
  - rewrite H. destruct (strings_HasPrefix _ _); by eexists.
Qed.

(** C3. Retry bound.  A failed attempt is one whose request ends in a
    transport error, in a status other than 200, in a body that cannot be
    read, in a body sniffed as HTML or in a body that does not decode.
    When each of the five attempts fails, [fetchFollowers] makes exactly
    [maxRetries = 5] attempts, attempt [k] being followed by a wait of [k]
    seconds (15 seconds of waiting in all), and then returns the error
    "exceeded max retries for cursor <token>": no sixth attempt, no page.
    When the request can be built it has sent exactly five requests, and
    the time that has passed is the time of the five requests and the 15
    seconds.  The first [resume_start] program has no cancellation; the
    current [clean_start] behaves so when the request can be built and the
    cancellation signal has not fired at the instant the fifth attempt
    starts. *)
Theorem retry_bound :
  (forall env cursor w,
      (forall k, k < maxRetries ->
         attempt_fails env (roundTrip env (sent w + k) (requestURL cursor)).2) ->
      exists w' evs,
        Part001.fetchFollowers env cursor w
        = (w', Err ("exceeded max retries for cursor " +:+ cursor)) /\
        events w' = events w ++ evs /\
        shape evs = backoff_shape (requestURL cursor) 1 maxRetries /\
        attempts evs = 5 /\
        slept evs = 1 + 2 + 3 + 4 + 5 /\
        clock w + (1 + 2 + 3 + 4 + 5) <= clock w' /\
        (newRequestErr env (requestURL cursor) = None ->
           sent w' = sent w + 5 /\
           clock w'
           = clock w
             + requests_time (duration env (requestURL cursor)) (sent w) 5
             + (1 + 2 + 3 + 4 + 5)))
  /\
  (forall env cursor w,
      newRequestErr env (requestURL cursor) = None ->
      (forall t, cancelAt env = Some t -> fifth_attempt_at env cursor w < t) ->
      (forall k, k < maxRetries ->
         attempt_fails env (roundTrip env (sent w + k) (requestURL cursor)).2) ->
      exists w' evs,
        CleanStart.fetchFollowers env cursor w
        = (w', Err ("exceeded max retries for cursor " +:+ cursor)) /\
        events w' = events w ++ evs /\
        shape evs = backoff_shape (requestURL cursor) 1 maxRetries /\
        attempts evs = 5 /\
        slept evs = 1 + 2 + 3 + 4 + 5 /\
        clock w + (1 + 2 + 3 + 4 + 5) <= clock w' /\
        sent w' = sent w + 5 /\
        clock w'
        = clock w
          + requests_time (duration env (requestURL cursor)) (sent w) 5
          + (1 + 2 + 3 + 4 + 5)).
Proof.
  split.
  - intros env cursor w Hfail.
    destruct (newRequestErr env (requestURL cursor)) as [err|] eqn:Hreq.
    + destruct (retry_loop_exhausted (fun _ => None) (Part001.attempt_body env)
                  (requestURL cursor) cursor (fun _ => eq_refl) maxRetries 1 w)
        as (w' & evs & Hf & Hev & Hsh & Hsl & Hclk).
      { intros w1 Hw1. unfold Part001.attempt_body, http_Get. rewrite Hreq.
        exists w1, TransportFailure. cbn. repeat split; lia. }
      exists w', evs. split; [exact Hf|]. split; [exact Hev|].
      split; [exact Hsh|]. split; [exact (attempts_backoff _ _ _ _ Hsh)|].
      split; [exact Hsl|]. split; [exact Hclk|]. intros Hnone. discriminate Hnone.
    + destruct (retry_loop_exhausted_exactly (fun _ => None)
                  (Part001.attempt_body env) (requestURL cursor) cursor
                  (duration env (requestURL cursor)) maxRetries 1 w)
        as (w' & evs & Hf & Hev & Hsh & Hat & Hsl & Hsent & Hclk).
      { intros w1 Hw1. unfold Part001.attempt_body, http_Get.
        rewrite Hreq, client_Do_spec.
        destruct (Part001_failed_attempt_retries env
                    (roundTrip env (sent w1) (requestURL cursor)).2) as [why ->].
        - replace (sent w1) with (sent w + (sent w1 - sent w)) by lia.
          apply Hfail. lia.
        - by exists why. }
      { done. }
      exists w', evs. split; [exact Hf|]. split; [exact Hev|].
      split; [exact Hsh|]. split; [exact Hat|]. split; [exact Hsl|].
      change (sum_list (seq 1 maxRetries)) with 15 in Hclk.
      change (sent w + maxRetries) with (sent w + 5) in Hsent.
      change (requests_time (duration env (requestURL cursor)) (sent w) maxRetries)
        with (requests_time (duration env (requestURL cursor)) (sent w) 5) in Hclk.
      split; [lia|]. intros _. split; [exact Hsent|]. lia.
  - intros env cursor w Hreq Hsig Hfail.
    destruct (retry_loop_exhausted_exactly (ctx_Err env)
                (CleanStart.attempt_body env) (requestURL cursor) cursor
                (duration env (requestURL cursor)) maxRetries 1 w)
      as (w' & evs & Hf & Hev & Hsh & Hat & Hsl & Hsent & Hclk).
    { intros w1 Hw1. unfold CleanStart.attempt_body.
      rewrite Hreq, client_Do_spec.
      destruct (CleanStart_failed_attempt_retries env
                  (roundTrip env (sent w1) (requestURL cursor)).2) as [why ->].
      - replace (sent w1) with (sent w + (sent w1 - sent w)) by lia.
        apply Hfail. lia.
      - by exists why. }
    { intros w1 _ Hw1. unfold ctx_Err.
      destruct (cancelAt env) as [t|] eqn:Ht; [|done].
      specialize (Hsig t eq_refl). unfold fifth_attempt_at in Hsig.
      destruct (Nat.leb_spec t (clock w1)); [lia|done]. }
    exists w', evs. split; [exact Hf|]. split; [exact Hev|].
    split; [exact Hsh|]. split; [exact Hat|]. split; [exact Hsl|].
    change (sum_list (seq 1 maxRetries)) with 15 in Hclk.
    change (sent w + maxRetries) with (sent w + 5) in Hsent.
    change (requests_time (duration env (requestURL cursor)) (sent w) maxRetries)
      with (requests_time (duration env (requestURL cursor)) (sent w) 5) in Hclk.
    split; [lia|]. split; [exact Hsent|]. lia.
Qed.

(** The five attempts fail in five ways (connection reset, status 503, a
    body that breaks off, an HTML page, text that is not JSON), one second
    each.  In the current program the signal arrives at second 15, one
    second after the fifth attempt has started. *)
Lemma retry_bound_witness :
  (exists w' evs,
      Part001.fetchFollowers (Scenario.all_failures None) "abc" Scenario.boot
      = (w', Err "exceeded max retries for cursor abc") /\
      events w' = events Scenario.boot ++ evs /\
      shape evs = backoff_shape (requestURL "abc") 1 maxRetries /\
      attempts evs = 5 /\
      slept evs = 15 /\
      15 <= clock w' /\
      (newRequestErr (Scenario.all_failures (Follower := Extended.Follower) None)
                     (requestURL "abc") = None ->
       sent w' = 5 /\ clock w' = 20))
  /\
  (fifth_attempt_at (Scenario.all_failures (Follower := Minimal.Follower) (Some 15))
                    "abc" Scenario.boot = 14 /\
   exists w' evs,
      CleanStart.fetchFollowers (Scenario.all_failures (Some 15)) "abc" Scenario.boot
      = (w', Err "exceeded max retries for cursor abc") /\
      events w' = events Scenario.boot ++ evs /\
      shape evs = backoff_shape (requestURL "abc") 1 maxRetries /\
      attempts evs = 5 /\
      slept evs = 15 /\
      15 <= clock w' /\
      sent w' = 5 /\ clock w' = 20).
Proof.
  assert (Hfail : forall Follower signal k,
             k < maxRetries ->
             attempt_fails (Scenario.all_failures (Follower := Follower) signal)
               (roundTrip (Scenario.all_failures (Follower := Follower) signal)
                          (sent Scenario.boot + k) (requestURL "abc")).2).
  { intros Follower signal k Hk.
    destruct k as [|[|[|[|[|k]]]]].
    - exact I.
    - left. discriminate.
    - right. left. exists "unexpected EOF". reflexivity.
    - right. right. left. reflexivity.
    - right. right. right. reflexivity.
    - unfold maxRetries in Hk. lia. }
  split.
  - apply (proj1 retry_bound (Scenario.all_failures None) "abc" Scenario.boot).
    apply Hfail.
  - split; [reflexivity|].
    apply (proj2 retry_bound (Scenario.all_failures (Some 15)) "abc" Scenario.boot).
    + reflexivity.
    + intros t Ht. injection Ht as <-.
      change (fifth_attempt_at (Scenario.all_failures (Follower := Minimal.Follower) (Some 15))
                               "abc" Scenario.boot) with 14.
      lia.
    + apply Hfail.
Defined.

(** The retry bound as worded does not hold for the current program.
    Without network every request ends in a transport error.  With the
    signal at second 7, inside the wait after the fourth attempt, the call
    ends at second 10 with the cancellation error after four attempts.
    With a URL that the request cannot be built from, it ends with that
    error after one attempt, which sent nothing. *)
Lemma retry_bound_needs_no_signal :
  (forall k, attempt_fails (Scenario.offline (Follower := Minimal.Follower) (Some 7))
               (roundTrip (Scenario.offline (Follower := Minimal.Follower) (Some 7))
                          k (requestURL "")).2)
  /\
  (CleanStart.fetchFollowers (Scenario.offline (Some 7)) "" Scenario.boot).2
  = Err canceled
  /\
  attempts (events (CleanStart.fetchFollowers (Scenario.offline (Some 7)) ""
                                              Scenario.boot).1) = 4
  /\
  ~ exhausts_retries (Scenario.offline (Some 7)) "" Scenario.boot
  /\
  (CleanStart.fetchFollowers Scenario.unparsable "" Scenario.boot).2
  = Err "net/url: invalid control character in URL"
  /\
  attempts (events (CleanStart.fetchFollowers Scenario.unparsable ""
                                              Scenario.boot).1) = 1
  /\
  ~ exhausts_retries Scenario.unparsable "" Scenario.boot.
Proof.
  split; [intros k; exact I|].
  split; [reflexivity|]. split; [reflexivity|].
  split; [|split; [reflexivity|split; [reflexivity|]]].
  - intros H. destruct H as (w' & evs & Hf & _); [intros k; exact I|].
    discriminate Hf.
  - intros H. destruct H as (w' & evs & Hf & _); [intros k; exact I|].
    discriminate Hf.
Qed.

(** ** HTML bodies *)

(** The sniffer on a few bodies: leading white space and the case of the
    tag do not matter, the tag must end, JSON is left to the other
    signatures. *)
Example sniff_upper_case_tag rest :
  sniff.DetectContentType rest "  <HTML><HEAD></HEAD></HTML>" = sniff.html.
Proof. reflexivity. Qed.

Example sniff_doctype rest :
  sniff.DetectContentType rest "<!doctype html><title>Error</title>" = sniff.html.
Proof. reflexivity. Qed.

Example sniff_unfinished_tag rest :
  sniff.DetectContentType rest "<htmlx" = rest "<htmlx".
Proof. reflexivity. Qed.

Example sniff_json rest :
  sniff.DetectContentType rest "{followers:[],cursor:x}"
  = rest "{followers:[],cursor:x}".
Proof. reflexivity. Qed.


(** With the prefix test of the current [clean_start], and with the full
    media type in both [resume_start] programs, an HTML body is a
    content-type mismatch and is not handed to the JSON decoder. *)
Lemma CleanStart_html_mismatch env body :
  sniff.DetectContentType (sniffRest env) body = sniff.html ->
  CleanStart.classify env (Response StatusOK body None) = Retry ContentTypeMismatch.
Proof. intros H. cbn. by rewrite H. Qed.

Lemma Part001_html_mismatch env body :
  sniff.DetectContentType (sniffRest env) body = sniff.html ->
  Part001.classify env (Response StatusOK body None) = Retry ContentTypeMismatch.
Proof. intros H. cbn. by rewrite H. Qed.

Lemma ResumeStart_html_mismatch env body :
  sniff.DetectContentType (sniffRest env) body = sniff.html ->
  ResumeStart.classify env (Response StatusOK body None) = Retry ContentTypeMismatch.
Proof. intros H. cbn. by rewrite H. Qed.

(** In unnamed/part_000 the test compares with "text/html", which the
    sniffer never answers for an HTML signature: the branch is dead and the
    body goes to the JSON decoder. *)
Lemma Part000_html_decoded env status body :
  sniff.DetectContentType (sniffRest env) body = sniff.html ->
  Part000.classify env (Response status body None)
  = match json_Unmarshal env body with
    | None => Retry DecodeFailure
    | Some (followers, cursor) => Return followers cursor
    end.
Proof. intros H. cbn. by rewrite H. Qed.

(** C9, at the failing input.  The gateway error page is sniffed as HTML;
    the current [clean_start] classifies it as a content-type mismatch,
    but unnamed/part_000 hands it to the JSON decoder, whose verdict alone
    decides: a decode failure when it rejects the page, a page when it
    does not. *)
Theorem html_body_reaches_decoder_in_part000 :
  (forall rest : string -> string,
      sniff.DetectContentType rest Scenario.bad_gateway = "text/html; charset=utf-8")
  /\
  (forall env,
      CleanStart.classify env (Response 200 Scenario.bad_gateway None)
      = Retry ContentTypeMismatch)
  /\
  (forall env,
      Part000.classify env (Response 200 Scenario.bad_gateway None)
      = match json_Unmarshal env Scenario.bad_gateway with
        | None => Retry DecodeFailure
        | Some (followers, cursor) => Return followers cursor
        end)
  /\
  Part000.classify (Scenario.offline None) (Response 200 Scenario.bad_gateway None)
  = Retry DecodeFailure.
Proof.
  assert (H : forall rest, sniff.DetectContentType rest Scenario.bad_gateway = sniff.html)
    by (intros rest; reflexivity).
  split; [exact H|]. split; [|split].
  - intros env. by apply CleanStart_html_mismatch.
  - intros env. by apply Part000_html_decoded.
  - reflexivity.
Qed.

(** ** Cancellation inside [fetchFollowers] *)

(** Without network, a signal at second 11 falls into the wait that
    follows the fifth attempt (seconds 10 to 15): the wait runs to its end
    and the call ends with the exhausted-retries error at second 15. *)
Lemma cancellation_not_prompt :
  (CleanStart.fetchFollowers (Scenario.offline (Some 11)) "" Scenario.boot).2
  = Err "exceeded max retries for cursor "
  /\ clock (CleanStart.fetchFollowers (Scenario.offline (Some 11)) "" Scenario.boot).1 = 15
  /\ ~ cancels_promptly (Scenario.offline (Some 11)) "" Scenario.boot.
Proof.
  split; [reflexivity|]. split; [reflexivity|].
  intros H. destruct (H 11) as [Hr Ht].
  - reflexivity.
  - cbn. lia.
  - discriminate Hr.
Qed.

(** A signal at second 7 falls into the wait that follows the fourth
    attempt (seconds 6 to 10) and is seen at second 10. *)
Lemma cancellation_seen_after_wait :
  CleanStart.fetchFollowers (Scenario.offline (Some 7)) "" Scenario.boot
  = (mkRuntime 10 4
       [EvAttempt 0 1 baseURL; EvSleep 1; EvAttempt 1 2 baseURL; EvSleep 2;
        EvAttempt 3 3 baseURL; EvSleep 3; EvAttempt 6 4 baseURL; EvSleep 4],
     Err canceled).
Proof. reflexivity. Qed.

Lemma ctx_Err_fired {Follower : Type} (env : Env Follower) t w :
  cancelAt env = Some t -> t <= clock w -> ctx_Err env w = Some canceled.
Proof.
  intros H Ht. unfold ctx_Err. rewrite H.
  by destruct (Nat.leb_spec t (clock w)); [|lia].
Qed.

Lemma ctx_Err_pending {Follower : Type} (env : Env Follower) t w :
  cancelAt env = Some t -> ctx_Err env w = None -> clock w < t.
Proof.
  intros H. unfold ctx_Err. rewrite H.
  by destruct (Nat.leb_spec t (clock w)).
Qed.

Lemma retry_loop_attempts_before_signal {Follower : Type} (env : Env Follower)
    (body : string -> Runtime -> Runtime * Decision Follower) url cursor t :
  cancelAt env = Some t ->
  (forall w, events (body url w).1 = events w) ->
  forall n attempt w,
    exists evs,
      events (retry_loop (ctx_Err env) body url cursor n attempt w).1
      = events w ++ evs /\
      forall now a u, EvAttempt now a u ∈ evs -> now < t.
Proof.
  intros Hsig Hbody. induction n as [|n IH]; intros attempt w; simpl.
  - exists []. rewrite app_nil_r. split; [done|]. intros ? ? ? H. by apply elem_of_nil in H.
  - destruct (ctx_Err env w) eqn:Hctx.
    { exists []. rewrite app_nil_r. split; [done|]. intros ? ? ? H. by apply elem_of_nil in H. }
    apply (ctx_Err_pending env t) in Hctx; [|done].
    pose proof (Hbody (log_attempt attempt url w)) as He.
    destruct (body url (log_attempt attempt url w)) as [w1 dec]. cbn in He.
    assert (Hone : forall now a u,
               EvAttempt now a u ∈ [EvAttempt (clock w) attempt url] -> now < t).
    { intros ? ? ? H. apply list_elem_of_singleton in H. by inversion H; subst. }
    destruct dec as [fs c|err|why]; cbn.
    + exists [EvAttempt (clock w) attempt url]. by rewrite He.
    + exists [EvAttempt (clock w) attempt url]. by rewrite He.
    + destruct (IH (S attempt) (time_Sleep attempt w1)) as (evs & Hev & Hu).
      exists ([EvAttempt (clock w) attempt url; EvSleep attempt] ++ evs).
      split.
      * rewrite Hev. cbn. rewrite He. cbn. by rewrite <- !app_assoc.
      * intros now a u H. apply elem_of_app in H as [H|H]; [|by eauto].
        apply elem_of_cons in H as [H|H]; [by inversion H; subst|].
        apply list_elem_of_singleton in H. discriminate H.
Qed.

(** C4, amended.  In the current [clean_start], once the interrupt signal
    has fired no attempt starts any more: every attempt of a call starts
    strictly before the signal; a call entered after the signal returns the
    cancellation error at once, without an attempt or a wait; and when an
    attempt that is not the last one fails, a signal that fires at any
    moment up to the end of the wait of [attempt] seconds that follows is
    seen when that wait ends, the call returning the cancellation error
    then (the wait is not cut short). *)
Theorem cancellation_at_next_check :
  forall env cursor t,
    cancelAt env = Some t ->
    (forall w, exists evs,
        events (CleanStart.fetchFollowers env cursor w).1 = events w ++ evs /\
        forall now a u, EvAttempt now a u ∈ evs -> now < t)
    /\
    (forall w, t <= clock w ->
        CleanStart.fetchFollowers env cursor w = (w, Err canceled))
    /\
    (forall n attempt w w1 why,
        ctx_Err env w = None ->
        CleanStart.attempt_body env (requestURL cursor)
          (log_attempt attempt (requestURL cursor) w) = (w1, Retry why) ->
        t <= clock w1 + attempt ->
        retry_loop (ctx_Err env) (CleanStart.attempt_body env)
          (requestURL cursor) cursor (S (S n)) attempt w
        = (time_Sleep attempt w1, Err canceled)).
Proof.
  intros env cursor t Hsig. split; [|split].
  - intros w. apply (retry_loop_attempts_before_signal env _ _ _ t Hsig).
    apply CleanStart_body_events.
  - intros w Ht. unfold CleanStart.fetchFollowers. cbn.
    by rewrite (ctx_Err_fired env t w).
  - intros n attempt w w1 why Hctx Hbody Ht.
    cbn. rewrite Hctx.
    unfold CleanStart.attempt_body in Hbody |- *. rewrite Hbody.
    by rewrite (ctx_Err_fired env t (time_Sleep attempt w1)).
Qed.

Lemma cancellation_at_next_check_witness :
  let env : Env Minimal.Follower := Scenario.offline (Some 7) in
  cancelAt env = Some 7
  /\ (exists evs,
        events (CleanStart.fetchFollowers env "" Scenario.boot).1
        = events Scenario.boot ++ evs /\
        forall now a u, EvAttempt now a u ∈ evs -> now < 7)
  /\ (7 <= clock (mkRuntime 9 0 []) /\
      CleanStart.fetchFollowers env "" (mkRuntime 9 0 [])
      = (mkRuntime 9 0 [], Err canceled))
  /\ (ctx_Err env (mkRuntime 6 3 []) = None /\
      CleanStart.attempt_body env (requestURL "")
        (log_attempt 4 (requestURL "") (mkRuntime 6 3 []))
      = (mkRuntime 6 4 [EvAttempt 6 4 baseURL], Retry TransportFailure) /\
      7 <= 6 + 4 /\
      retry_loop (ctx_Err env) (CleanStart.attempt_body env)
        (requestURL "") "" 2 4 (mkRuntime 6 3 [])
      = (time_Sleep 4 (mkRuntime 6 4 [EvAttempt 6 4 baseURL]), Err canceled)).
Proof.
  intros env.
  assert (Hsig : cancelAt env = Some 7) by reflexivity.
  destruct (cancellation_at_next_check env "" 7 Hsig) as (H1 & H2 & H3).
  split; [exact Hsig|]. split; [exact (H1 Scenario.boot)|]. split.
  - assert (Ht : 7 <= clock (mkRuntime 9 0 [])) by (cbn; lia).
    split; [exact Ht|]. exact (H2 (mkRuntime 9 0 []) Ht).
  - assert (Hc : ctx_Err env (mkRuntime 6 3 []) = None) by reflexivity.
    assert (Hb : CleanStart.attempt_body env (requestURL "")
                   (log_attempt 4 (requestURL "") (mkRuntime 6 3 []))
                 = (mkRuntime 6 4 [EvAttempt 6 4 baseURL], Retry TransportFailure))
      by reflexivity.
    assert (Ht : 7 <= 6 + 4) by lia.
    split; [exact Hc|]. split; [exact Hb|]. split; [exact Ht|].
    exact (H3 0 4 (mkRuntime 6 3 []) _ _ Hc Hb Ht).
Defined.

(** ** The driver *)

Lemma main_loop_token {Follower Row : Type}
    (args : Follower -> string * Row) fetch save faults iter :
  token_follows_commit args fetch save faults iter ->
  forall fuel cursor p,
    (main_loop iter fuel cursor p).1.2 = cursor \/
    committed_token fetch save faults (main_loop iter fuel cursor p).1.2.
Proof.
  intros Hiter. induction fuel as [|fuel IH]; intros cursor p; simpl; [by left|].
  pose proof (Hiter cursor p) as H.
  destruct (iter cursor p) as [[st c1] p1]. destruct H as (Hadv & _).
  assert (Hc1 : c1 = cursor \/ committed_token fetch save faults c1).
  { destruct (decide (c1 = cursor)) as [|Hne]; [by left|]. right.
    destruct (Hadv Hne) as (_ & w & fs & Hf & Hs & _).
    by exists cursor, p, w, fs, (db p1). }
  destruct st; cbn; try exact Hc1.
  destruct (IH c1 p1) as [->|H]; [exact Hc1 | by right].
Qed.


(** The passes that keep the token. *)
Ltac same_token :=
  repeat split; intros; simplify_eq/=; try done;
  try match goal with
      | H1 : ?x = (_, None), H2 : ?x = (_, Some _) |- _ =>
          rewrite H1 in H2; discriminate H2
      end.

Lemma CleanStart_token_follows_commit env :
  token_follows_commit Minimal.exec_args (CleanStart.fetchFollowers env)
    CleanStart.saveFollowers (dbFaults env) (CleanStart.main_iter env).
Proof.
  intros cursor p. unfold CleanStart.main_iter.
  destruct (ctx_Err env (rt p)); [same_token|].
  destruct (CleanStart.fetchFollowers env cursor (rt p)) as [w [[fs c]|err]].
  - pose proof (CleanStart_save_all_or_nothing (dbFaults env (txs p)) (db p) fs) as Hs.
    destruct (CleanStart.saveFollowers _ (db p) fs) as [d [e|]] eqn:Hsave.
    + assert (d = db p) as ->.
      { destruct d, (db p); cbn in *. destruct Hs as [-> ?]. f_equal. lia. }
      same_token.
    + destruct (String.eqb_spec c "") as [->|Hc].
      * same_token.
      * split.
        -- intros _. split; [done|]. exists w, fs. cbn. by subst d.
        -- same_token.
  - destruct (ctx_Err env w); same_token.
Qed.

Lemma Part001_token_follows_commit env :
  token_follows_commit Extended.exec_args (Part001.fetchFollowers env)
    Part001.saveFollowers (dbFaults env) (Part001.main_iter env).
Proof.
  intros cursor p. unfold Part001.main_iter.
  destruct (Part001.fetchFollowers env cursor (rt p)) as [w [[fs c]|err]].
  - pose proof (Part001_save_all_or_nothing (dbFaults env (txs p)) (db p) fs) as Hs.
    destruct (Part001.saveFollowers _ (db p) fs) as [d [e|]] eqn:Hsave.
    + assert (d = db p) as ->.
      { destruct d, (db p); cbn in *. destruct Hs as [-> ?]. f_equal. lia. }
      same_token.
    + destruct (String.eqb_spec c "") as [->|Hc].
      * same_token.
      * split.
        -- intros _. split; [done|]. exists w, fs. cbn. by subst d.
        -- same_token.
  - same_token.
Qed.

Lemma ResumeStart_token_follows_commit env :
  token_follows_commit Extended.exec_args (ResumeStart.fetchFollowers env)
    ResumeStart.saveFollowers (dbFaults env) (ResumeStart.main_iter env).
Proof.
  intros cursor p. unfold ResumeStart.main_iter.
  destruct (ctx_Err env (rt p)); [same_token|].
  destruct (ResumeStart.fetchFollowers env cursor (rt p)) as [w [[fs c]|err]].
  - pose proof (ResumeStart_save_all_or_nothing (dbFaults env (txs p)) (db p) fs) as Hs.
    destruct (ResumeStart.saveFollowers _ (db p) fs) as [d [e|]] eqn:Hsave.
    + assert (d = db p) as ->.
      { destruct d, (db p); cbn in *. destruct Hs as [-> ?]. f_equal. lia. }
      same_token.
    + destruct (String.eqb_spec c "") as [->|Hc].
      * same_token.
      * split.
        -- intros _. split; [done|]. exists w, fs. cbn. by subst d.
        -- same_token.
  - destruct (ctx_Err env w); same_token.
Qed.

(** C6. Driver invariant, for the first [resume_start] program and the
    current [clean_start]: in a pass of the loop the token changes only to
    the token of the page just fetched, and only when the records of that
    page have been committed to the table; when the fetch fails, when the
    save fails, and when the pass ends in cancellation, token and database
    are the ones from before the pass.  Hence the token of a run, after any
    number of passes, is the starting token or the token of a page whose
    records were committed. *)
Theorem token_advances_after_commit :
  (forall env,
      token_follows_commit Extended.exec_args (Part001.fetchFollowers env)
        Part001.saveFollowers (dbFaults env) (Part001.main_iter env)
      /\ forall fuel startCursor p,
          (Part001.main env fuel startCursor p).1.2 = startCursor \/
          committed_token (Part001.fetchFollowers env) Part001.saveFollowers
            (dbFaults env) (Part001.main env fuel startCursor p).1.2)
  /\
  (forall env,
      token_follows_commit Minimal.exec_args (CleanStart.fetchFollowers env)
        CleanStart.saveFollowers (dbFaults env) (CleanStart.main_iter env)
      /\ forall fuel p,
          (CleanStart.main env fuel p).1.2 = "" \/
          committed_token (CleanStart.fetchFollowers env) CleanStart.saveFollowers
            (dbFaults env) (CleanStart.main env fuel p).1.2).
Proof.
  split; intros env; split.
  - apply Part001_token_follows_commit.
  - intros fuel c p.
    apply (main_loop_token _ _ _ _ _ (Part001_token_follows_commit env)).
  - apply CleanStart_token_follows_commit.
  - intros fuel p.
    apply (main_loop_token _ _ _ _ _ (CleanStart_token_follows_commit env)).
Qed.

Lemma token_advances_after_commit_witness :
  let env := Scenario.scripted Scenario.three_pages (fun _ => sql.no_faults) in
  CleanStart.main_iter env "" Scenario.start
  = (RUNNING, "a",
     mkProcess (mkRuntime 1 1 [EvAttempt 0 1 baseURL])
       (sql.mkDB (sql.upsert_all Minimal.exec_args ∅ [Scenario.alice]) 0)
       1 [[Scenario.alice]])
  /\ ((CleanStart.main env 2 Scenario.start).1.2 = "" \/
      committed_token (CleanStart.fetchFollowers env) CleanStart.saveFollowers
        (dbFaults env) (CleanStart.main env 2 Scenario.start).1.2).
Proof.
  intros env. split; [reflexivity|].
  exact (proj2 (proj2 token_advances_after_commit env) 2 Scenario.start).
Defined.

(** *** Errors in a pass *)

(** Both [resume_start] programs go on after an error: without network the
    first one ends the pass in [RUNNING]; so does the current one when the
    engine rejects a statement of the page. *)
Lemma resume_driver_continues_on_error :
  let env1 : Env Extended.Follower := Scenario.offline None in
  let env2 := Scenario.scripted Scenario.one_page
                (fun _ => Scenario.second_exec_fails) in
  ~ halts_on_error (Part001.fetchFollowers env1) Part001.saveFollowers
      (dbFaults env1) (Part001.main_iter env1) "" Scenario.start
  /\
  ~ halts_on_error (ResumeStart.fetchFollowers env2) ResumeStart.saveFollowers
      (dbFaults env2) (ResumeStart.main_iter env2) "" Scenario.start.
Proof.
  intros env1 env2. split; intros H.
  - destruct H as [err Herr]; [|discriminate Herr].
    left. eexists. reflexivity.
  - destruct H as [err Herr]; [|discriminate Herr].
    right. do 5 eexists. split; reflexivity.
Qed.

Lemma save_error_keeps_db {Row Follower : Type}
    (args : Follower -> string * Row) save :
  all_or_nothing args 0 save ->
  forall f d l d' err, save f d l = (d', Some err) -> d' = d.
Proof.
  intros H f d l d' err Hs.
  pose proof (all_or_nothing_error args save H f d l) as He.
  rewrite Hs in He. apply He. by eexists.
Qed.

(** C5, amended.  The current [clean_start] stops in [FAILED] with the
    error when, no interrupt signal having fired, the fetch fails or the
    save of the fetched page fails.  Both [resume_start] programs do not
    stop: the pass ends in [RUNNING] with the same token and the same
    database, after a wait of two seconds when it was the fetch that
    failed, so the next pass fetches the same page again; the token never
    moves past the page that failed. *)
Theorem driver_error_policy :
  (forall env cursor p w err fuel,
      ctx_Err env (rt p) = None ->
      CleanStart.fetchFollowers env cursor (rt p) = (w, Err err) ->
      ctx_Err env w = None ->
      main_loop (CleanStart.main_iter env) (S fuel) cursor p
      = (FAILED err, cursor, mkProcess w (db p) (txs p) (saved p)))
  /\
  (forall env cursor p w followers newCursor d err fuel,
      ctx_Err env (rt p) = None ->
      CleanStart.fetchFollowers env cursor (rt p) = (w, Ok (followers, newCursor)) ->
      CleanStart.saveFollowers (dbFaults env (txs p)) (db p) followers = (d, Some err) ->
      main_loop (CleanStart.main_iter env) (S fuel) cursor p
      = (FAILED err, cursor,
         mkProcess w (db p) (S (txs p)) (saved p ++ [followers])))
  /\
  (forall env cursor p w err,
      Part001.fetchFollowers env cursor (rt p) = (w, Err err) ->
      Part001.main_iter env cursor p
      = (RUNNING, cursor, mkProcess (time_Sleep 2 w) (db p) (txs p) (saved p)))
  /\
  (forall env cursor p w followers newCursor d err,
      Part001.fetchFollowers env cursor (rt p) = (w, Ok (followers, newCursor)) ->
      Part001.saveFollowers (dbFaults env (txs p)) (db p) followers = (d, Some err) ->
      Part001.main_iter env cursor p
      = (RUNNING, cursor,
         mkProcess w (db p) (S (txs p)) (saved p ++ [followers])))
  /\
  (forall env cursor p w err,
      ctx_Err env (rt p) = None ->
      ResumeStart.fetchFollowers env cursor (rt p) = (w, Err err) ->
      ctx_Err env w = None ->
      ResumeStart.main_iter env cursor p
      = (RUNNING, cursor, mkProcess (time_Sleep 2 w) (db p) (txs p) (saved p)))
  /\
  (forall env cursor p w followers newCursor d err,
      ctx_Err env (rt p) = None ->
      ResumeStart.fetchFollowers env cursor (rt p) = (w, Ok (followers, newCursor)) ->
      ResumeStart.saveFollowers (dbFaults env (txs p)) (db p) followers = (d, Some err) ->
      ResumeStart.main_iter env cursor p
      = (RUNNING, cursor,
         mkProcess w (db p) (S (txs p)) (saved p ++ [followers]))).
Proof.
  repeat split.
  - intros env cursor p w err fuel Hc Hf Hc'. cbn.
    unfold CleanStart.main_iter. by rewrite Hc, Hf, Hc'.
  - intros env cursor p w fs c d err fuel Hc Hf Hs. cbn.
    unfold CleanStart.main_iter. rewrite Hc, Hf, Hs.
    by rewrite (save_error_keeps_db _ _ CleanStart_save_all_or_nothing _ _ _ _ _ Hs).
  - intros env cursor p w err Hf.
    unfold Part001.main_iter. by rewrite Hf.
  - intros env cursor p w fs c d err Hf Hs.
    unfold Part001.main_iter. rewrite Hf, Hs.
    by rewrite (save_error_keeps_db _ _ Part001_save_all_or_nothing _ _ _ _ _ Hs).
  - intros env cursor p w err Hc Hf Hc'.
    unfold ResumeStart.main_iter. by rewrite Hc, Hf, Hc'.
  - intros env cursor p w fs c d err Hc Hf Hs.
    unfold ResumeStart.main_iter. rewrite Hc, Hf, Hs.
    by rewrite (save_error_keeps_db _ _ ResumeStart_save_all_or_nothing _ _ _ _ _ Hs).
Qed.

Lemma driver_error_policy_witness :
  let off1 : Env Minimal.Follower := Scenario.offline None in
  let bad1 := Scenario.scripted Scenario.two_in_one
                (fun _ => Scenario.second_exec_fails) in
  let off2 : Env Extended.Follower := Scenario.offline None in
  let bad2 := Scenario.scripted Scenario.one_page
                (fun _ => Scenario.second_exec_fails) in
  let down := (CleanStart.fetchFollowers off1 "" Scenario.boot).1 in
  let got := mkRuntime 1 1 [EvAttempt 0 1 baseURL] in
  (CleanStart.main off1 1 Scenario.start
   = (FAILED "exceeded max retries for cursor ", "",
      mkProcess down Scenario.empty_db 0 []))
  /\
  (CleanStart.main bad1 1 Scenario.start
   = (FAILED "failed to execute statement: disk I/O error", "",
      mkProcess got Scenario.empty_db 1 [[Scenario.alice; Scenario.bob]]))
  /\
  (Part001.main_iter off2 "" Scenario.start
   = (RUNNING, "", mkProcess (time_Sleep 2 down) Scenario.empty_db 0 []))
  /\
  (Part001.main_iter bad2 "" Scenario.start
   = (RUNNING, "",
      mkProcess got Scenario.empty_db 1 [[Scenario.carol; Scenario.dave]]))
  /\
  (ResumeStart.main_iter off2 "" Scenario.start
   = (RUNNING, "", mkProcess (time_Sleep 2 down) Scenario.empty_db 0 []))
  /\
  (ResumeStart.main_iter bad2 "" Scenario.start
   = (RUNNING, "",
      mkProcess got Scenario.empty_db 1 [[Scenario.carol; Scenario.dave]])).
Proof.
  intros off1 bad1 off2 bad2 down got.
  destruct driver_error_policy as (H1 & H2 & H3 & H4 & H5 & H6).
  split; [|split; [|split; [|split; [|split]]]].
  - apply (H1 off1 "" Scenario.start down "exceeded max retries for cursor " 0);
      reflexivity.
  - apply (H2 bad1 "" Scenario.start got [Scenario.alice; Scenario.bob] "n"
              Scenario.empty_db "failed to execute statement: disk I/O error" 0);
      reflexivity.
  - apply (H3 off2 "" Scenario.start down "exceeded max retries for cursor ");
      reflexivity.
  - apply (H4 bad2 "" Scenario.start got [Scenario.carol; Scenario.dave] "n"
              Scenario.empty_db
              "failed to execute statement for follower did:plc:dave: disk I/O error");
      reflexivity.
  - apply (H5 off2 "" Scenario.start down "exceeded max retries for cursor ");
      reflexivity.
  - apply (H6 bad2 "" Scenario.start got [Scenario.carol; Scenario.dave] "n"
              Scenario.empty_db
              "failed to execute statement for follower did:plc:dave: disk I/O error");
      reflexivity.
Defined.

(** *** A run over a script of pages *)

Lemma main_loop_pages {Follower Row : Type} (args : Follower -> string * Row)
    (iter : string -> Process Follower Row -> Status * string * Process Follower Row)
    (good : nat -> nat -> list Follower * string -> Prop) :
  (forall cursor p page,
      good (sent (rt p)) (txs p) page ->
      exists p',
        iter cursor p
        = (if String.eqb page.2 "" then DONE else RUNNING,
           if String.eqb page.2 "" then cursor else page.2, p') /\
        page_done args page p p') ->
  forall pages cursor p,
    ends_with_empty_token pages ->
    (forall i page, pages !! i = Some page ->
                    good (sent (rt p) + i) (txs p + i) page) ->
    forall fuel, length pages <= fuel ->
      exists c p',
        main_loop iter fuel cursor p = (DONE, c, p') /\
        saved p' = saved p ++ map fst pages /\
        sent (rt p') = sent (rt p) + length pages /\
        txs p' = txs p + length pages /\
        sql.table (db p')
        = foldl (sql.upsert_all args) (sql.table (db p)) (map fst pages).
Proof.
  intros Hpass. induction pages as [|page rest IH]; intros cursor p Hend Hgood fuel Hfuel;
    [done|].
  destruct fuel as [|fuel]; [simpl in Hfuel; lia|].
  destruct (Hpass cursor p page) as (p1 & Hiter & Hsaved & Hsent & Htxs & Hdb).
  { specialize (Hgood 0 page eq_refl). by rewrite !Nat.add_0_r in Hgood. }
  simpl. rewrite Hiter. destruct rest as [|page2 rest].
  - simpl in Hend. rewrite Hend. simpl.
    exists cursor, p1. rewrite Hsaved, Hsent, Htxs, Hdb. simpl.
    repeat split; lia.
  - destruct Hend as [Hne Hend]. rewrite (eqb_empty_false _ Hne).
    destruct (IH page.2 p1 Hend) with (fuel := fuel) as (c & p' & Hrun & Hs & Hn & Ht & Hd).
    + intros i pg Hi. specialize (Hgood (S i) pg Hi).
      rewrite Hsent, Htxs.
      by replace (S (sent (rt p)) + i) with (sent (rt p) + S i) by lia;
         replace (S (txs p) + i) with (txs p + S i) by lia.
    + simpl in Hfuel. simpl. lia.
    + exists c, p'. split; [exact Hrun|].
      rewrite Hs, Hn, Ht, Hd, Hsaved, Hsent, Htxs, Hdb.
      change (length (page :: page2 :: rest)) with (S (length (page2 :: rest))).
      change (map fst (page :: page2 :: rest))
        with ([page.1] ++ map fst (page2 :: rest)).
      rewrite <- app_assoc. repeat split; lia.
Qed.

Ltac save_healthy f d l :=
  destruct f as [fb fp fe fc fr], d as [m n];
  intros (Hb & Hp & He & Hc); cbn in Hb, Hp, He, Hc; subst fb fp fc; cbn;
  rewrite exec_each_no_fault by (intros; apply He); reflexivity.

Lemma CleanStart_save_healthy f d (l : list Minimal.Follower) :
  healthy f ->
  CleanStart.saveFollowers f d l
  = (sql.mkDB (sql.upsert_all Minimal.exec_args (sql.table d) l) (sql.open_tx d), None).
Proof. unfold CleanStart.saveFollowers. save_healthy f d l. Qed.


Lemma CleanStart_fetch_first_try env cursor w followers newCursor :
  ctx_Err env w = None ->
  newRequestErr env (requestURL cursor) = None ->
  CleanStart.classify env (roundTrip env (sent w) (requestURL cursor)).2
  = Return followers newCursor ->
  exists w', CleanStart.fetchFollowers env cursor w = (w', Ok (followers, newCursor))
             /\ sent w' = S (sent w).
Proof.
  intros Hctx Hreq Hcls.
  unfold CleanStart.fetchFollowers, maxRetries. cbn [retry_loop]. rewrite Hctx.
  unfold CleanStart.attempt_body. rewrite Hreq, client_Do_spec.
  cbn [log_attempt sent clock events]. rewrite Hcls.
  eexists. split; reflexivity.
Qed.


Lemma CleanStart_pass env :
  cancelAt env = None ->
  (forall url, newRequestErr env url = None) ->
  forall cursor p page,
    serves (CleanStart.classify env) env (sent (rt p)) page /\
    healthy (dbFaults env (txs p)) ->
    exists p',
      CleanStart.main_iter env cursor p
      = (if String.eqb page.2 "" then DONE else RUNNING,
         if String.eqb page.2 "" then cursor else page.2, p') /\
      page_done Minimal.exec_args page p p'.
Proof.
  intros Hsig Hreq cursor p [fs c] [Hserve Hdb].
  pose proof (ctx_Err_no_signal env Hsig) as Hctx.
  destruct (CleanStart_fetch_first_try env cursor (rt p) fs c)
    as (w' & Hfetch & Hsent); [done | done | apply Hserve |].
  unfold CleanStart.main_iter.
  rewrite Hctx, Hfetch, (CleanStart_save_healthy _ _ _ Hdb). cbn.
  destruct (String.eqb c ""); eexists; (split; [reflexivity|]); by repeat split.
Qed.



Lemma no_faults_healthy : healthy sql.no_faults.
Proof. by repeat split. Qed.



(** * Further properties of the programs *)

(** ** Rows and keys under [saveFollowers] *)

Section MoreTableFacts.
Context {Row Follower : Type} (args : Follower -> string * Row).

Lemma upsert_all_is_Some (l : list Follower) (m : gmap string Row) (k : string) :
  is_Some (sql.upsert_all args m l !! k)
  <-> is_Some (m !! k) \/ exists x, x ∈ l /\ (args x).1 = k.
Proof.
  induction l as [|x l IH] using rev_ind.
  - cbn. split; [by left|]. intros [H|(x & Hx & _)]; [done|].
    by apply elem_of_nil in Hx.
  - rewrite upsert_all_snoc, lookup_insert_is_Some', IH. split.
    + intros [H|[H|(y & Hy & Hk)]].
      * right. exists x. split; [|done]. apply elem_of_app. right.
        by apply list_elem_of_singleton.
      * by left.
      * right. exists y. split; [|done]. apply elem_of_app. by left.
    + intros [H|(y & Hy & Hk)]; [by right; left|].
      apply elem_of_app in Hy as [Hy|Hy].
      * right. right. by exists y.
      * apply list_elem_of_singleton in Hy. subst y. by left.
Qed.

Lemma upsert_all_other (l : list Follower) (m : gmap string Row) (k : string) :
  (forall x, x ∈ l -> (args x).1 ≠ k) ->
  sql.upsert_all args m l !! k = m !! k.
Proof.
  intros H. rewrite upsert_all_lookup.
  rewrite (filter_other_keys (fun x => (args x).1) k l); [done|].
  apply Forall_forall. exact H.
Qed.

Lemma upsert_all_size (l : list Follower) (m : gmap string Row) :
  (forall x, x ∈ l -> is_Some (m !! (args x).1)) ->
  size (sql.upsert_all args m l) = size m.
Proof.
  intros H. rewrite <- !size_dom. f_equal.
  apply set_eq. intros k. rewrite !elem_of_dom, upsert_all_is_Some.
  split; [|by left]. intros [Hk|(x & Hx & <-)]; [done|]. by apply H.
Qed.

Lemma exec_each_inl_no_fault (f : sql.Faults) (l : list Follower) :
  forall i t t',
    sql.exec_each args f i t l = inl t' ->
    forall j, i <= j < i + length l -> sql.exec_err f j = None.
Proof.
  induction l as [|x l IH]; intros i t t' H j Hj; simpl in *; [lia|].
  destruct (sql.exec_err f i) eqn:Hi; [done|].
  destruct (decide (j = i)) as [->|Hne]; [done|].
  apply (IH _ _ _ H). lia.
Qed.

Lemma exec_each_first_fault (f : sql.Faults) (l : list Follower) :
  forall i0 t i x e,
    (forall j, i0 <= j < i0 + i -> sql.exec_err f j = None) ->
    sql.exec_err f (i0 + i) = Some e ->
    l !! i = Some x ->
    sql.exec_each args f i0 t l = inr (x, e).
Proof.
  induction l as [|y l IH]; intros i0 t i x e Hbefore Hat Hx; [done|].
  destruct i as [|i]; simpl in *.
  - rewrite Nat.add_0_r in Hat. rewrite Hat. by inversion Hx.
  - rewrite (Hbefore i0) by lia.
    apply (IH (S i0) _ i); [|by rewrite <- Nat.add_succ_comm in Hat|done].
    intros j Hj. apply Hbefore. lia.
Qed.
End MoreTableFacts.

Lemma all_or_nothing_rows {Row Follower : Type}
    (args : Follower -> string * Row) leak save :
  all_or_nothing args leak save ->
  forall f d l,
    (forall k, is_Some (sql.table d !! k) ->
               is_Some (sql.table (save f d l).1 !! k))
    /\
    (forall k, (forall x, x ∈ l -> (args x).1 ≠ k) ->
               sql.table (save f d l).1 !! k = sql.table d !! k)
    /\
    ((save f d l).2 = None ->
     forall k, is_Some (sql.table (save f d l).1 !! k)
               <-> is_Some (sql.table d !! k) \/ exists x, x ∈ l /\ (args x).1 = k).
Proof.
  intros H f d l. pose proof (H f d l) as Ha.
  destruct (save f d l) as [d' [e|]]; cbn.
  - destruct Ha as [-> _]. by repeat split.
  - subst d'. cbn. split; [|split].
    + intros k Hk. apply upsert_all_is_Some. by left.
    + intros k Hk. by apply upsert_all_other.
    + intros _ k. apply upsert_all_is_Some.
Qed.

(** X1. [saveFollowers] never removes a row and never touches the row of
    an id that is not in the batch, whether it succeeds or fails; when it
    succeeds the ids of the table are those from before together with
    those of the batch.  For the current [clean_start], the current
    [resume_start] and the root program. *)
Theorem save_keeps_other_rows :
  (forall f d (l : list Minimal.Follower),
      (forall k, is_Some (sql.table d !! k) ->
                 is_Some (sql.table (CleanStart.saveFollowers f d l).1 !! k))
      /\
      (forall k, (forall x, x ∈ l -> Minimal.DID x ≠ k) ->
                 sql.table (CleanStart.saveFollowers f d l).1 !! k = sql.table d !! k)
      /\
      ((CleanStart.saveFollowers f d l).2 = None ->
       forall k, is_Some (sql.table (CleanStart.saveFollowers f d l).1 !! k)
                 <-> is_Some (sql.table d !! k)
                     \/ exists x, x ∈ l /\ Minimal.DID x = k))
  /\
  (forall f d (l : list Extended.Follower),
      (forall k, is_Some (sql.table d !! k) ->
                 is_Some (sql.table (ResumeStart.saveFollowers f d l).1 !! k))
      /\
      (forall k, (forall x, x ∈ l -> Extended.DID x ≠ k) ->
                 sql.table (ResumeStart.saveFollowers f d l).1 !! k = sql.table d !! k)
      /\
      ((ResumeStart.saveFollowers f d l).2 = None ->
       forall k, is_Some (sql.table (ResumeStart.saveFollowers f d l).1 !! k)
                 <-> is_Some (sql.table d !! k)
                     \/ exists x, x ∈ l /\ Extended.DID x = k))
  /\
  (forall f d (l : list Minimal.Follower),
      (forall k, is_Some (sql.table d !! k) ->
                 is_Some (sql.table (Root.saveFollowers f d l).1 !! k))
      /\
      (forall k, (forall x, x ∈ l -> Minimal.DID x ≠ k) ->
                 sql.table (Root.saveFollowers f d l).1 !! k = sql.table d !! k)
      /\
      ((Root.saveFollowers f d l).2 = None ->
       forall k, is_Some (sql.table (Root.saveFollowers f d l).1 !! k)
                 <-> is_Some (sql.table d !! k)
                     \/ exists x, x ∈ l /\ Minimal.DID x = k)).
Proof.
  split; [|split]; intros f d l.
  - apply (all_or_nothing_rows Minimal.exec_args 0 _ CleanStart_save_all_or_nothing).
  - apply (all_or_nothing_rows Extended.exec_args 0 _ ResumeStart_save_all_or_nothing).
  - apply (all_or_nothing_rows Minimal.exec_args 1 _ Root_save_all_or_nothing).
Qed.

Lemma save_keeps_other_rows_witness :
  let d := (CleanStart.saveFollowers sql.no_faults Scenario.empty_db [Scenario.bob]).1 in
  let d' := (CleanStart.saveFollowers sql.no_faults d [Scenario.alice; Scenario.alice']).1 in
  is_Some (sql.table d' !! "did:plc:bob")
  /\ sql.table d' !! "did:plc:bob" = sql.table d !! "did:plc:bob"
  /\ (is_Some (sql.table d' !! "did:plc:alice")
      <-> is_Some (sql.table d !! "did:plc:alice")
          \/ exists x, x ∈ [Scenario.alice; Scenario.alice'] /\ Minimal.DID x = "did:plc:alice").
Proof.
  intros d d'.
  destruct (proj1 save_keeps_other_rows sql.no_faults d [Scenario.alice; Scenario.alice'])
    as (H1 & H2 & H3).
  split; [|split].
  - apply H1. by eexists.
  - apply H2. intros x Hx.
    apply elem_of_cons in Hx as [->|Hx]; [discriminate|].
    apply list_elem_of_singleton in Hx as ->. discriminate.
  - apply H3. reflexivity.
Defined.

(** X2. Last write wins.  After a successful [saveFollowers] the row of an
    id is built from the last record of the batch with that id, all its
    columns replacing the old ones, and it is the row from before for an id
    the batch does not have; when every id of the batch was in the table
    already, the number of rows is unchanged. *)
Theorem save_last_write_wins :
  (forall f d (l : list Minimal.Follower) d',
      CleanStart.saveFollowers f d l = (d', None) ->
      (forall k, sql.table d' !! k
                 = match last (filter (fun x => Minimal.DID x = k) l) with
                   | Some x => Some (Minimal.exec_args x).2
                   | None => sql.table d !! k
                   end)
      /\
      ((forall x, x ∈ l -> is_Some (sql.table d !! Minimal.DID x)) ->
       size (sql.table d') = size (sql.table d)))
  /\
  (forall f d (l : list Extended.Follower) d',
      ResumeStart.saveFollowers f d l = (d', None) ->
      (forall k, sql.table d' !! k
                 = match last (filter (fun x => Extended.DID x = k) l) with
                   | Some x => Some (Extended.exec_args x).2
                   | None => sql.table d !! k
                   end)
      /\
      ((forall x, x ∈ l -> is_Some (sql.table d !! Extended.DID x)) ->
       size (sql.table d') = size (sql.table d))).
Proof.
  split; intros f d l d' Hs.
  - pose proof (CleanStart_save_all_or_nothing f d l) as Ha.
    rewrite Hs in Ha. subst d'. cbn. split.
    + intros k. apply (upsert_all_lookup Minimal.exec_args).
    + intros H. by apply (upsert_all_size Minimal.exec_args).
  - pose proof (ResumeStart_save_all_or_nothing f d l) as Ha.
    rewrite Hs in Ha. subst d'. cbn. split.
    + intros k. apply (upsert_all_lookup Extended.exec_args).
    + intros H. by apply (upsert_all_size Extended.exec_args).
Qed.

Lemma save_last_write_wins_witness :
  let d := (CleanStart.saveFollowers sql.no_faults Scenario.empty_db
              [Scenario.alice; Scenario.bob]).1 in
  let l := [Scenario.alice'; Scenario.alice; Scenario.alice'] in
  let d' := (CleanStart.saveFollowers sql.no_faults d l).1 in
  CleanStart.saveFollowers sql.no_faults d l = (d', None)
  /\ sql.table d' !! "did:plc:alice" = Some (Minimal.exec_args Scenario.alice').2
  /\ sql.table d' !! "did:plc:bob" = Some (Minimal.exec_args Scenario.bob).2
  /\ size (sql.table d') = 2.
Proof.
  intros d l d'.
  assert (Hs : CleanStart.saveFollowers sql.no_faults d l = (d', None)) by reflexivity.
  pose proof (proj1 save_last_write_wins sql.no_faults d l d' Hs) as [H1 H2].
  assert (Ha : sql.table d !! "did:plc:alice" = Some (Minimal.exec_args Scenario.alice).2)
    by reflexivity.
  assert (Hall : forall x : Minimal.Follower,
             x ∈ l -> is_Some (sql.table d !! Minimal.DID x)).
  { intros x Hx. unfold l in Hx.
    apply elem_of_cons in Hx as [Hx|Hx].
    { subst x. exact (ex_intro _ _ Ha). }
    apply elem_of_cons in Hx as [Hx|Hx].
    { subst x. exact (ex_intro _ _ Ha). }
    apply elem_of_cons in Hx as [Hx|Hx].
    { subst x. exact (ex_intro _ _ Ha). }
    apply elem_of_nil in Hx. destruct Hx. }
  split; [exact Hs|]. split; [|split].
  - exact (eq_trans (H1 "did:plc:alice") eq_refl).
  - exact (eq_trans (H1 "did:plc:bob") eq_refl).
  - exact (eq_trans (H2 Hall) eq_refl).
Defined.

(** ** When [saveFollowers] succeeds, and what its error says *)

Ltac save_iff f d l :=
  destruct d as [m n]; destruct f as [fb fp fe fc fr];
  unfold healthy_for; cbn;
  destruct fb; cbn; [split; [done | by intros [? _]] |];
  destruct fp; cbn;
    [try destruct fr; (split; [done | by intros (_ & ? & _)]) |];
  match goal with
  | |- context [sql.exec_each ?a0 ?f0 ?i0 ?t0 l] =>
      let H := fresh "Hex" in
      destruct (sql.exec_each a0 f0 i0 t0 l) as [?|[? ?]] eqn:H; cbn;
      [ unfold sql.Commit; cbn; destruct fc; cbn;
        [ split; [done | by intros (_ & _ & _ & ?)]
        | split; [intros _ | done];
          repeat split; intros i Hi;
          apply (exec_each_inl_no_fault _ _ _ _ _ _ H i); lia ]
      | try destruct fr; cbn;
        (split; [done |];
         intros (_ & _ & He & _);
         rewrite exec_each_no_fault in H by (intros; apply He; lia);
         discriminate H) ]
  end.

(** X3. [saveFollowers] returns no error exactly when [db.Begin], the
    preparation of the statement, the statement of each record of the batch
    and [tx.Commit] succeed; in particular an empty batch still needs a
    transaction that begins and commits.  For the root program, the first
    [resume_start] program and the current [clean_start] and
    [resume_start]. *)
Theorem save_succeeds_iff :
  (forall f d (l : list Minimal.Follower),
      (Root.saveFollowers f d l).2 = None <-> healthy_for f (length l))
  /\
  (forall f d (l : list Extended.Follower),
      (Part001.saveFollowers f d l).2 = None <-> healthy_for f (length l))
  /\
  (forall f d (l : list Minimal.Follower),
      (CleanStart.saveFollowers f d l).2 = None <-> healthy_for f (length l))
  /\
  (forall f d (l : list Extended.Follower),
      (ResumeStart.saveFollowers f d l).2 = None <-> healthy_for f (length l)).
Proof.
  split; [|split; [|split]]; intros f d l.
  - unfold Root.saveFollowers. save_iff f d l.
  - unfold Part001.saveFollowers. save_iff f d l.
  - unfold CleanStart.saveFollowers. save_iff f d l.
  - unfold ResumeStart.saveFollowers. save_iff f d l.
Qed.

(** X4. The error of a failed statement.  When the transaction begins, the
    statement is prepared and the first statement to fail is the one of the
    [i]-th record, both [resume_start] programs return "failed to execute
    statement for follower <did of that record>: <error>" and the database
    as it was; the current [clean_start] returns "failed to execute
    statement: <error>", followed by ", rollback failed: <error>" when the
    rollback fails too. *)
Theorem save_error_names_first_failure :
  (forall f d (l : list Extended.Follower) i x e,
      sql.begin_err f = None -> sql.prepare_err f = None ->
      (forall j, j < i -> sql.exec_err f j = None) ->
      sql.exec_err f i = Some e ->
      l !! i = Some x ->
      Part001.saveFollowers f d l
      = (d, Some ("failed to execute statement for follower "
                  +:+ Extended.DID x +:+ ": " +:+ e))
      /\
      ResumeStart.saveFollowers f d l
      = (d, Some ("failed to execute statement for follower "
                  +:+ Extended.DID x +:+ ": " +:+ e)))
  /\
  (forall f d (l : list Minimal.Follower) i x e,
      sql.begin_err f = None -> sql.prepare_err f = None ->
      (forall j, j < i -> sql.exec_err f j = None) ->
      sql.exec_err f i = Some e ->
      l !! i = Some x ->
      CleanStart.saveFollowers f d l
      = (d, Some match sql.rollback_err f with
                 | Some rbErr => "failed to execute statement: " +:+ e
                                 +:+ ", rollback failed: " +:+ rbErr
                 | None => "failed to execute statement: " +:+ e
                 end)).
Proof.
  split; intros f d l i x e Hb Hp Hbefore Hat Hx.
  - assert (Hex : forall t, sql.exec_each Extended.exec_args f 0 t l = inr (x, e)).
    { intros t. apply (exec_each_first_fault _ f l 0 t i); try done.
      intros j Hj. apply Hbefore. lia. }
    destruct f as [fb fp fe fc fr], d as [m n]. cbn in Hb, Hp. subst fb fp.
    unfold Part001.saveFollowers, ResumeStart.saveFollowers. cbn.
    by rewrite !Hex.
  - assert (Hex : forall t, sql.exec_each Minimal.exec_args f 0 t l = inr (x, e)).
    { intros t. apply (exec_each_first_fault _ f l 0 t i); try done.
      intros j Hj. apply Hbefore. lia. }
    destruct f as [fb fp fe fc fr], d as [m n]. cbn in Hb, Hp. subst fb fp.
    unfold CleanStart.saveFollowers. cbn. rewrite Hex. cbn.
    by destruct fr.
Qed.

Lemma save_error_names_first_failure_witness :
  ResumeStart.saveFollowers Scenario.second_exec_fails Scenario.empty_db
    [Scenario.carol; Scenario.dave; Scenario.carol]
  = (Scenario.empty_db,
     Some "failed to execute statement for follower did:plc:dave: disk I/O error")
  /\
  CleanStart.saveFollowers Scenario.second_exec_fails Scenario.empty_db
    [Scenario.alice; Scenario.bob]
  = (Scenario.empty_db, Some "failed to execute statement: disk I/O error").
Proof.
  assert (Hbefore : forall j, j < 1 -> sql.exec_err Scenario.second_exec_fails j = None).
  { intros j Hj. destruct j as [|j]; [reflexivity | lia]. }
  split.
  - exact (proj2 (proj1 save_error_names_first_failure Scenario.second_exec_fails
                    Scenario.empty_db [Scenario.carol; Scenario.dave; Scenario.carol]
                    1 Scenario.dave "disk I/O error"
                    eq_refl eq_refl Hbefore eq_refl eq_refl)).
  - exact (proj2 save_error_names_first_failure Scenario.second_exec_fails
             Scenario.empty_db [Scenario.alice; Scenario.bob]
             1 Scenario.bob "disk I/O error"
             eq_refl eq_refl Hbefore eq_refl eq_refl).
Defined.

(** ** Transactions left open *)

Ltac tx_balance f d l :=
  destruct d as [m n]; destruct f as [fb fp fe fc fr]; cbn;
  destruct fb; cbn; [done |];
  destruct fp; cbn; [by try destruct fr |];
  match goal with
  | |- context [sql.exec_each ?a0 ?f0 ?i0 ?t0 l] =>
      destruct (sql.exec_each a0 f0 i0 t0 l) as [?|[? ?]]; cbn;
      [ unfold sql.Commit; cbn; by destruct fc
      | by try destruct fr ]
  end.

(** X5. The programs that call [tx.Rollback()] finish every transaction
    they begin, whatever fails; the root program and the program of
    unnamed/part_000 (the same [saveFollowers]), which return without it,
    leave the transaction open when the preparation or the statement of a
    record fails, and only then. *)
Theorem transactions_left_open :
  (forall f d (l : list Extended.Follower),
      sql.open_tx (Part001.saveFollowers f d l).1 = sql.open_tx d)
  /\
  (forall f d (l : list Minimal.Follower),
      sql.open_tx (CleanStart.saveFollowers f d l).1 = sql.open_tx d)
  /\
  (forall f d (l : list Extended.Follower),
      sql.open_tx (ResumeStart.saveFollowers f d l).1 = sql.open_tx d)
  /\
  (forall f d (l : list Minimal.Follower),
      Part000.saveFollowers f d l = Root.saveFollowers f d l
      /\
      (sql.begin_err f = None ->
       (is_Some (sql.prepare_err f) \/
        exists i, i < length l /\ is_Some (sql.exec_err f i)) ->
       sql.open_tx (Root.saveFollowers f d l).1 = S (sql.open_tx d))
      /\
      (is_Some (sql.begin_err f) \/
       (sql.prepare_err f = None /\
        forall i, i < length l -> sql.exec_err f i = None) ->
       sql.open_tx (Root.saveFollowers f d l).1 = sql.open_tx d)).
Proof.
  split; [|split; [|split]]; intros f d l.
  - unfold Part001.saveFollowers. tx_balance f d l.
  - unfold CleanStart.saveFollowers. tx_balance f d l.
  - unfold ResumeStart.saveFollowers. tx_balance f d l.
  - split; [reflexivity|].
    unfold Root.saveFollowers.
    destruct d as [m n]; destruct f as [fb fp fe fc fr]; cbn.
    split.
    + intros -> Hfault. cbn. destruct fp as [e|]; cbn; [done|].
      destruct Hfault as [[? H]|(i & Hi & [e He])]; [done|].
      destruct (sql.exec_each _ _ 0 _ l) as [t'|[x err]] eqn:Hex; cbn; [|done].
      assert (Hn := exec_each_inl_no_fault _ _ _ _ _ _ Hex i ltac:(lia)).
      cbn in Hn. congruence.
    + intros [[e ->]|[-> He]]; cbn; [done|].
      destruct fb; cbn; [done|].
      rewrite exec_each_no_fault by (intros; apply He; lia). cbn.
      unfold sql.Commit. cbn. by destruct fc.
Qed.

Lemma transactions_left_open_witness :
  sql.open_tx (Root.saveFollowers Scenario.second_exec_fails Scenario.empty_db
                 [Scenario.alice; Scenario.bob]).1 = 1
  /\
  sql.open_tx (Root.saveFollowers Scenario.second_exec_fails Scenario.empty_db
                 [Scenario.alice]).1 = 0.
Proof.
  destruct (proj2 (proj2 (proj2 transactions_left_open))
              Scenario.second_exec_fails (@Scenario.empty_db Minimal.Row)
              [Scenario.alice; Scenario.bob]) as (_ & H1 & _).
  destruct (proj2 (proj2 (proj2 transactions_left_open))
              Scenario.second_exec_fails (@Scenario.empty_db Minimal.Row)
              [Scenario.alice]) as (_ & _ & H2).
  split.
  - apply H1; [reflexivity|]. right. exists 1. split; [simpl; lia|].
    exact (ex_intro _ _ eq_refl).
  - apply H2. right. split; [reflexivity|].
    intros i Hi. destruct i as [|i]; [reflexivity | simpl in Hi; lia].
Defined.

(** ** What [fetchFollowers] never does *)

Lemma attempts_app (a b : list Event) : attempts (a ++ b) = attempts a + attempts b.
Proof.
  induction a as [|[now n u|s] a IH]; simpl; [done | by rewrite IH | done].
Qed.

Lemma client_Do_one_request {Follower : Type} (env : Env Follower) url w :
  events (client_Do env url w).1 = events w /\
  clock w <= clock (client_Do env url w).1 /\
  sent w <= sent (client_Do env url w).1 <= S (sent w).
Proof. rewrite client_Do_spec. cbn. repeat split; lia. Qed.

Lemma http_Get_one_request {Follower : Type} (env : Env Follower) url w :
  events (http_Get env url w).1 = events w /\
  clock w <= clock (http_Get env url w).1 /\
  sent w <= sent (http_Get env url w).1 <= S (sent w).
Proof.
  unfold http_Get. destruct (newRequestErr env url).
  - cbn. repeat split; lia.
  - apply client_Do_one_request.
Qed.

Lemma CleanStart_one_request env : one_request (CleanStart.attempt_body env).
Proof.
  intros url w. unfold CleanStart.attempt_body.
  destruct (newRequestErr env url); [cbn; repeat split; lia|].
  pose proof (client_Do_one_request env url w) as H.
  by destruct (client_Do env url w).
Qed.

Lemma ResumeStart_one_request env : one_request (ResumeStart.attempt_body env).
Proof.
  intros url w. unfold ResumeStart.attempt_body.
  destruct (newRequestErr env url); [cbn; repeat split; lia|].
  pose proof (client_Do_one_request env url w) as H.
  by destruct (client_Do env url w).
Qed.

Lemma Part001_one_request env : one_request (Part001.attempt_body env).
Proof.
  intros url w. unfold Part001.attempt_body.
  pose proof (http_Get_one_request env url w) as H.
  by destruct (http_Get env url w).
Qed.

Lemma Part000_one_request env : one_request (Part000.attempt_body env).
Proof.
  intros url w. unfold Part000.attempt_body.
  pose proof (http_Get_one_request env url w) as H.
  by destruct (http_Get env url w).
Qed.

Lemma retry_loop_bounds {Follower : Type} guard
    (body : string -> Runtime -> Runtime * Decision Follower) url cursor :
  one_request body ->
  forall n attempt w,
    exists evs,
      events (retry_loop guard body url cursor n attempt w).1 = events w ++ evs /\
      attempts evs <= n /\
      slept evs <= sum_list (seq attempt n) /\
      sent w <= sent (retry_loop guard body url cursor n attempt w).1
             <= sent w + attempts evs /\
      clock w + slept evs <= clock (retry_loop guard body url cursor n attempt w).1.
Proof.
  intros Hbody. induction n as [|n IH]; intros attempt w; simpl.
  - exists []. rewrite app_nil_r. cbn. repeat split; lia.
  - destruct (guard w).
    { exists []. rewrite app_nil_r. cbn. repeat split; lia. }
    destruct (Hbody url (log_attempt attempt url w)) as (He & Hc & Hs).
    destruct (body url (log_attempt attempt url w)) as [w1 dec].
    cbn in He, Hc, Hs.
    destruct dec as [fs c|err|why]; cbn.
    + exists [EvAttempt (clock w) attempt url]. rewrite He. cbn. repeat split; lia.
    + exists [EvAttempt (clock w) attempt url]. rewrite He. cbn. repeat split; lia.
    + destruct (IH (S attempt) (time_Sleep attempt w1))
        as (evs & Hev & Ha & Hsl & Hse & Hcl).
      cbn in Hev, Hse, Hcl.
      exists ([EvAttempt (clock w) attempt url; EvSleep attempt] ++ evs).
      rewrite Hev, He. cbn. rewrite <- !app_assoc. cbn.
      repeat split; lia.
Qed.

(** X6. Whatever the network answers, one call of [fetchFollowers] makes
    at most [maxRetries = 5] attempts, sends at most one request per attempt,
    waits at most 15 seconds in [time.Sleep], only adds to the trace and
    never returns before the waits it made have passed.  For the four
    programs with a retry loop. *)
Theorem fetch_is_bounded :
  (forall env cursor w, exists evs,
      events (Part000.fetchFollowers env cursor w).1 = events w ++ evs /\
      attempts evs <= 5 /\ slept evs <= 15 /\
      sent w <= sent (Part000.fetchFollowers env cursor w).1 <= sent w + attempts evs /\
      clock w + slept evs <= clock (Part000.fetchFollowers env cursor w).1)
  /\
  (forall env cursor w, exists evs,
      events (Part001.fetchFollowers env cursor w).1 = events w ++ evs /\
      attempts evs <= 5 /\ slept evs <= 15 /\
      sent w <= sent (Part001.fetchFollowers env cursor w).1 <= sent w + attempts evs /\
      clock w + slept evs <= clock (Part001.fetchFollowers env cursor w).1)
  /\
  (forall env cursor w, exists evs,
      events (CleanStart.fetchFollowers env cursor w).1 = events w ++ evs /\
      attempts evs <= 5 /\ slept evs <= 15 /\
      sent w <= sent (CleanStart.fetchFollowers env cursor w).1 <= sent w + attempts evs /\
      clock w + slept evs <= clock (CleanStart.fetchFollowers env cursor w).1)
  /\
  (forall env cursor w, exists evs,
      events (ResumeStart.fetchFollowers env cursor w).1 = events w ++ evs /\
      attempts evs <= 5 /\ slept evs <= 15 /\
      sent w <= sent (ResumeStart.fetchFollowers env cursor w).1 <= sent w + attempts evs /\
      clock w + slept evs <= clock (ResumeStart.fetchFollowers env cursor w).1).
Proof.
  split; [|split; [|split]]; intros env cursor w.
  - apply (retry_loop_bounds _ _ _ _ (Part000_one_request env) maxRetries 1 w).
  - apply (retry_loop_bounds _ _ _ _ (Part001_one_request env) maxRetries 1 w).
  - apply (retry_loop_bounds _ _ _ _ (CleanStart_one_request env) maxRetries 1 w).
  - apply (retry_loop_bounds _ _ _ _ (ResumeStart_one_request env) maxRetries 1 w).
Qed.

(** ** The page that [fetchFollowers] returns *)

Lemma retry_loop_Ok {Follower : Type} guard
    (body : string -> Runtime -> Runtime * Decision Follower) url cursor :
  forall n attempt w w' followers newCursor,
    retry_loop guard body url cursor n attempt w = (w', Ok (followers, newCursor)) ->
    exists w0, body url w0 = (w', Return followers newCursor).
Proof.
  induction n as [|n IH]; intros attempt w w' fs c H; simpl in H; [done|].
  destruct (guard w); [done|].
  destruct (body url (log_attempt attempt url w)) as [w1 dec] eqn:Hb.
  destruct dec as [fs1 c1|err|why]; [|done|by eauto].
  inversion H; subst. by eexists.
Qed.

(** X7. A page is never made up: when [fetchFollowers] returns a page, the
    last request it sent was answered with status 200 and a body that could
    be read, that is not HTML for the program's test, and whose JSON
    decoding is exactly the returned records and token.  For the current
    [clean_start] and [resume_start]. *)
Theorem fetched_page_is_decoded_response :
  (forall env cursor w w' followers newCursor,
      CleanStart.fetchFollowers env cursor w = (w', Ok (followers, newCursor)) ->
      exists d body,
        0 < sent w' /\
        roundTrip env (sent w' - 1) (requestURL cursor)
        = (d, Response StatusOK body None) /\
        strings_HasPrefix (sniff.DetectContentType (sniffRest env) body) "text/html"
        = false /\
        json_Unmarshal env body = Some (followers, newCursor))
  /\
  (forall env cursor w w' followers newCursor,
      ResumeStart.fetchFollowers env cursor w = (w', Ok (followers, newCursor)) ->
      exists d body,
        0 < sent w' /\
        roundTrip env (sent w' - 1) (requestURL cursor)
        = (d, Response StatusOK body None) /\
        sniff.DetectContentType (sniffRest env) body ≠ sniff.html /\
        json_Unmarshal env body = Some (followers, newCursor)).
Proof.
  split; intros env cursor w w' fs c H.
  - apply retry_loop_Ok in H as [w0 H].
    unfold CleanStart.attempt_body in H.
    destruct (newRequestErr env (requestURL cursor)); [done|].
    rewrite client_Do_spec in H.
    destruct (roundTrip env (sent w0) (requestURL cursor)) as [d r] eqn:Hr.
    cbn in H. inversion H as [[Hw Hc]]. subst w'. cbn.
    rewrite Nat.sub_0_r, Hr.
    destruct r as [err|status body readErr]; [done|]. cbn in Hc.
    destruct (Nat.eqb_spec status StatusOK) as [->|]; [|done]. cbn in Hc.
    destruct readErr; [done|].
    destruct (strings_HasPrefix _ _) eqn:Hp; [done|].
    destruct (json_Unmarshal env body) as [[fs' c']|] eqn:Hj; [|done].
    inversion Hc; subst. exists d, body. repeat split; [lia|done..].
  - apply retry_loop_Ok in H as [w0 H].
    unfold ResumeStart.attempt_body in H.
    destruct (newRequestErr env (requestURL cursor)); [done|].
    rewrite client_Do_spec in H.
    destruct (roundTrip env (sent w0) (requestURL cursor)) as [d r] eqn:Hr.
    cbn in H. inversion H as [[Hw Hc]]. subst w'. cbn.
    rewrite Nat.sub_0_r, Hr.
    destruct r as [err|status body readErr]; [done|]. cbn in Hc.
    destruct (Nat.eqb_spec status StatusOK) as [->|]; [|done]. cbn in Hc.
    destruct readErr; [done|].
    destruct (String.eqb_spec (sniff.DetectContentType (sniffRest env) body)
                "text/html; charset=utf-8") as [|Hne]; [done|].
    destruct (json_Unmarshal env body) as [[fs' c']|] eqn:Hj; [|done].
    inversion Hc; subst. exists d, body. repeat split; [lia|done..].
Qed.

Lemma fetched_page_is_decoded_response_witness :
  let env := Scenario.scripted Scenario.three_pages (fun _ => sql.no_faults) in
  exists d body,
    roundTrip env 0 (requestURL "") = (d, Response StatusOK body None) /\
    json_Unmarshal env body = Some ([Scenario.alice], "a").
Proof.
  intros env.
  destruct (proj1 fetched_page_is_decoded_response env "" Scenario.boot
              (mkRuntime 1 1 [EvAttempt 0 1 baseURL]) [Scenario.alice] "a" eq_refl)
    as (d & body & _ & Hr & _ & Hj).
  exists d, body. split; [exact Hr | exact Hj].
Defined.

(** ** A page after failed attempts *)

Lemma retry_loop_succeeds_after {Follower : Type} guard
    (body : string -> Runtime -> Runtime * Decision Follower) url cursor
    followers newCursor :
  (forall w, guard w = None) ->
  forall j n attempt w,
    j < n ->
    (forall k w1, k < j -> sent w1 = sent w + k ->
       exists w2 why, body url w1 = (w2, Retry why) /\
         events w2 = events w1 /\ sent w2 = S (sent w1)) ->
    (forall w1, sent w1 = sent w + j ->
       exists w2, body url w1 = (w2, Return followers newCursor) /\
         events w2 = events w1 /\ sent w2 = S (sent w1)) ->
    exists w' evs,
      retry_loop guard body url cursor n attempt w = (w', Ok (followers, newCursor)) /\
      events w' = events w ++ evs /\
      shape evs = backoff_shape url attempt j ++ [inl (attempt + j, url)] /\
      slept evs = sum_list (seq attempt j) /\
      sent w' = sent w + S j.
Proof.
  intros Hguard. induction j as [|j IH]; intros n attempt w Hn Hfail Hok;
    (destruct n as [|n]; [lia|]); simpl; rewrite Hguard.
  - destruct (Hok (log_attempt attempt url w)) as (w2 & -> & Hev & Hs); [cbn; lia|].
    exists w2, [EvAttempt (clock w) attempt url]. cbn in Hev, Hs.
    rewrite Nat.add_0_r. repeat split; [done | lia].
  - destruct (Hfail 0 (log_attempt attempt url w)) as (w2 & why & -> & Hev & Hs);
      [lia | cbn; lia |]. cbn in Hev, Hs.
    destruct (IH n (S attempt) (time_Sleep attempt w2)) as (w' & evs & -> & Hev' & Hsh & Hsl & Hse).
    + lia.
    + intros k w1 Hk Hw1. apply (Hfail (S k)); [lia|]. cbn in Hw1. lia.
    + intros w1 Hw1. apply Hok. cbn in Hw1. lia.
    + exists w', ([EvAttempt (clock w) attempt url; EvSleep attempt] ++ evs).
      cbn in Hev', Hse. rewrite Hev in Hev'.
      split; [done|]. split; [by rewrite Hev', <- !app_assoc|].
      split.
      { unfold backoff_shape, shape in *. cbn. do 2 f_equal.
        rewrite Hsh. by replace (S attempt + j) with (attempt + S j) by lia. }
      split; [cbn; by rewrite Hsl | lia].
Qed.

(** X8. Retry, then success.  When the first [j] attempts fail ([j] less
    than 5) and the next one is answered by a good response,
    [fetchFollowers] returns the page of that response after [j + 1]
    attempts and requests, having waited 1 + ... + [j] seconds: attempt [k]
    is followed by a wait of [k] seconds, the successful one by none.  For
    the first [resume_start] program and, when no signal arrives, for the
    current [clean_start]. *)
Theorem fetch_succeeds_after_retries :
  (forall env cursor w j followers newCursor,
      j < maxRetries ->
      newRequestErr env (requestURL cursor) = None ->
      (forall k, k < j ->
         exists why, Part001.classify env
                       (roundTrip env (sent w + k) (requestURL cursor)).2
                     = Retry why) ->
      Part001.classify env (roundTrip env (sent w + j) (requestURL cursor)).2
      = Return followers newCursor ->
      exists w' evs,
        Part001.fetchFollowers env cursor w = (w', Ok (followers, newCursor)) /\
        events w' = events w ++ evs /\
        shape evs = backoff_shape (requestURL cursor) 1 j
                    ++ [inl (1 + j, requestURL cursor)] /\
        slept evs = sum_list (seq 1 j) /\
        sent w' = sent w + S j)
  /\
  (forall env cursor w j followers newCursor,
      j < maxRetries ->
      cancelAt env = None ->
      newRequestErr env (requestURL cursor) = None ->
      (forall k, k < j ->
         exists why, CleanStart.classify env
                       (roundTrip env (sent w + k) (requestURL cursor)).2
                     = Retry why) ->
      CleanStart.classify env (roundTrip env (sent w + j) (requestURL cursor)).2
      = Return followers newCursor ->
      exists w' evs,
        CleanStart.fetchFollowers env cursor w = (w', Ok (followers, newCursor)) /\
        events w' = events w ++ evs /\
        shape evs = backoff_shape (requestURL cursor) 1 j
                    ++ [inl (1 + j, requestURL cursor)] /\
        slept evs = sum_list (seq 1 j) /\
        sent w' = sent w + S j).
Proof.
  split.
  - intros env cursor w j fs c Hj Hreq Hfail Hok.
    apply (retry_loop_succeeds_after (fun _ => None) (Part001.attempt_body env));
      [done | done | |].
    + intros k w1 Hk Hw1. unfold Part001.attempt_body, http_Get.
      rewrite Hreq, client_Do_spec, Hw1.
      destruct (Hfail k Hk) as [why ->]. by eexists _, why.
    + intros w1 Hw1. unfold Part001.attempt_body, http_Get.
      rewrite Hreq, client_Do_spec, Hw1, Hok. by eexists.
  - intros env cursor w j fs c Hj Hsig Hreq Hfail Hok.
    apply (retry_loop_succeeds_after (ctx_Err env) (CleanStart.attempt_body env));
      [by apply ctx_Err_no_signal | done | |].
    + intros k w1 Hk Hw1. unfold CleanStart.attempt_body.
      rewrite Hreq, client_Do_spec, Hw1.
      destruct (Hfail k Hk) as [why ->]. by eexists _, why.
    + intros w1 Hw1. unfold CleanStart.attempt_body.
      rewrite Hreq, client_Do_spec, Hw1, Hok. by eexists.
Qed.

Lemma fetch_succeeds_after_retries_witness :
  let env := Scenario.flaky 2 Scenario.three_pages in
  exists w' evs,
    CleanStart.fetchFollowers env "" Scenario.boot = (w', Ok ([Scenario.alice], "a")) /\
    events w' = events Scenario.boot ++ evs /\
    shape evs = [inl (1, baseURL); inr 1; inl (2, baseURL); inr 2; inl (3, baseURL)] /\
    slept evs = 3 /\
    sent w' = 3.
Proof.
  intros env.
  apply (proj2 fetch_succeeds_after_retries env "" Scenario.boot 2
           [Scenario.alice] "a").
  - unfold maxRetries. lia.
  - reflexivity.
  - reflexivity.
  - intros k Hk. exists TransportFailure.
    destruct k as [|[|k]]; [reflexivity | reflexivity | lia].
  - reflexivity.
Defined.

(** ** A URL that cannot be parsed *)

(** X9. When [http.NewRequestWithContext] rejects the URL, the current
    [clean_start] and [resume_start] give up at once: one attempt is
    logged, nothing is sent, nothing is waited for, and the error of the
    request is returned as it is.  The first [resume_start] program, which
    calls [http.Get], treats the same error as a transport failure: five
    attempts, 15 seconds of waiting, no request sent, and the
    exhausted-retries error. *)
Theorem unparsable_url :
  (forall env cursor w err,
      newRequestErr env (requestURL cursor) = Some err ->
      ctx_Err env w = None ->
      CleanStart.fetchFollowers env cursor w
      = (log_attempt 1 (requestURL cursor) w, Err err))
  /\
  (forall env cursor w err,
      newRequestErr env (requestURL cursor) = Some err ->
      ctx_Err env w = None ->
      ResumeStart.fetchFollowers env cursor w
      = (log_attempt 1 (requestURL cursor) w, Err err))
  /\
  (forall env cursor w err,
      newRequestErr env (requestURL cursor) = Some err ->
      exists w',
        Part001.fetchFollowers env cursor w
        = (w', Err ("exceeded max retries for cursor " +:+ cursor)) /\
        sent w' = sent w /\
        clock w' = clock w + 15 /\
        attempts (events w') = attempts (events w) + 5).
Proof.
  split; [|split].
  - intros env cursor w err Hreq Hctx.
    unfold CleanStart.fetchFollowers, maxRetries. cbn [retry_loop].
    rewrite Hctx. unfold CleanStart.attempt_body. by rewrite Hreq.
  - intros env cursor w err Hreq Hctx.
    unfold ResumeStart.fetchFollowers, maxRetries. cbn [retry_loop].
    rewrite Hctx. unfold ResumeStart.attempt_body. by rewrite Hreq.
  - intros env cursor w err Hreq.
    unfold Part001.fetchFollowers, maxRetries. cbn [retry_loop].
    unfold Part001.attempt_body, http_Get. rewrite Hreq. cbn.
    eexists. split; [reflexivity|]. cbn.
    rewrite !attempts_app. cbn. repeat split; lia.
Qed.

Lemma unparsable_url_witness :
  CleanStart.fetchFollowers Scenario.unparsable "a b" Scenario.boot
  = (mkRuntime 0 0 [EvAttempt 0 1 (requestURL "a b")],
     Err "net/url: invalid control character in URL")
  /\
  exists w',
    Part001.fetchFollowers Scenario.unparsable "a b" Scenario.boot
    = (w', Err "exceeded max retries for cursor a b") /\
    sent w' = 0 /\ clock w' = 15 /\ attempts (events w') = 5.
Proof.
  split.
  - exact (proj1 unparsable_url Scenario.unparsable "a b" Scenario.boot
             "net/url: invalid control character in URL" eq_refl eq_refl).
  - exact (proj2 (proj2 unparsable_url) Scenario.unparsable "a b" Scenario.boot
             "net/url: invalid control character in URL" eq_refl).
Defined.

(** ** The context changes nothing when there is no signal *)

Lemma retry_loop_ext {Follower : Type} guard1 guard2
    (body1 body2 : string -> Runtime -> Runtime * Decision Follower) url cursor :
  (forall w, guard1 w = guard2 w) ->
  (forall w, body1 url w = body2 url w) ->
  forall n attempt w,
    retry_loop guard1 body1 url cursor n attempt w
    = retry_loop guard2 body2 url cursor n attempt w.
Proof.
  intros Hg Hb. induction n as [|n IH]; intros attempt w; simpl; [done|].
  rewrite Hg, Hb. destruct (guard2 w); [done|].
  destruct (body2 url (log_attempt attempt url w)) as [w1 [fs c|err|why]];
    [reflexivity | reflexivity | apply IH].
Qed.

Lemma main_loop_ext {P : Type} (iter1 iter2 : string -> P -> Status * string * P) :
  (forall cursor p, iter1 cursor p = iter2 cursor p) ->
  forall fuel cursor p, main_loop iter1 fuel cursor p = main_loop iter2 fuel cursor p.
Proof.
  intros H. induction fuel as [|fuel IH]; intros cursor p; simpl; [done|].
  rewrite H. destruct (iter2 cursor p) as [[[] c] p'];
    [apply IH | reflexivity..].
Qed.

Lemma ResumeStart_fetch_as_Part001 env cursor w :
  cancelAt env = None ->
  newRequestErr env (requestURL cursor) = None ->
  ResumeStart.fetchFollowers env cursor w = Part001.fetchFollowers env cursor w.
Proof.
  intros Hsig Hreq. apply retry_loop_ext.
  - intros w1. by apply ctx_Err_no_signal.
  - intros w1. unfold ResumeStart.attempt_body, Part001.attempt_body, http_Get.
    rewrite Hreq. by destruct (client_Do env (requestURL cursor) w1).
Qed.

(** X10. Without an interrupt signal and with URLs that can be parsed, the
    current [resume_start] behaves exactly as the first one: the same
    result and the same state after every call of [fetchFollowers], after
    every call of [saveFollowers] and after any number of passes of
    [main]. *)
Theorem resume_start_unchanged_without_signal :
  forall env,
    cancelAt env = None ->
    (forall url, newRequestErr env url = None) ->
    (forall cursor w,
        ResumeStart.fetchFollowers env cursor w = Part001.fetchFollowers env cursor w)
    /\
    (forall f d l, ResumeStart.saveFollowers f d l = Part001.saveFollowers f d l)
    /\
    (forall fuel startCursor p,
        ResumeStart.main env fuel startCursor p = Part001.main env fuel startCursor p).
Proof.
  intros env Hsig Hreq.
  assert (Hfetch : forall cursor w,
             ResumeStart.fetchFollowers env cursor w
             = Part001.fetchFollowers env cursor w).
  { intros cursor w. by apply ResumeStart_fetch_as_Part001. }
  split; [exact Hfetch|]. split; [reflexivity|].
  intros fuel c p. apply main_loop_ext. clear c p. intros c p.
  unfold ResumeStart.main_iter, Part001.main_iter.
  rewrite (ctx_Err_no_signal env Hsig), Hfetch.
  destruct (Part001.fetchFollowers env c (rt p)) as [w [[fs c']|err]]; [done|].
  by rewrite (ctx_Err_no_signal env Hsig).
Qed.

Lemma resume_start_unchanged_without_signal_witness :
  let env := Scenario.scripted Scenario.two_pages (fun _ => sql.no_faults) in
  ResumeStart.main env 4 "" Scenario.start = Part001.main env 4 "" Scenario.start.
Proof.
  intros env.
  exact (proj2 (proj2 (resume_start_unchanged_without_signal env eq_refl
                         (fun _ => eq_refl))) 4 "" Scenario.start).
Defined.

(** ** The interrupt signal and the driver *)

(** X11. In the current [clean_start] and [resume_start] a pass that
    begins after the interrupt signal ends the run as [CANCELLED] with the
    process exactly as it was: nothing fetched, nothing saved.  A failed
    fetch during which the signal fired ends the run as [CANCELLED] too:
    the error of the fetch is not reported, and the database is not
    touched. *)
Theorem driver_stops_on_signal :
  (forall env t cursor p fuel,
      cancelAt env = Some t -> t <= clock (rt p) ->
      main_loop (CleanStart.main_iter env) (S fuel) cursor p = (CANCELLED, cursor, p))
  /\
  (forall env t cursor p fuel,
      cancelAt env = Some t -> t <= clock (rt p) ->
      main_loop (ResumeStart.main_iter env) (S fuel) cursor p = (CANCELLED, cursor, p))
  /\
  (forall env t cursor p w err fuel,
      cancelAt env = Some t -> clock (rt p) < t ->
      CleanStart.fetchFollowers env cursor (rt p) = (w, Err err) ->
      t <= clock w ->
      main_loop (CleanStart.main_iter env) (S fuel) cursor p
      = (CANCELLED, cursor, mkProcess w (db p) (txs p) (saved p)))
  /\
  (forall env t cursor p w err fuel,
      cancelAt env = Some t -> clock (rt p) < t ->
      ResumeStart.fetchFollowers env cursor (rt p) = (w, Err err) ->
      t <= clock w ->
      main_loop (ResumeStart.main_iter env) (S fuel) cursor p
      = (CANCELLED, cursor, mkProcess w (db p) (txs p) (saved p))).
Proof.
  assert (Hpending : forall F (env : Env F) t w,
             cancelAt env = Some t -> clock w < t -> ctx_Err env w = None).
  { intros F env t w H Ht. unfold ctx_Err. rewrite H.
    by destruct (Nat.leb_spec t (clock w)); [lia|]. }
  split; [|split; [|split]].
  - intros env t cursor p fuel Hsig Ht. cbn.
    unfold CleanStart.main_iter.
    by rewrite (ctx_Err_fired env t (rt p) Hsig Ht).
  - intros env t cursor p fuel Hsig Ht. cbn.
    unfold ResumeStart.main_iter.
    by rewrite (ctx_Err_fired env t (rt p) Hsig Ht).
  - intros env t cursor p w err fuel Hsig Ht Hf Hw. cbn.
    unfold CleanStart.main_iter.
    by rewrite (Hpending _ env t (rt p) Hsig Ht), Hf, (ctx_Err_fired env t w Hsig Hw).
  - intros env t cursor p w err fuel Hsig Ht Hf Hw. cbn.
    unfold ResumeStart.main_iter.
    by rewrite (Hpending _ env t (rt p) Hsig Ht), Hf, (ctx_Err_fired env t w Hsig Hw).
Qed.

Lemma driver_stops_on_signal_witness :
  let late : Env Minimal.Follower := Scenario.offline (Some 11) in
  let down := (CleanStart.fetchFollowers late "" Scenario.boot).1 in
  CleanStart.main late 3 Scenario.start
  = (CANCELLED, "", mkProcess down Scenario.empty_db 0 [])
  /\
  CleanStart.main (Scenario.offline (Some 0)) 3 Scenario.start
  = (CANCELLED, "", Scenario.start).
Proof.
  intros late down. split.
  - apply (proj1 (proj2 (proj2 driver_stops_on_signal)) late 11 "" Scenario.start
             down "exceeded max retries for cursor " 2).
    + reflexivity.
    + cbn. lia.
    + reflexivity.
    + cbn. lia.
  - apply (proj1 driver_stops_on_signal (Scenario.offline (Some 0)) 0 ""
             Scenario.start 2).
    + reflexivity.
    + cbn. lia.
Defined.

(** ** Runs that do not end *)

Lemma Part001_fetch_fails env cursor w :
  (forall k url, exists why, Part001.classify env (roundTrip env k url).2 = Retry why) ->
  exists w', Part001.fetchFollowers env cursor w
             = (w', Err ("exceeded max retries for cursor " +:+ cursor))
             /\ clock w + 15 <= clock w'.
Proof.
  intros Hfail.
  destruct (retry_loop_exhausted (fun _ => None) (Part001.attempt_body env)
              (requestURL cursor) cursor (fun _ => eq_refl) maxRetries 1 w)
    as (w' & evs & Hr & _ & _ & _ & Hc).
  - intros w1 _. unfold Part001.attempt_body, http_Get.
    destruct (newRequestErr env (requestURL cursor)).
    + exists w1, TransportFailure. cbn. repeat split; lia.
    + rewrite client_Do_spec.
      destruct (Hfail (sent w1) (requestURL cursor)) as [why ->].
      eexists _, why. cbn. repeat split; cbn; lia.
  - exists w'. split; [exact Hr|]. cbn in Hc. lia.
Qed.

Lemma ResumeStart_fetch_fails env cursor w :
  cancelAt env = None ->
  (forall url, newRequestErr env url = None) ->
  (forall k url, exists why, ResumeStart.classify env (roundTrip env k url).2 = Retry why) ->
  exists w', ResumeStart.fetchFollowers env cursor w
             = (w', Err ("exceeded max retries for cursor " +:+ cursor))
             /\ clock w + 15 <= clock w'.
Proof.
  intros Hsig Hreq Hfail.
  destruct (retry_loop_exhausted (ctx_Err env) (ResumeStart.attempt_body env)
              (requestURL cursor) cursor (ctx_Err_no_signal env Hsig) maxRetries 1 w)
    as (w' & evs & Hr & _ & _ & _ & Hc).
  - intros w1 _. unfold ResumeStart.attempt_body.
    rewrite Hreq, client_Do_spec.
    destruct (Hfail (sent w1) (requestURL cursor)) as [why ->].
    eexists _, why. cbn. repeat split; cbn; lia.
  - exists w'. split; [exact Hr|]. cbn in Hc. lia.
Qed.

(** X12. The drivers of both [resume_start] programs never give up: when
    every request fails, after any number of passes the run is still
    [RUNNING] with the token it started from, the database untouched and no
    transaction asked for, and each pass has taken at least 17 seconds (the
    15 seconds of the retry loop and the 2 seconds of [main]). *)
Theorem resume_driver_never_gives_up :
  (forall env,
      (forall k url, exists why,
          Part001.classify env (roundTrip env k url).2 = Retry why) ->
      forall fuel startCursor p, exists p',
        Part001.main env fuel startCursor p = (RUNNING, startCursor, p') /\
        db p' = db p /\ txs p' = txs p /\ saved p' = saved p /\
        clock (rt p) + 17 * fuel <= clock (rt p'))
  /\
  (forall env,
      cancelAt env = None ->
      (forall url, newRequestErr env url = None) ->
      (forall k url, exists why,
          ResumeStart.classify env (roundTrip env k url).2 = Retry why) ->
      forall fuel startCursor p, exists p',
        ResumeStart.main env fuel startCursor p = (RUNNING, startCursor, p') /\
        db p' = db p /\ txs p' = txs p /\ saved p' = saved p /\
        clock (rt p) + 17 * fuel <= clock (rt p')).
Proof.
  split.
  - intros env Hfail. unfold Part001.main.
    induction fuel as [|fuel IH]; intros c p; simpl.
    { exists p. repeat split; lia. }
    unfold Part001.main_iter at 1.
    destruct (Part001_fetch_fails env c (rt p) Hfail) as (w' & -> & Hc).
    destruct (IH c (mkProcess (time_Sleep 2 w') (db p) (txs p) (saved p)))
      as (p' & -> & Hd & Ht & Hs & Hk).
    exists p'. cbn in Hd, Ht, Hs, Hk. repeat split; try done. lia.
  - intros env Hsig Hreq Hfail. unfold ResumeStart.main.
    induction fuel as [|fuel IH]; intros c p; simpl.
    { exists p. repeat split; lia. }
    unfold ResumeStart.main_iter at 1.
    rewrite (ctx_Err_no_signal env Hsig).
    destruct (ResumeStart_fetch_fails env c (rt p) Hsig Hreq Hfail) as (w' & -> & Hc).
    rewrite (ctx_Err_no_signal env Hsig).
    destruct (IH c (mkProcess (time_Sleep 2 w') (db p) (txs p) (saved p)))
      as (p' & -> & Hd & Ht & Hs & Hk).
    exists p'. cbn in Hd, Ht, Hs, Hk. repeat split; try done. lia.
Qed.

Lemma resume_driver_never_gives_up_witness :
  exists p',
    ResumeStart.main (Scenario.offline None) 3 "abc" Scenario.start
    = (RUNNING, "abc", p') /\
    db p' = Scenario.empty_db /\ txs p' = 0 /\ saved p' = [] /\ 51 <= clock (rt p').
Proof.
  apply (proj2 resume_driver_never_gives_up (Scenario.offline None) eq_refl
           (fun _ => eq_refl)
           (fun _ _ => ex_intro _ TransportFailure eq_refl)
           3 "abc" Scenario.start).
Defined.

(** X13. A token that comes back is not noticed.  When the server answers
    every request with the same page, whose token is not empty, the current
    [clean_start] never reaches [DONE]: after any number of passes the run
    is still [RUNNING], and it has sent one request and saved the same
    batch once per pass. *)
Theorem repeated_token_never_ends :
  forall env followers token,
    cancelAt env = None ->
    (forall url, newRequestErr env url = None) ->
    token ≠ "" ->
    (forall k, serves (CleanStart.classify env) env k (followers, token)) ->
    (forall k, healthy (dbFaults env k)) ->
    forall fuel cursor p, exists p',
      main_loop (CleanStart.main_iter env) fuel cursor p
      = (RUNNING, match fuel with 0 => cursor | S _ => token end, p') /\
      saved p' = saved p ++ replicate fuel followers /\
      sent (rt p') = sent (rt p) + fuel.
Proof.
  intros env fs token Hsig Hreq Htok Hserve Hdb.
  induction fuel as [|fuel IH]; intros c p; simpl.
  { exists p. rewrite app_nil_r. repeat split; lia. }
  destruct (CleanStart_pass env Hsig Hreq c p (fs, token))
    as (p1 & -> & Hsaved & Hsent & _); [by split|].
  cbn [snd fst]. rewrite (eqb_empty_false _ Htok).
  destruct (IH token p1) as (p' & -> & Hs & Hn).
  exists p'. split; [by destruct fuel|].
  rewrite Hs, Hn, Hsaved, Hsent. cbn. rewrite <- app_assoc. split; [done|lia].
Qed.

Lemma repeated_token_never_ends_witness :
  exists p',
    CleanStart.main Scenario.stuck 4 Scenario.start = (RUNNING, "again", p') /\
    saved p' = replicate 4 [Scenario.alice] /\
    sent (rt p') = 4.
Proof.
  apply (repeated_token_never_ends Scenario.stuck [Scenario.alice] "again").
  - reflexivity.
  - intros url. reflexivity.
  - discriminate.
  - intros k url. reflexivity.
  - intros k. apply no_faults_healthy.
Defined.

(** ** What a whole run keeps *)

Lemma grows_refl {Follower Row : Type} (p : Process Follower Row) : grows p p.
Proof.
  repeat split; try done. exists []. by rewrite app_nil_r, Nat.add_0_r.
Qed.

Lemma grows_trans {Follower Row : Type} (p1 p2 p3 : Process Follower Row) :
  grows p1 p2 -> grows p2 p3 -> grows p1 p3.
Proof.
  intros (Hk1 & Ho1 & (b1 & Hs1 & Ht1) & Hn1 & Hc1)
         (Hk2 & Ho2 & (b2 & Hs2 & Ht2) & Hn2 & Hc2).
  split; [by eauto|]. split; [congruence|]. split; [|lia].
  exists (b1 ++ b2). rewrite Hs2, Hs1, Ht2, Ht1, length_app, <- app_assoc.
  split; [done | lia].
Qed.

Lemma main_loop_grows {Follower Row : Type}
    (iter : string -> Process Follower Row -> Status * string * Process Follower Row) :
  (forall cursor p, grows p (iter cursor p).2) ->
  forall fuel cursor p, grows p (main_loop iter fuel cursor p).2.
Proof.
  intros Hiter. induction fuel as [|fuel IH]; intros cursor p; simpl.
  - apply grows_refl.
  - pose proof (Hiter cursor p) as H.
    destruct (iter cursor p) as [[st c] p1]. cbn in H.
    destruct st; cbn; try exact H.
    exact (grows_trans _ _ _ H (IH c p1)).
Qed.

(** A pass that fetched, then saved through a [saveFollowers] that
    finishes its transactions. *)
Lemma saved_pass_grows {Row Follower : Type} (args : Follower -> string * Row) save :
  all_or_nothing args 0 save ->
  forall f (p : Process Follower Row) w l,
    sent (rt p) <= sent w -> clock (rt p) <= clock w ->
    grows p (mkProcess w (save f (db p) l).1 (S (txs p)) (saved p ++ [l])).
Proof.
  intros Hsave f p w l Hs Hc.
  pose proof (all_or_nothing_rows args 0 save Hsave f (db p) l) as (Hk & _ & _).
  pose proof (Hsave f (db p) l) as Ha.
  split; [exact Hk|]. split.
  - destruct (save f (db p) l) as [d' [e|]]; cbn in *; [lia | by subst d'].
  - split; [|done]. exists [l]. split; [done|]. simpl. lia.
Qed.

Lemma fetch_pass_grows {Follower Row : Type} (p : Process Follower Row) w :
  sent (rt p) <= sent w -> clock (rt p) <= clock w ->
  grows p (mkProcess w (db p) (txs p) (saved p)).
Proof.
  intros Hs Hc. repeat split; try done.
  exists []. by rewrite app_nil_r, Nat.add_0_r.
Qed.

Lemma fetch_monotone {Follower : Type} guard
    (body : string -> Runtime -> Runtime * Decision Follower) url cursor n attempt w :
  one_request body ->
  sent w <= sent (retry_loop guard body url cursor n attempt w).1 /\
  clock w <= clock (retry_loop guard body url cursor n attempt w).1.
Proof.
  intros Hbody.
  destruct (retry_loop_bounds guard body url cursor Hbody n attempt w)
    as (evs & _ & _ & _ & Hs & Hc).
  split; lia.
Qed.

Lemma CleanStart_pass_grows env cursor p :
  grows p (CleanStart.main_iter env cursor p).2.
Proof.
  unfold CleanStart.main_iter.
  destruct (ctx_Err env (rt p)); [apply grows_refl|].
  pose proof (fetch_monotone (ctx_Err env) (CleanStart.attempt_body env)
                (requestURL cursor) cursor maxRetries 1 (rt p)
                (CleanStart_one_request env)) as [Hs Hc].
  fold (CleanStart.fetchFollowers env cursor (rt p)) in Hs, Hc.
  destruct (CleanStart.fetchFollowers env cursor (rt p)) as [w [[fs c]|err]];
    cbn in Hs, Hc.
  - pose proof (saved_pass_grows Minimal.exec_args _ CleanStart_save_all_or_nothing
                  (dbFaults env (txs p)) p w fs Hs Hc) as H.
    destruct (CleanStart.saveFollowers _ (db p) fs) as [d [e|]]; cbn in H; [exact H|].
    by destruct (String.eqb c "").
  - destruct (ctx_Err env w); by apply fetch_pass_grows.
Qed.

Lemma ResumeStart_pass_grows env cursor p :
  grows p (ResumeStart.main_iter env cursor p).2.
Proof.
  unfold ResumeStart.main_iter.
  destruct (ctx_Err env (rt p)); [apply grows_refl|].
  pose proof (fetch_monotone (ctx_Err env) (ResumeStart.attempt_body env)
                (requestURL cursor) cursor maxRetries 1 (rt p)
                (ResumeStart_one_request env)) as [Hs Hc].
  fold (ResumeStart.fetchFollowers env cursor (rt p)) in Hs, Hc.
  destruct (ResumeStart.fetchFollowers env cursor (rt p)) as [w [[fs c]|err]];
    cbn in Hs, Hc.
  - pose proof (saved_pass_grows Extended.exec_args _ ResumeStart_save_all_or_nothing
                  (dbFaults env (txs p)) p w fs Hs Hc) as H.
    destruct (ResumeStart.saveFollowers _ (db p) fs) as [d [e|]]; cbn in H; [exact H|].
    by destruct (String.eqb c "").
  - destruct (ctx_Err env w); apply fetch_pass_grows; cbn; lia.
Qed.

Lemma Part001_pass_grows env cursor p :
  grows p (Part001.main_iter env cursor p).2.
Proof.
  unfold Part001.main_iter.
  pose proof (fetch_monotone (fun _ => None) (Part001.attempt_body env)
                (requestURL cursor) cursor maxRetries 1 (rt p)
                (Part001_one_request env)) as [Hs Hc].
  fold (Part001.fetchFollowers env cursor (rt p)) in Hs, Hc.
  destruct (Part001.fetchFollowers env cursor (rt p)) as [w [[fs c]|err]];
    cbn in Hs, Hc.
  - pose proof (saved_pass_grows Extended.exec_args _ Part001_save_all_or_nothing
                  (dbFaults env (txs p)) p w fs Hs Hc) as H.
    destruct (Part001.saveFollowers _ (db p) fs) as [d [e|]]; cbn in H; [exact H|].
    by destruct (String.eqb c "").
  - apply fetch_pass_grows; cbn; lia.
Qed.

(** X14. Whatever the network, the database engine and the signal do, and
    however long it runs, a run of the driver never loses a row of the
    table, leaves no transaction open, asks for exactly one transaction per
    call of [saveFollowers], keeps the earlier calls at the head of its
    list, and never sets the clock or the count of requests back.  For the
    first [resume_start] program and the current [clean_start] and
    [resume_start]. *)
Theorem run_only_adds :
  (forall env fuel startCursor p, grows p (Part001.main env fuel startCursor p).2)
  /\
  (forall env fuel p, grows p (CleanStart.main env fuel p).2)
  /\
  (forall env fuel startCursor p, grows p (ResumeStart.main env fuel startCursor p).2).
Proof.
  split; [|split].
  - intros env fuel c p. apply main_loop_grows. apply Part001_pass_grows.
  - intros env fuel p. apply main_loop_grows. apply CleanStart_pass_grows.
  - intros env fuel c p. apply main_loop_grows. apply ResumeStart_pass_grows.
Qed.

(** ** Running the program again *)

Lemma foldl_upsert_all_concat {Row Follower : Type}
    (args : Follower -> string * Row) (batches : list (list Follower))
    (m : gmap string Row) :
  foldl (sql.upsert_all args) m batches = sql.upsert_all args m (concat batches).
Proof.
  revert m. induction batches as [|l batches IH]; intros m; simpl; [done|].
  rewrite IH. unfold sql.upsert_all. by rewrite foldl_app.
Qed.

(** X15. Ingesting the same pages again changes nothing: when a run of the
    current [clean_start] has ingested a script of pages, a second run that
    is served the same pages and starts from the table the first one left
    ends with that very table. *)
Theorem second_run_changes_nothing :
  forall env env2 (pages : list (list Minimal.Follower * string)) p p2 fuel fuel2,
    cancelAt env = None -> cancelAt env2 = None ->
    (forall url, newRequestErr env url = None) ->
    (forall url, newRequestErr env2 url = None) ->
    ends_with_empty_token pages ->
    (forall i page, pages !! i = Some page ->
       serves (CleanStart.classify env) env (sent (rt p) + i) page /\
       healthy (dbFaults env (txs p + i))) ->
    (forall i page, pages !! i = Some page ->
       serves (CleanStart.classify env2) env2 (sent (rt p2) + i) page /\
       healthy (dbFaults env2 (txs p2 + i))) ->
    length pages <= fuel -> length pages <= fuel2 ->
    sql.table (db p2) = sql.table (db (CleanStart.main env fuel p).2) ->
    (CleanStart.main env2 fuel2 p2).1.1 = DONE /\
    sql.table (db (CleanStart.main env2 fuel2 p2).2) = sql.table (db p2).
Proof.
  intros env env2 pages p p2 fuel fuel2 Hsig Hsig2 Hreq Hreq2 Hend Hgood Hgood2
         Hfuel Hfuel2 Htable.
  destruct (main_loop_pages Minimal.exec_args (CleanStart.main_iter env)
              (fun k t page => serves (CleanStart.classify env) env k page /\
                               healthy (dbFaults env t))
              (CleanStart_pass env Hsig Hreq) pages "" p Hend Hgood fuel Hfuel)
    as (c & p' & Hrun & _ & _ & _ & Ht).
  destruct (main_loop_pages Minimal.exec_args (CleanStart.main_iter env2)
              (fun k t page => serves (CleanStart.classify env2) env2 k page /\
                               healthy (dbFaults env2 t))
              (CleanStart_pass env2 Hsig2 Hreq2) pages "" p2 Hend Hgood2 fuel2 Hfuel2)
    as (c2 & p2' & Hrun2 & _ & _ & _ & Ht2).
  unfold CleanStart.main in *. rewrite Hrun in Htable. rewrite Hrun2. cbn in *.
  split; [done|].
  rewrite Ht2, Htable, Ht, !foldl_upsert_all_concat.
  apply upsert_all_idemp.
Qed.

Lemma second_run_changes_nothing_witness :
  let env := Scenario.scripted Scenario.three_pages (fun _ => sql.no_faults) in
  let p2 := (CleanStart.main env 3 Scenario.start).2 in
  let env2 := Scenario.flaky 3 Scenario.three_pages in
  (CleanStart.main env2 5 p2).1.1 = DONE /\
  sql.table (db (CleanStart.main env2 5 p2).2) = sql.table (db p2).
Proof.
  intros env p2 env2.
  apply (second_run_changes_nothing env env2 (map snd Scenario.three_pages)
           Scenario.start p2 3 5).
  - reflexivity.
  - reflexivity.
  - intros url. reflexivity.
  - intros url. reflexivity.
  - cbn. repeat split; discriminate.
  - intros i page Hi. split; [|apply no_faults_healthy].
    destruct i as [|[|[|i]]]; cbn in Hi; inversion Hi; subst page;
      intros url; reflexivity.
  - intros i page Hi. split; [|apply no_faults_healthy].
    destruct i as [|[|[|i]]]; cbn in Hi; inversion Hi; subst page;
      intros url; vm_compute; reflexivity.
  - cbn. lia.
  - cbn. lia.
  - reflexivity.
Defined.

(** ** The root program *)

Lemma root_fetch_one_request_aux env jsonErr cursor w :
  events (Root.fetchFollowers env jsonErr cursor w).1 = events w /\
  sent w <= sent (Root.fetchFollowers env jsonErr cursor w).1 <= S (sent w).
Proof.
  unfold Root.fetchFollowers.
  pose proof (http_Get_one_request env (requestURL cursor) w) as (He & _ & Hs).
  destruct (http_Get env (requestURL cursor) w) as [w1 r]. cbn in He, Hs.
  destruct r as [err|status body [rerr|]]; cbn; [done..|].
  by destruct (json_Unmarshal env body) as [[fs c]|].
Qed.

(** X16. [fetchFollowers] of the root program sends at most one request,
    never waits and writes nothing to the trace; it returns a page exactly
    when the URL can be parsed and the request is answered by a response,
    of any status and any content type, whose body can be read and decodes
    to that page. *)
Theorem root_fetch_one_request :
  forall env jsonErr cursor w,
    events (Root.fetchFollowers env jsonErr cursor w).1 = events w /\
    sent w <= sent (Root.fetchFollowers env jsonErr cursor w).1 <= S (sent w) /\
    (forall followers newCursor,
        (Root.fetchFollowers env jsonErr cursor w).2 = Ok (followers, newCursor)
        <-> newRequestErr env (requestURL cursor) = None /\
            exists d status body,
              roundTrip env (sent w) (requestURL cursor)
              = (d, Response status body None) /\
              json_Unmarshal env body = Some (followers, newCursor)).
Proof.
  intros env jsonErr cursor w.
  destruct (root_fetch_one_request_aux env jsonErr cursor w) as [He Hs].
  split; [exact He|]. split; [exact Hs|].
  intros fs c. unfold Root.fetchFollowers, http_Get.
  destruct (newRequestErr env (requestURL cursor)) as [e|].
  { cbn. split; [done|]. by intros [? _]. }
  rewrite client_Do_spec.
  destruct (roundTrip env (sent w) (requestURL cursor)) as [d r]. cbn.
  destruct r as [err|status body [rerr|]]; cbn.
  - split; [done|]. by intros (_ & ? & ? & ? & ? & _).
  - split; [done|]. by intros (_ & ? & ? & ? & ? & _).
  - destruct (json_Unmarshal env body) as [[fs' c']|] eqn:Hj; cbn.
    + split.
      * intros H. inversion H; subst. split; [done|]. by exists d, status, body.
      * intros (_ & d' & st' & b' & Hr & Hj'). inversion Hr; subst. congruence.
    + split; [done|].
      intros (_ & d' & st' & b' & Hr & Hj'). inversion Hr; subst. congruence.
Qed.

(** An error page with status 500 whose body happens to decode. *)
Lemma root_fetch_one_request_witness :
  let env : Env Minimal.Follower :=
    mkEnv (Scenario.decode_table Scenario.three_pages)
          (fun _ => "text/plain; charset=utf-8") (fun _ => None)
          (fun _ _ => (1, Response 500 "{followers:[alice],cursor:a}" None))
          None (fun _ => sql.no_faults) in
  (Root.fetchFollowers env (fun _ => "unexpected end of JSON input") "" Scenario.boot).2
  = Ok ([Scenario.alice], "a").
Proof.
  intros env.
  apply (proj2 (proj2 (root_fetch_one_request env
                         (fun _ => "unexpected end of JSON input") "" Scenario.boot))).
  split; [reflexivity|].
  exists 1, 500, "{followers:[alice],cursor:a}". split; reflexivity.
Defined.

Lemma Root_pass env jsonErr :
  (forall url, newRequestErr env url = None) ->
  forall cursor p page,
    (forall url, exists d status body,
        roundTrip env (sent (rt p)) url = (d, Response status body None) /\
        json_Unmarshal env body = Some page) /\
    healthy (dbFaults env (txs p)) ->
    exists p',
      Root.main_iter env jsonErr cursor p
      = (if String.eqb page.2 "" then DONE else RUNNING,
         if String.eqb page.2 "" then cursor else page.2, p') /\
      page_done Minimal.exec_args page p p'.
Proof.
  intros Hreq cursor p [fs c] [Hserve Hdb].
  destruct (Hserve (requestURL cursor)) as (d & status & body & Hr & Hj).
  unfold Root.main_iter, Root.fetchFollowers, http_Get.
  rewrite Hreq, client_Do_spec, Hr. cbn. rewrite Hj.
  assert (Hsave : Root.saveFollowers (dbFaults env (txs p)) (db p) fs
                  = (sql.mkDB (sql.upsert_all Minimal.exec_args (sql.table (db p)) fs)
                              (sql.open_tx (db p)), None)).
  { unfold Root.saveFollowers. revert Hdb.
    generalize (dbFaults env (txs p)) as f, (db p) as d0. intros f d0.
    save_healthy f d0 fs. }
  rewrite Hsave. cbn.
  destruct (String.eqb c ""); eexists; (split; [reflexivity|]); by repeat split.
Qed.

(** X17. The driver of the root program.  It stops in [FAILED] at the
    first error, after at most one request for the page and without any
    wait; a failed save leaves the table as it was.  Served a script of
    pages whose tokens end with the empty token, by responses of any
    status whose bodies decode, with a working database engine, it ends in
    [DONE] after one request and one transaction per page, the batches
    saved in page order. *)
Theorem root_driver :
  (forall env jsonErr cursor p w err fuel,
      Root.fetchFollowers env jsonErr cursor (rt p) = (w, Err err) ->
      main_loop (Root.main_iter env jsonErr) (S fuel) cursor p
      = (FAILED err, cursor, mkProcess w (db p) (txs p) (saved p))
      /\ sent w <= S (sent (rt p)) /\ events w = events (rt p))
  /\
  (forall env jsonErr cursor p w followers newCursor d err fuel,
      Root.fetchFollowers env jsonErr cursor (rt p) = (w, Ok (followers, newCursor)) ->
      Root.saveFollowers (dbFaults env (txs p)) (db p) followers = (d, Some err) ->
      main_loop (Root.main_iter env jsonErr) (S fuel) cursor p
      = (FAILED err, cursor, mkProcess w d (S (txs p)) (saved p ++ [followers]))
      /\ sql.table d = sql.table (db p))
  /\
  (forall env jsonErr (pages : list (list Minimal.Follower * string)) p,
      (forall url, newRequestErr env url = None) ->
      ends_with_empty_token pages ->
      (forall i page, pages !! i = Some page ->
         (forall url, exists d status body,
             roundTrip env (sent (rt p) + i) url = (d, Response status body None) /\
             json_Unmarshal env body = Some page) /\
         healthy (dbFaults env (txs p + i))) ->
      forall fuel, length pages <= fuel ->
        exists c p',
          Root.main env jsonErr fuel p = (DONE, c, p') /\
          saved p' = saved p ++ map fst pages /\
          sent (rt p') = sent (rt p) + length pages /\
          txs p' = txs p + length pages /\
          sql.table (db p')
          = foldl (sql.upsert_all Minimal.exec_args) (sql.table (db p))
                  (map fst pages)).
Proof.
  split; [|split].
  - intros env jsonErr cursor p w err fuel Hf.
    destruct (root_fetch_one_request_aux env jsonErr cursor (rt p)) as (He & Hs).
    rewrite Hf in He, Hs. cbn in He, Hs.
    split; [|split; [lia | done]].
    cbn. unfold Root.main_iter. by rewrite Hf.
  - intros env jsonErr cursor p w fs c d err fuel Hf Hs.
    split.
    + cbn. unfold Root.main_iter. by rewrite Hf, Hs.
    + pose proof (Root_save_all_or_nothing (dbFaults env (txs p)) (db p) fs) as Ha.
      rewrite Hs in Ha. by destruct Ha.
  - intros env jsonErr pages p Hreq Hend Hgood fuel Hfuel.
    apply (main_loop_pages Minimal.exec_args (Root.main_iter env jsonErr)
             (fun k t page =>
                (forall url, exists d status body,
                    roundTrip env k url = (d, Response status body None) /\
                    json_Unmarshal env body = Some page) /\
                healthy (dbFaults env t))); try done.
    by apply Root_pass.
Qed.

Lemma root_driver_witness :
  let env := Scenario.scripted Scenario.three_pages (fun _ => sql.no_faults) in
  let jsonErr := fun _ : string => "unexpected end of JSON input" in
  (exists c p',
      Root.main env jsonErr 3 Scenario.start = (DONE, c, p') /\
      saved p' = [[Scenario.alice]; [Scenario.bob]; [Scenario.alice']] /\
      sent (rt p') = 3 /\ txs p' = 3 /\
      sql.table (db p')
      = foldl (sql.upsert_all Minimal.exec_args) ∅
              [[Scenario.alice]; [Scenario.bob]; [Scenario.alice']])
  /\
  Root.main (Scenario.offline None) jsonErr 3 Scenario.start
  = (FAILED "failed to make API request: dial tcp: connection refused", "",
     mkProcess (mkRuntime 0 1 []) Scenario.empty_db 0 []).
Proof.
  intros env jsonErr. split.
  - apply (proj2 (proj2 root_driver) env jsonErr (map snd Scenario.three_pages)
             Scenario.start).
    + intros url. reflexivity.
    + cbn. repeat split; discriminate.
    + intros i page Hi. split; [|apply no_faults_healthy].
      destruct i as [|[|[|i]]]; cbn in Hi; inversion Hi; subst page;
        intros url; eexists _, _, _; split; reflexivity.
    + cbn. lia.
  - apply (proj1 root_driver (Scenario.offline None) jsonErr "" Scenario.start
             (mkRuntime 0 1 [])
             "failed to make API request: dial tcp: connection refused" 2).
    reflexivity.
Defined.

(** ** The status of the response in unnamed/part_000 *)

(** X18. The program of unnamed/part_000 does not look at the status of a
    response: when the first response, whatever its status, has a body that
    can be read and decodes, [fetchFollowers] returns its page at the first
    attempt.  The programs written after it refuse such a response when its
    status is not 200: the first [resume_start] classifies it as a
    non-success status, to be retried. *)
Theorem part000_ignores_status :
  (forall env cursor w d status body followers newCursor,
      newRequestErr env (requestURL cursor) = None ->
      roundTrip env (sent w) (requestURL cursor) = (d, Response status body None) ->
      sniff.DetectContentType (sniffRest env) body ≠ "text/html" ->
      json_Unmarshal env body = Some (followers, newCursor) ->
      Part000.fetchFollowers env cursor w
      = (mkRuntime (clock w + d) (S (sent w))
           (events w ++ [EvAttempt (clock w) 1 (requestURL cursor)]),
         Ok (followers, newCursor)))
  /\
  (forall env status body readErr,
      status ≠ StatusOK ->
      Part001.classify env (Response status body readErr) = Retry NonSuccessStatus).
Proof.
  split.
  - intros env cursor w d status body fs c Hreq Hr Hs Hj.
    unfold Part000.fetchFollowers, maxRetries. cbn [retry_loop].
    unfold Part000.attempt_body, http_Get. rewrite Hreq, client_Do_spec.
    cbn [log_attempt sent clock events]. rewrite Hr. cbn.
    destruct (String.eqb_spec (sniff.DetectContentType (sniffRest env) body) "text/html");
      [done|].
    by rewrite Hj.
  - intros env status body readErr Hs. cbn.
    by destruct (Nat.eqb_spec status StatusOK).
Qed.

Lemma part000_ignores_status_witness :
  let env : Env Minimal.Follower :=
    mkEnv (Scenario.decode_table Scenario.three_pages)
          (fun _ => "text/plain; charset=utf-8") (fun _ => None)
          (fun _ _ => (1, Response 503 "{followers:[alice],cursor:a}" None))
          None (fun _ => sql.no_faults) in
  Part000.fetchFollowers env "" Scenario.boot
  = (mkRuntime 1 1 [EvAttempt 0 1 baseURL], Ok ([Scenario.alice], "a"))
  /\
  Part001.classify (Scenario.offline None)
    (Response 503 "{followers:[alice],cursor:a}" None)
  = Retry NonSuccessStatus.
Proof.
  intros env. split.
  - apply (proj1 part000_ignores_status env "" Scenario.boot 1 503
             "{followers:[alice],cursor:a}" [Scenario.alice] "a").
    + reflexivity.
    + reflexivity.
    + discriminate.
    + reflexivity.
  - apply (proj2 part000_ignores_status). discriminate.
Defined.

(** ** The JSON logger *)

Lemma logEntry_lookup level msg now (fields : gmap string JSONLogger.any) k :
  JSONLogger.logEntry level msg now fields !! k
  = match fields !! k with
    | Some v => Some v
    | None =>
        (<["level" := JSONLogger.AString level]>
           (<["message" := JSONLogger.AString msg]>
              (<["timestamp" := JSONLogger.AString now]> ∅))
         : gmap string JSONLogger.any) !! k
    end.
Proof.
  unfold JSONLogger.logEntry.
  apply (map_fold_weak_ind
           (fun r (m : gmap string JSONLogger.any) =>
              r !! k = match m !! k with
                       | Some v => Some v
                       | None => _ !! k
                       end)).
  - by rewrite lookup_empty.
  - intros i x m r Hi IH. destruct (decide (i = k)) as [->|Hne].
    + by rewrite (lookup_insert_eq r k x), (lookup_insert_eq m k x).
    + by rewrite (lookup_insert_ne r i k x Hne), (lookup_insert_ne m i k x Hne).
Qed.

(** X19. The entry that the JSON logger marshals: every field given by the
    caller is in it with its value, also when it is called "level",
    "message" or "timestamp", in which case it replaces the logger's own
    value; the logger's level, message and timestamp are there whenever no
    field has their name; and the entry has no other key. *)
Theorem log_entry_fields_override :
  forall level msg now (fields : gmap string JSONLogger.any),
    (forall k v, fields !! k = Some v ->
                 JSONLogger.logEntry level msg now fields !! k = Some v)
    /\
    (fields !! "level" = None ->
     JSONLogger.logEntry level msg now fields !! "level"
     = Some (JSONLogger.AString level))
    /\
    (fields !! "message" = None ->
     JSONLogger.logEntry level msg now fields !! "message"
     = Some (JSONLogger.AString msg))
    /\
    (fields !! "timestamp" = None ->
     JSONLogger.logEntry level msg now fields !! "timestamp"
     = Some (JSONLogger.AString now))
    /\
    (forall k, is_Some (JSONLogger.logEntry level msg now fields !! k)
               <-> is_Some (fields !! k)
                   \/ k = "level" \/ k = "message" \/ k = "timestamp").
Proof.
  intros level msg now fields. repeat split.
  - intros k v H. by rewrite logEntry_lookup, H.
  - intros H. by rewrite logEntry_lookup, H.
  - intros H. by rewrite logEntry_lookup, H.
  - intros H. by rewrite logEntry_lookup, H.
  - rewrite logEntry_lookup. destruct (fields !! k) as [v|]; [by left|].
    rewrite !lookup_insert_is_Some', lookup_empty. intros [H|[H|[H|H]]].
    + right. by left.
    + right. right. by left.
    + right. right. by right.
    + by destruct H.
  - rewrite logEntry_lookup. intros [H|H].
    + destruct (fields !! k) as [v|]; [by eexists | by destruct H].
    + destruct (fields !! k) as [v|]; [by eexists|].
      rewrite !lookup_insert_is_Some'. destruct H as [-> | [-> | ->]]; auto.
Qed.

(** A field called "message" hides the message of the call. *)
Lemma log_entry_fields_override_witness :
  let fields : gmap string JSONLogger.any :=
    <["message" := JSONLogger.AString "from the caller"]>
      (<["count" := JSONLogger.AInt 30]> ∅) in
  JSONLogger.logEntry "INFO" "Fetched followers" "2024-11-07T16:38:35Z" fields
    !! "message" = Some (JSONLogger.AString "from the caller")
  /\
  JSONLogger.logEntry "INFO" "Fetched followers" "2024-11-07T16:38:35Z" fields
    !! "level" = Some (JSONLogger.AString "INFO").
Proof.
  intros fields.
  destruct (log_entry_fields_override "INFO" "Fetched followers"
              "2024-11-07T16:38:35Z" fields) as (H1 & H2 & _).
  split.
  - apply H1. reflexivity.
  - apply H2. reflexivity.
Defined.

(** ** Labels that cannot be told apart *)

(** X20. The [labels] column does not escape its separators: a colon in a
    value cannot be told from the colon after the type, and a comma in a
    value makes one label look like two.  Different label lists are stored
    as the same string. *)
Theorem label_string_is_ambiguous :
  forall did h dn av vw ca de ia,
    let with_labels ls := Extended.mkFollower did h dn av vw ls ca de ia in
    (forall t v v',
        Extended.labelStr (with_labels [Extended.mkLabel t (v +:+ ":" +:+ v')])
        = Extended.labelStr (with_labels [Extended.mkLabel (t +:+ ":" +:+ v) v']))
    /\
    (forall t1 v1 t2 v2,
        Extended.labelStr
          (with_labels [Extended.mkLabel t1 (v1 +:+ "," +:+ t2 +:+ ":" +:+ v2)])
        = Extended.labelStr
            (with_labels [Extended.mkLabel t1 v1; Extended.mkLabel t2 v2])).
Proof.
  intros did h dn av vw ca de ia with_labels. split.
  - intros t v v'. unfold with_labels. rewrite !labelStr_join. cbn.
    unfold Extended.label_pair. cbn. by rewrite !append_assoc.
  - intros t1 v1 t2 v2. unfold with_labels. rewrite !labelStr_join. cbn.
    unfold Extended.label_pair. cbn. by rewrite !append_assoc.
Qed.

(** ** Resuming *)

Lemma ResumeStart_save_healthy f d (l : list Extended.Follower) :
  healthy f ->
  ResumeStart.saveFollowers f d l
  = (sql.mkDB (sql.upsert_all Extended.exec_args (sql.table d) l) (sql.open_tx d), None).
Proof. unfold ResumeStart.saveFollowers. save_healthy f d l. Qed.

Lemma ResumeStart_pass env :
  cancelAt env = None ->
  (forall url, newRequestErr env url = None) ->
  forall cursor p page,
    serves (ResumeStart.classify env) env (sent (rt p)) page /\
    healthy (dbFaults env (txs p)) ->
    exists p',
      ResumeStart.main_iter env cursor p
      = (if String.eqb page.2 "" then DONE else RUNNING,
         if String.eqb page.2 "" then cursor else page.2, p') /\
      page_done Extended.exec_args page p p'.
Proof.
  intros Hsig Hreq cursor p [fs c] [Hserve Hdb].
  pose proof (ctx_Err_no_signal env Hsig) as Hctx.
  assert (Hfetch : exists w', ResumeStart.fetchFollowers env cursor (rt p)
                              = (w', Ok (fs, c)) /\ sent w' = S (sent (rt p))).
  { unfold ResumeStart.fetchFollowers, maxRetries. cbn [retry_loop]. rewrite Hctx.
    unfold ResumeStart.attempt_body. rewrite Hreq, client_Do_spec.
    cbn [log_attempt sent clock events]. rewrite (Hserve (requestURL cursor)).
    eexists. split; reflexivity. }
  destruct Hfetch as (w' & Hfetch & Hsent).
  unfold ResumeStart.main_iter.
  rewrite Hctx, Hfetch, (ResumeStart_save_healthy _ _ _ Hdb). cbn.
  destruct (String.eqb c ""); eexists; (split; [reflexivity|]); by repeat split.
Qed.

(** X21. Resuming completes the table.  Let the table hold the batches of
    the first pages of a collection, and let the current [resume_start],
    started from any token, be served the remaining pages, whose tokens end
    with the empty token, with no signal and a working database engine.
    Then it ends in [DONE], with one request and one transaction per
    remaining page, and the table is the one an uninterrupted ingestion of
    all the pages produces. *)
Theorem resumed_run_completes :
  forall env (m : gmap string Extended.Row)
         (before rest : list (list Extended.Follower * string)) startCursor p,
    cancelAt env = None ->
    (forall url, newRequestErr env url = None) ->
    ends_with_empty_token rest ->
    (forall i page, rest !! i = Some page ->
       serves (ResumeStart.classify env) env (sent (rt p) + i) page /\
       healthy (dbFaults env (txs p + i))) ->
    sql.table (db p) = foldl (sql.upsert_all Extended.exec_args) m (map fst before) ->
    forall fuel, length rest <= fuel ->
      exists c p',
        ResumeStart.main env fuel startCursor p = (DONE, c, p') /\
        sent (rt p') = sent (rt p) + length rest /\
        txs p' = txs p + length rest /\
        sql.table (db p')
        = foldl (sql.upsert_all Extended.exec_args) m (map fst (before ++ rest)).
Proof.
  intros env m before rest c0 p Hsig Hreq Hend Hgood Htable fuel Hfuel.
  destruct (main_loop_pages Extended.exec_args (ResumeStart.main_iter env)
              (fun k t page => serves (ResumeStart.classify env) env k page /\
                               healthy (dbFaults env t))
              (ResumeStart_pass env Hsig Hreq) rest c0 p Hend Hgood fuel Hfuel)
    as (c & p' & Hrun & _ & Hs & Ht & Hd).
  exists c, p'. split; [exact Hrun|]. split; [exact Hs|]. split; [exact Ht|].
  by rewrite Hd, Htable, map_app, foldl_app.
Qed.

Lemma resumed_run_completes_witness :
  let env := Scenario.scripted (drop 1 Scenario.two_pages) (fun _ => sql.no_faults) in
  let p := mkProcess Scenario.boot
             (sql.mkDB (sql.upsert_all Extended.exec_args ∅
                          [Scenario.carol; Scenario.dave]) 0) 0 [] in
  exists c p',
    ResumeStart.main env 2 "n" p = (DONE, c, p') /\
    sent (rt p') = 1 /\ txs p' = 1 /\
    sql.table (db p')
    = foldl (sql.upsert_all Extended.exec_args) ∅
            [[Scenario.carol; Scenario.dave]; [Scenario.carol]].
Proof.
  intros env p.
  apply (resumed_run_completes env ∅ (take 1 (map snd Scenario.two_pages))
           (drop 1 (map snd Scenario.two_pages)) "n" p).
  - reflexivity.
  - intros url. reflexivity.
  - cbn. reflexivity.
  - intros i page Hi. split; [|apply no_faults_healthy].
    destruct i as [|i]; cbn in Hi; inversion Hi; subst page.
    intros url. reflexivity.
  - reflexivity.
  - cbn. lia.
Defined.

(** ** The driver of unnamed/part_000 *)

(** X22. In the program of unnamed/part_000, when every request fails
    (transport error, unreadable body or body that does not decode) the
    first pass ends the run in [FAILED] with the exhausted-retries error,
    after five attempts and at least 15 seconds, the database
    untouched. *)
Theorem part000_driver_fails_after_retries :
  forall env,
    (forall k url, exists why,
        Part000.classify env (roundTrip env k url).2 = Retry why) ->
    forall fuel p, exists w,
      Part000.main env (S fuel) p
      = (FAILED "exceeded max retries for cursor ", "",
         mkProcess w (db p) (txs p) (saved p)) /\
      (exists evs, events w = events (rt p) ++ evs /\
                   shape evs = backoff_shape baseURL 1 maxRetries) /\
      clock (rt p) + 15 <= clock w.
Proof.
  intros env Hfail fuel p.
  destruct (retry_loop_exhausted (fun _ => None) (Part000.attempt_body env)
              (requestURL "") "" (fun _ => eq_refl) maxRetries 1 (rt p))
    as (w' & evs & Hr & Hev & Hsh & _ & Hc).
  - intros w1 _. unfold Part000.attempt_body, http_Get.
    destruct (newRequestErr env (requestURL "")).
    + exists w1, TransportFailure. cbn. repeat split; lia.
    + rewrite client_Do_spec.
      destruct (Hfail (sent w1) (requestURL "")) as [why ->].
      eexists _, why. cbn. repeat split; cbn; lia.
  - exists w'. split; [|split].
    + unfold Part000.main. cbn [main_loop]. unfold Part000.main_iter.
      unfold Part000.fetchFollowers. by rewrite Hr.
    + by exists evs.
    + cbn in Hc. lia.
Qed.

Lemma part000_driver_fails_after_retries_witness :
  exists w,
    Part000.main (Scenario.offline None) 2 Scenario.start
    = (FAILED "exceeded max retries for cursor ", "",
       mkProcess w Scenario.empty_db 0 []) /\
    (exists evs, events w = [] ++ evs /\
                 shape evs = backoff_shape baseURL 1 maxRetries) /\
    15 <= clock w.
Proof.
  apply (part000_driver_fails_after_retries (Scenario.offline None)
           (fun _ _ => ex_intro _ TransportFailure eq_refl) 1 Scenario.start).
Defined.
